(** * Release-notes scraper: extraction, normalisation and classification

    A shallow embedding of the pipeline of [changelog.py]
    (class [ReleaseNotesScraper]) together with the properties its
    specification states about it, followed by further properties of the
    feed parser, the HTML extractor, the renderers, the command line and
    the cut-off of the earlier script [gcp-changelog.py], and by the
    categories and the date filter on every kind of source (feeds, HTML
    pages, the embedded script and the three blogs).

    Conventions of the embedding:
    - Python [str] values are [string]s over ASCII; [str.lower],
      [str.strip], [in], [startswith] are written out below.
    - [None] / a value is [option]; Python truthiness ([if x:],
      [if not x:]) is spelled out at every use.
    - [datetime] values are an ordinal day number plus the microsecond
      within the day, the representation on which [timedelta] arithmetic
      and the comparison operators work.
    - Exceptions are explicit: a computation returns [Ok v] or [Raise e].
    - The HTTP client, the tree builders, the regular expressions and
      the clock are parameters of the functions that call them; a page
      is read through the queries the code makes on it. *)

From Stdlib Require Import ZArith String Ascii List Bool Lia.
From stdpp Require Import base strings list gmap.

Import ListNotations.
Local Open Scope string_scope.

(* ===================================================================== *)
(** * Part I: the program                                                 *)
(* ===================================================================== *)

(** ** Python string primitives *)

Module PyStr.

(** [c.lower()] for one ASCII character. *)
Definition lower_char (c : ascii) : ascii :=
  let n := nat_of_ascii c in
  if (65 <=? n)%nat && (n <=? 90)%nat then ascii_of_nat (n + 32) else c.

(** [s.lower()] *)
Fixpoint lower (s : string) : string :=
  match s with
  | EmptyString => EmptyString
  | String c s' => String (lower_char c) (lower s')
  end.

(** [s.startswith(p)] *)
Fixpoint startswith (s p : string) {struct p} : bool :=
  match p, s with
  | EmptyString, _ => true
  | String _ _, EmptyString => false
  | String a p', String b s' => if Ascii.eqb a b then startswith s' p' else false
  end.

(** [needle in hay] *)
Fixpoint contains (hay needle : string) : bool :=
  startswith hay needle ||
  match hay with
  | EmptyString => false
  | String _ hay' => contains hay' needle
  end.

(** [any(k in s for k in keywords)] *)
Definition any_in (s : string) (keywords : list string) : bool :=
  existsb (contains s) keywords.

(** The characters removed by [str.strip()] and matched by the regular
    expression class [\s] on ASCII text: space, tab, line feed, vertical
    tab, form feed, carriage return and the four separators 28..31. *)
Definition is_space (c : ascii) : bool :=
  let n := nat_of_ascii c in
  (n =? 32)%nat || ((9 <=? n)%nat && (n <=? 13)%nat)
  || ((28 <=? n)%nat && (n <=? 31)%nat).

Fixpoint lstrip (s : string) : string :=
  match s with
  | String c s' => if is_space c then lstrip s' else s
  | EmptyString => EmptyString
  end.

(** [rstrip]: a character is kept when it is not blank or when something
    is kept after it. *)
Fixpoint rstrip (s : string) : string :=
  match s with
  | EmptyString => EmptyString
  | String c s' =>
      match rstrip s' with
      | EmptyString => if is_space c then EmptyString else String c EmptyString
      | r => String c r
      end
  end.

(** [s.strip()] *)
Definition strip (s : string) : string := rstrip (lstrip s).

(** [s[n:]] *)
Fixpoint drop (n : nat) (s : string) : string :=
  match n, s with
  | O, _ => s
  | S n', String _ s' => drop n' s'
  | S _, EmptyString => EmptyString
  end.

(** [s.endswith(suffix)] *)
Definition endswith (s suffix : string) : bool :=
  (String.length suffix <=? String.length s)%nat
  && String.eqb (drop (String.length s - String.length suffix) s) suffix.

(** [' '.join(parts)] *)
Fixpoint join_space (parts : list string) : string :=
  match parts with
  | [] => ""
  | [p] => p
  | p :: rest => p +:+ " " +:+ join_space rest
  end.

(** [len(s)] *)
Definition len (s : string) : Z := Z.of_nat (String.length s).

(** Python truthiness of a [str]: the empty string is false. *)
Definition truthy (s : string) : bool :=
  match s with EmptyString => false | _ => true end.

(** Truthiness of an [Optional[str]]: [None] and [''] are false. *)
Definition truthy_opt (o : option string) : bool :=
  match o with Some s => truthy s | None => false end.

End PyStr.

(** ** Markup elements

    What the pipeline reads off a parsed tag: its name, its [class]
    attribute, [get_text(strip=True)], [str(tag)] (the raw markup) and
    the non-empty [href]s of the anchors below it. *)

Record element := Element {
  el_name : string;
  el_class : list string;
  el_get_text : string;
  el_str : string;
  el_hrefs : list string
}.

(** ** The classifier: [_categorize_item] *)

Module Classifier.
Import PyStr.

Definition VALID_CATEGORIES : list string :=
  [ "ga"; "public-preview"; "breaking"; "security"; "deprecated"; "fixed";
    "issue"; "change"; "announcement"; "libraries"; "update" ].

(** The structural branch: [Some c] when one of the five marker classes
    occurs in the joined class string, [None] when control falls through
    to the text analysis. *)
Definition class_hint (e : element) : option string :=
  let class_str := join_space (el_class e) in
  if contains class_str "release-feature" then
    let element_text := el_get_text e in
    if contains element_text "(Preview)" || contains element_text "(preview)"
    then Some "public-preview" else Some "ga"
  else if contains class_str "release-changed" then Some "change"
  else if contains class_str "release-announcement" then Some "announcement"
  else if contains class_str "release-breaking" then Some "breaking"
  else if contains class_str "release-issue" then Some "issue"
  else None.

(** The keyword cascade applied to the lower-cased text. *)
Definition categorize_text (text : string) : string :=
  let text_lower := lower text in
  if any_in text_lower ["security"; "vulnerability"; "cve"; "patch"] then "security"
  else if any_in text_lower ["breaking change"; "breaking change:"; "migration required"; "major version update"] then "breaking"
  else if any_in text_lower ["(preview)"; "public preview"; "in preview"; "preview)"; "early access"; "beta"] then "public-preview"
  else if any_in text_lower ["generally available"; "general availability"; "(ga)"; "is now ga"; "is in ga"; "in general availability"] then "ga"
  else if any_in text_lower ["deprecated"; "deprecation"; "obsolete"; "removed"; "discontinued"] then "deprecated"
  else if any_in text_lower ["fixed"; "fix:"; "resolved"; "bug"] then "fixed"
  else if any_in text_lower ["issue"; "known issue"; "workaround"] then "issue"
  else if any_in text_lower ["changed:"; "migration required"; "version updates"] then "change"
  else if any_in text_lower ["announced"; "announcement"; "introducing"] then "announcement"
  else if any_in text_lower ["library"; "sdk"; "api"; "client library"; "framework"] then "libraries"
  else "update".

(** [_categorize_item(self, element=None, text=None)] *)
Definition _categorize_item (element : option element) (text : option string) : string :=
  match match element with Some e => class_hint e | None => None end with
  | Some category => category
  | None =>
      let text :=
        if negb (truthy_opt text) then
          match element with
          | Some e => Some (el_get_text e)
          | None => text
          end
        else text in
      match text with
      | Some t => if truthy t then categorize_text t else "update"
      | None => "update"
      end
  end.

(** The specification's reading of the text rule: an ordered table of
    keyword groups, scanned front to back, first hit wins. *)
Definition KEYWORD_GROUPS : list (string * list string) :=
  [ ("security", ["security"; "vulnerability"; "cve"; "patch"]);
    ("breaking", ["breaking change"; "breaking change:"; "migration required"; "major version update"]);
    ("public-preview", ["(preview)"; "public preview"; "in preview"; "preview)"; "early access"; "beta"]);
    ("ga", ["generally available"; "general availability"; "(ga)"; "is now ga"; "is in ga"; "in general availability"]);
    ("deprecated", ["deprecated"; "deprecation"; "obsolete"; "removed"; "discontinued"]);
    ("fixed", ["fixed"; "fix:"; "resolved"; "bug"]);
    ("issue", ["issue"; "known issue"; "workaround"]);
    ("change", ["changed:"; "migration required"; "version updates"]);
    ("announcement", ["announced"; "announcement"; "introducing"]);
    ("libraries", ["library"; "sdk"; "api"; "client library"; "framework"]) ].

Fixpoint first_match (groups : list (string * list string)) (text_lower : string) : string :=
  match groups with
  | [] => "update"
  | (category, keywords) :: rest =>
      if any_in text_lower keywords then category else first_match rest text_lower
  end.

Definition PRIORITY : list string :=
  [ "security"; "breaking"; "public-preview"; "ga"; "deprecated"; "fixed";
    "issue"; "change"; "announcement"; "libraries" ].

(** No marker class is recognised: there is no element, or its joined
    class string contains none of the five markers. *)
Definition no_class_hint (element : option element) : Prop :=
  match element with
  | None => True
  | Some e => class_hint e = None
  end.

(** The text the cascade runs on: the [text] argument, or the element's
    own text when [text] is missing or empty. *)
Definition effective_text (element : option element) (text : option string) : string :=
  match text with
  | Some (String c s) => String c s
  | _ => match element with Some e => el_get_text e | None => "" end
  end.

End Classifier.

(** ** Exceptions and results *)

Inductive exn :=
| ValueError
| OverflowError
| AttributeError
| KeyError
| ParseError
| TypeError
| RequestException (status_code : option Z).

Inductive result (A : Type) :=
| Ok (a : A)
| Raise (e : exn).
Arguments Ok {A} a.
Arguments Raise {A} e.

(** ** [datetime] and [timedelta]

    A naive [datetime] is held as its proleptic Gregorian ordinal (day 1 is
    0001-01-01, as [toordinal()] gives it) and the microsecond within the
    day.  A [timedelta] is its total number of microseconds.  The calendar
    functions are those of the standard library's [datetime] module. *)

Module DateTime.
Local Open Scope Z_scope.

Record datetime := mkdt { toordinal : Z; usec_of_day : Z }.

Definition US_PER_SECOND : Z := 1000000.
Definition US_PER_DAY : Z := 86400 * US_PER_SECOND.
Definition MAXORDINAL : Z := 3652059.

Definition to_micros (d : datetime) : Z := toordinal d * US_PER_DAY + usec_of_day d.

(** Comparison operators of [datetime]. *)
Definition le (a b : datetime) : bool := to_micros a <=? to_micros b.
Definition ge (a b : datetime) : bool := to_micros b <=? to_micros a.
Definition gt (a b : datetime) : bool := to_micros b <? to_micros a.

(** [timedelta(days=.., hours=.., minutes=.., weeks=..)] *)
Definition timedelta (weeks days hours minutes seconds : Z) : Z :=
  ((((weeks * 7 + days) * 24 + hours) * 60 + minutes) * 60 + seconds) * US_PER_SECOND.

Definition days (n : Z) : Z := timedelta 0 n 0 0 0.
Definition hours (n : Z) : Z := timedelta 0 0 n 0 0.
Definition minutes (n : Z) : Z := timedelta 0 0 0 n 0.
Definition weeks (n : Z) : Z := timedelta n 0 0 0 0.
Definition seconds (n : Z) : Z := timedelta 0 0 0 0 n.

(** The instant [delta] microseconds away, without a range check (used
    to name instants, not to model a Python operation). *)
Definition shift (d : datetime) (delta : Z) : datetime :=
  let t := to_micros d + delta in
  mkdt (t / US_PER_DAY) (t mod US_PER_DAY).

(** [d - td]: [OverflowError] when the day leaves [1..MAXORDINAL]. *)
Definition sub (d : datetime) (td : Z) : result datetime :=
  let r := shift d (- td) in
  if (0 <? toordinal r) && (toordinal r <=? MAXORDINAL) then Ok r
  else Raise OverflowError.

(** [d.replace(hour=h, minute=m, second=s, microsecond=us)] *)
Definition replace_time (d : datetime) (h m s us : Z) : datetime :=
  mkdt (toordinal d) (((h * 60 + m) * 60 + s) * US_PER_SECOND + us).

(** [d.replace(hour=h, minute=m, second=s)]: the microsecond is kept. *)
Definition replace_hms (d : datetime) (h m s : Z) : datetime :=
  replace_time d h m s (usec_of_day d mod US_PER_SECOND).

(** *** The calendar *)

Definition is_leap (year : Z) : bool :=
  (year mod 4 =? 0) && (negb (year mod 100 =? 0) || (year mod 400 =? 0)).

Definition days_before_year (year : Z) : Z :=
  let y := year - 1 in
  y * 365 + y / 4 - y / 100 + y / 400.

Definition days_in_month (year month : Z) : Z :=
  match month with
  | 2 => if is_leap year then 29 else 28
  | 4 | 6 | 9 | 11 => 30
  | _ => 31
  end.

Definition days_before_month (year month : Z) : Z :=
  match month with
  | 1 => 0 | 2 => 31 | 3 => 59 | 4 => 90 | 5 => 120 | 6 => 151
  | 7 => 181 | 8 => 212 | 9 => 243 | 10 => 273 | 11 => 304 | _ => 334
  end + (if (2 <? month) && is_leap year then 1 else 0).

Definition ymd2ord (year month day : Z) : Z :=
  days_before_year year + days_before_month year month + day.

(** [datetime(year, month, day)]: midnight of that day, [None] standing
    for the [ValueError] of an impossible date. *)
Definition make (year month day : Z) : option datetime :=
  if (1 <=? year) && (year <=? 9999) && (1 <=? month) && (month <=? 12)
     && (1 <=? day) && (day <=? days_in_month year month)
  then Some (mkdt (ymd2ord year month day) 0)
  else None.

(** [_ord2ymd]: the calendar date of an ordinal. *)
Definition ord2ymd (n : Z) : Z * Z * Z :=
  let n := n - 1 in
  let n400 := n / 146097 in let n := n mod 146097 in
  let year := n400 * 400 + 1 in
  let n100 := n / 36524 in let n := n mod 36524 in
  let n4 := n / 1461 in let n := n mod 1461 in
  let n1 := n / 365 in let n := n mod 365 in
  let year := year + n100 * 100 + n4 * 4 + n1 in
  if (n1 =? 4) || (n100 =? 4) then (year - 1, 12, 31)
  else
    let leapyear := (n1 =? 3) && (negb (n4 =? 24) || (n100 =? 3)) in
    let month := Z.shiftr (n + 50) 5 in
    let preceding :=
      days_before_month 1 month + (if (2 <? month) && leapyear then 1 else 0) in
    if n <? preceding then
      let month := month - 1 in
      let preceding :=
        preceding - (if (month =? 2) && leapyear then 29 else days_in_month 1 month) in
      (year, month, n - preceding + 1)
    else (year, month, n - preceding + 1).

Definition year (d : datetime) : Z := fst (fst (ord2ymd (toordinal d))).
Definition month (d : datetime) : Z := snd (fst (ord2ymd (toordinal d))).
Definition day (d : datetime) : Z := snd (ord2ymd (toordinal d)).

(** [d.replace(year=y)]: same month, day and time of day in year [y];
    [None] for the [ValueError] of 29 February in a common year. *)
Definition replace_year (d : datetime) (y : Z) : option datetime :=
  match make y (month d) (day d) with
  | Some d' => Some (mkdt (toordinal d') (usec_of_day d))
  | None => None
  end.

(** A datetime written by its fields, for examples. *)
Definition at_ (year month day h m s : Z) : datetime :=
  mkdt (ymd2ord year month day) ((h * 60 + m) * 60 * US_PER_SECOND + s * US_PER_SECOND).

End DateTime.

(** ** [datetime.strptime]

    The standard library turns a format into a regular expression (matched
    ignoring case, from the start of the string), takes the first match in
    backtracking order, rejects the string when text remains after it, and
    builds the date from the captured fields with the year defaulting to
    1900 and month and day to 1 (for 29 February without a year the
    library computes in 1904 and then sets the year back to 1900, so the
    constructor is called with 1900-02-29 and raises).  Each directive
    below lists its alternatives in the order of that regular expression;
    the month names are those of the C locale, and their order in the
    alternation does not matter since none starts another. *)

Module Strptime.
Import PyStr DateTime.
Local Open Scope Z_scope.

Inductive directive :=
| D_b            (* %b: abbreviated month name *)
| D_B            (* %B: full month name *)
| D_d            (* %d: 3[0-1]|[1-2]\d|0[1-9]|[1-9]| [1-9] *)
| D_m            (* %m: 1[0-2]|0[1-9]|[1-9] *)
| D_Y            (* %Y: \d\d\d\d *)
| D_ws           (* blanks in the format: \s+ *)
| D_lit (c : ascii).

Record fields := mkfields { f_year : option Z; f_month : option Z; f_day : option Z }.

Definition no_fields : fields := mkfields None None None.
Definition set_year (y : Z) (f : fields) := mkfields (Some y) (f_month f) (f_day f).
Definition set_month (m : Z) (f : fields) := mkfields (f_year f) (Some m) (f_day f).
Definition set_day (d : Z) (f : fields) := mkfields (f_year f) (f_month f) (Some d).

Definition is_digit (c : ascii) : bool :=
  let n := nat_of_ascii c in (48 <=? n)%nat && (n <=? 57)%nat.

Definition digit_val (c : ascii) : Z := Z.of_nat (nat_of_ascii c) - 48.

Definition char_between (lo hi c : ascii) : bool :=
  (nat_of_ascii lo <=? nat_of_ascii c)%nat && (nat_of_ascii c <=? nat_of_ascii hi)%nat.

Definition MONTHS_ABBR : list string :=
  ["jan"; "feb"; "mar"; "apr"; "may"; "jun"; "jul"; "aug"; "sep"; "oct"; "nov"; "dec"].

Definition MONTHS_FULL : list string :=
  ["january"; "february"; "march"; "april"; "may"; "june"; "july"; "august";
   "september"; "october"; "november"; "december"].

(** The month names that start [s], with their month number. *)
Fixpoint month_alts (names : list string) (k : Z) (s : string)
  : list ((fields -> fields) * string) :=
  match names with
  | [] => []
  | name :: rest =>
      (if startswith s name then [(set_month k, drop (String.length name) s)] else [])
      ++ month_alts rest (k + 1) s
  end.

(** Two characters [a] in [lo1..hi1] and [b] in [lo2..hi2]. *)
Definition two (lo1 hi1 lo2 hi2 : ascii) (s : string) : list (Z * string) :=
  match s with
  | String a (String b rest) =>
      if char_between lo1 hi1 a && char_between lo2 hi2 b
      then [(digit_val a * 10 + digit_val b, rest)] else []
  | _ => []
  end.

Definition one (lo hi : ascii) (s : string) : list (Z * string) :=
  match s with
  | String a rest => if char_between lo hi a then [(digit_val a, rest)] else []
  | _ => []
  end.

Definition blank_one (s : string) : list (Z * string) :=
  match s with
  | String " " (String b rest) => if char_between "1" "9" b then [(digit_val b, rest)] else []
  | _ => []
  end.

Definition four_digits (s : string) : list (Z * string) :=
  match s with
  | String a (String b (String c (String d rest))) =>
      if is_digit a && is_digit b && is_digit c && is_digit d
      then [(((digit_val a * 10 + digit_val b) * 10 + digit_val c) * 10 + digit_val d, rest)]
      else []
  | _ => []
  end.

(** [\s+], greedy: the longest run of blanks first, then shorter ones. *)
Fixpoint blanks (s : string) : list string :=
  match s with
  | String c s' => if is_space c then blanks s' ++ [s'] else []
  | EmptyString => []
  end.

Definition with_field {A} (set : A -> fields -> fields) (l : list (A * string))
  : list ((fields -> fields) * string) :=
  map (fun '(v, rest) => (set v, rest)) l.

Definition alternatives (d : directive) (s : string) : list ((fields -> fields) * string) :=
  match d with
  | D_b => month_alts MONTHS_ABBR 1 s
  | D_B => month_alts MONTHS_FULL 1 s
  | D_d => with_field set_day
             (two "3" "3" "0" "1" s ++ two "1" "2" "0" "9" s ++ two "0" "0" "1" "9" s
              ++ one "1" "9" s ++ blank_one s)
  | D_m => with_field set_month
             (two "1" "1" "0" "2" s ++ two "0" "0" "1" "9" s ++ one "1" "9" s)
  | D_Y => with_field set_year (four_digits s)
  | D_ws => map (fun rest => (fun f : fields => f, rest)) (blanks s)
  | D_lit c =>
      match s with
      | String a rest => if Ascii.eqb a c then [(fun f : fields => f, rest)] else []
      | EmptyString => []
      end
  end.

Fixpoint first_some {A B} (f : A -> option B) (l : list A) : option B :=
  match l with
  | [] => None
  | a :: l' => match f a with Some b => Some b | None => first_some f l' end
  end.

(** The first match of the format in backtracking order. *)
Fixpoint run (fmt : list directive) (s : string) (acc : fields) : option (fields * string) :=
  match fmt with
  | [] => Some (acc, s)
  | d :: fmt' =>
      first_some (fun alt : (fields -> fields) * string =>
                    run fmt' (snd alt) (fst alt acc))
                 (alternatives d s)
  end.

(** [datetime.strptime(s, fmt)]; [None] is [ValueError]. *)
Definition strptime (s : string) (fmt : list directive) : option datetime :=
  match run fmt (lower s) no_fields with
  | Some (f, EmptyString) =>
      make (default 1900 (f_year f)) (default 1 (f_month f)) (default 1 (f_day f))
  | _ => None
  end.

Definition lit (s : string) : list directive :=
  map D_lit (list_ascii_of_string s).

(* '%B %d, %Y' *)
Definition FMT_B_d_Y : list directive := [D_B; D_ws; D_d] ++ lit "," ++ [D_ws; D_Y].
(* '%b %d, %Y' *)
Definition FMT_b_d_Y : list directive := [D_b; D_ws; D_d] ++ lit "," ++ [D_ws; D_Y].
(* '%b %d %Y' *)
Definition FMT_b_d_Y_plain : list directive := [D_b; D_ws; D_d; D_ws; D_Y].
(* '%B %d %Y' *)
Definition FMT_B_d_Y_plain : list directive := [D_B; D_ws; D_d; D_ws; D_Y].
(* '%b %d' *)
Definition FMT_b_d : list directive := [D_b; D_ws; D_d].
(* '%B %d' *)
Definition FMT_B_d : list directive := [D_B; D_ws; D_d].
(* '%Y-%m-%d' *)
Definition FMT_Y_m_d : list directive := [D_Y] ++ lit "-" ++ [D_m] ++ lit "-" ++ [D_d].
(* '%m/%d/%Y' *)
Definition FMT_m_d_Y : list directive := [D_m] ++ lit "/" ++ [D_d] ++ lit "/" ++ [D_Y].
(* '%d/%m/%Y' *)
Definition FMT_d_m_Y : list directive := [D_d] ++ lit "/" ++ [D_m] ++ lit "/" ++ [D_Y].

(** [for fmt in formats: try: return strptime(s, fmt) except ValueError: continue] *)
Definition try_formats (s : string) (formats : list (list directive)) : option datetime :=
  first_some (strptime s) formats.

End Strptime.

(** ** Date normalisation *)

Module DateNormalizer.
Import PyStr DateTime Strptime.
Local Open Scope Z_scope.

(** [_parse_date]: absolute formats, tried in order. *)
Definition _parse_date (date_str : string) : option datetime :=
  let date_str := strip date_str in
  try_formats date_str [FMT_B_d_Y; FMT_b_d_Y; FMT_Y_m_d; FMT_m_d_Y; FMT_d_m_Y].

(** [_parse_antigravity_date] *)
Definition _parse_antigravity_date (date_str : string) : option datetime :=
  let date_str := strip date_str in
  try_formats date_str [FMT_b_d_Y; FMT_B_d_Y; FMT_Y_m_d].

(** The leading digits of [s] and what follows them ([\d+], greedy). *)
Fixpoint span_digits (s : string) : string * string :=
  match s with
  | String c s' =>
      if is_digit c then let '(ds, rest) := span_digits s' in (String c ds, rest)
      else (EmptyString, s)
  | EmptyString => (EmptyString, EmptyString)
  end.

(** [int(digits)] *)
Fixpoint int_of (acc : Z) (digits : string) : Z :=
  match digits with
  | String c ds => int_of (acc * 10 + digit_val c) ds
  | EmptyString => acc
  end.

(** The unit alternatives of the pattern, in its order. *)
Definition AGO_UNITS : list string :=
  ["d"; "h"; "m"; "min"; "hr"; "day"; "hour"; "minute"; "week"; "w"].

(** The tail [s?\s*ago] of the pattern, at the start of [s]. *)
Definition ago_tail (s : string) : bool :=
  let s := match s with String "s" s' => s' | _ => s end in
  startswith (lstrip s) "ago".

(** [re.match(r'(\d+)\s*(d|h|m|min|hr|day|hour|minute|week|w)s?\s*ago', s)]:
    the number and the first unit alternative after which the tail
    matches.  The greedy [\d+], [\s*] and [s?] never need to give a
    character back: the character they would return is a digit, a blank
    or an [s], and what follows them in the pattern starts with a letter
    of a unit, or with a blank or [a]. *)
Definition match_ago (s : string) : option (Z * string) :=
  let '(digits, rest) := span_digits s in
  match digits with
  | EmptyString => None
  | _ =>
      let rest := lstrip rest in
      match
        List.filter (fun u => startswith rest u && ago_tail (drop (String.length u) rest))
               AGO_UNITS
      with
      | u :: _ => Some (int_of 0 digits, u)
      | [] => None
      end
  end.

Definition unit_in (u : string) (l : list string) : bool :=
  existsb (String.eqb u) l.

(** The dates without a year: the current year, or the year before when
    that date is still ahead of [now]. *)
Definition with_current_year (now parsed : datetime) : option datetime :=
  match replace_year parsed (year now) with
  | None => None
  | Some parsed =>
      if gt parsed now then replace_year parsed (year now - 1) else Some parsed
  end.

(** [_parse_relative_date], with [datetime.now()] as the argument [now]. *)
Definition _parse_relative_date (now : datetime) (relative_str : string)
  : result (option datetime) :=
  let relative_str := lower (strip relative_str) in
  let after_ago : result (option datetime) :=
    if contains relative_str "just now" || String.eqb relative_str "now" then Ok (Some now)
    else if contains relative_str "yesterday" then
      match sub now (days 1) with Ok d => Ok (Some d) | Raise e => Raise e end
    else
      match try_formats relative_str
              [FMT_b_d_Y; FMT_B_d_Y; FMT_b_d_Y_plain; FMT_B_d_Y_plain] with
      | Some d => Ok (Some d)
      | None =>
          Ok (first_some
                (fun fmt => match strptime relative_str fmt with
                            | Some parsed => with_current_year now parsed
                            | None => None
                            end)
                [FMT_b_d; FMT_B_d])
      end in
  let minus (td : Z) : result (option datetime) :=
    match sub now td with Ok d => Ok (Some d) | Raise e => Raise e end in
  match match_ago relative_str with
  | Some (value, unit) =>
      let unit := lower unit in
      if unit_in unit ["d"; "day"] then minus (days value)
      else if unit_in unit ["h"; "hr"; "hour"] then minus (hours value)
      else if unit_in unit ["m"; "min"; "minute"] then minus (minutes value)
      else if unit_in unit ["w"; "week"] then minus (weeks value)
      else after_ago
  | None => after_ago
  end.

End DateNormalizer.

(** ** Release groups and the scraper's configuration *)

Record item := Item {
  text : string;
  category : string;
  urls : list string
}.

Record release := Release {
  date : option DateTime.datetime;
  date_str : string;
  items : list item;
  url : string
}.

Module Scraper.
Import PyStr DateTime.
Local Open Scope Z_scope.

(** The fields of [ReleaseNotesScraper] that the filters read. *)
Record scraper := mkscraper {
  self_url : string;
  months : option Z;
  days_ : option Z;
  start_date : option datetime;
  end_date : option datetime;
  categories : option (list string);
  service_name : option string;
  cutoff_date : datetime
}.

(** Truthiness of an [Optional[int]]: [None] and [0] are false. *)
Definition truthy_int (o : option Z) : bool :=
  match o with Some n => negb (n =? 0) | None => false end.

(** The cut-off computed by [__init__], [now] being [datetime.now()]. *)
Definition compute_cutoff (now : datetime) (months days : option Z) (start_date : option datetime)
  : result datetime :=
  let midnight_before (n : Z) :=
    match sub now (DateTime.days n) with
    | Ok cutoff => Ok (replace_time cutoff 0 0 0 0)
    | Raise e => Raise e
    end in
  match start_date with
  | Some d => Ok d
  | None =>
      if truthy_int days then midnight_before (default 0 days)
      else if truthy_int months then midnight_before (default 0 months * 30)
      else midnight_before (12 * 30)
  end.

(** [__init__]: [end_date or datetime.now()]; [categories] lower-cased,
    an empty list counting as none; [months] set to 12 in the default
    branch. *)
Definition __init__ (now : datetime) (url : string) (months days : option Z)
    (start_date end_date : option datetime) (categories : option (list string))
    (service_name : option string) : result scraper :=
  match compute_cutoff now months days start_date with
  | Raise e => Raise e
  | Ok cutoff =>
      Ok {| self_url := url;
            months :=
              match start_date with
              | Some _ => months
              | None => if truthy_int days || truthy_int months then months else Some 12
              end;
            days_ := days;
            start_date := start_date;
            end_date := Some (default now end_date);
            categories :=
              match categories with
              | Some (c :: cs) => Some (map lower (c :: cs))
              | _ => None
              end;
            service_name := service_name;
            cutoff_date := cutoff |}
  end.

(** The test on one dated group shared by every date filter:
    [date >= cutoff_date] and ([end_date is None] or [date <= end_date]). *)
Definition in_range (self : scraper) (d : datetime) : bool :=
  ge d (cutoff_date self) &&
  match end_date self with
  | None => true
  | Some e => le d e
  end.

(** [_filter_by_date] *)
Definition _filter_by_date (self : scraper) (releases : list release) : list release :=
  List.filter (fun r => match date r with
                   | Some d => in_range self d
                   | None => false
                   end) releases.

(** [strict_mode = self.days is not None or self.start_date is not None] *)
Definition strict_mode (self : scraper) : bool :=
  match days_ self, start_date self with
  | None, None => false
  | _, _ => true
  end.

(** [_filter_by_category]: [if not self.categories] holds for [None] and
    for the empty list. *)
Definition _filter_by_category (self : scraper) (releases : list release) : list release :=
  match categories self with
  | None | Some [] => releases
  | Some cats =>
      flat_map (fun r =>
                  match List.filter (fun it => existsb (String.eqb (lower (category it))) cats)
                                    (items r) with
                  | [] => []
                  | filtered_items =>
                      [Release (date r) (date_str r) filtered_items (url r)]
                  end) releases
  end.

(** The end date built by [main] from [--end-date]: the parsed day with
    [replace(hour=23, minute=59, second=59)]. *)
Definition main_end_date (parsed : datetime) : datetime := replace_hms parsed 23 59 59.

End Scraper.

(** ** The date patterns of the selector profiles

    A pattern is a sequence of atoms; [match_at] is the backtracking
    search of the regular-expression engine (greedy quantifiers, longest
    alternative first), [search] is [re.search(..).group(1)] and [findall]
    is [re.findall]. *)

Module Regex.
Import PyStr Strptime.

Inductive atom :=
| Word1                     (* \w+ *)
| Space1                    (* \s+ *)
| Digits (lo hi : nat)      (* \d{lo,hi} *)
| Chr (c : ascii).

Definition is_word (c : ascii) : bool :=
  is_digit c || char_between "a" "z" c || char_between "A" "Z" c || Ascii.eqb c "_".

(** The ways of consuming [k >= 1] characters of class [p] at the start
    of [s], longest first, each with the number consumed. *)
Fixpoint runs (p : ascii -> bool) (s : string) : list (nat * string) :=
  match s with
  | String c s' =>
      if p c then map (fun '(k, rest) => (S k, rest)) (runs p s') ++ [(1%nat, s')] else []
  | EmptyString => []
  end.

Definition alternatives (a : atom) (s : string) : list string :=
  match a with
  | Word1 => map snd (runs is_word s)
  | Space1 => map snd (runs is_space s)
  | Digits lo hi =>
      map snd (List.filter (fun '(k, _) => (lo <=? k)%nat && (k <=? hi)%nat) (runs is_digit s))
  | Chr c =>
      match s with
      | String a rest => if Ascii.eqb a c then [rest] else []
      | EmptyString => []
      end
  end.

(** What is left of [s] after the first match of [re] at its start. *)
Fixpoint match_at (re : list atom) (s : string) : option string :=
  match re with
  | [] => Some s
  | a :: re' => first_some (match_at re') (alternatives a s)
  end.

Fixpoint take (n : nat) (s : string) : string :=
  match n, s with
  | S n', String c s' => String c (take n' s')
  | _, _ => EmptyString
  end.

(** The text matched at the start of [s]. *)
Definition matched_at (re : list atom) (s : string) : option string :=
  match match_at re s with
  | Some rest => Some (take (String.length s - String.length rest) s)
  | None => None
  end.

(** [re.search(re, s)]: the leftmost match, as [group(1)]. *)
Fixpoint search (re : list atom) (s : string) : option string :=
  match matched_at re s with
  | Some m => Some m
  | None => match s with
            | String _ s' => search re s'
            | EmptyString => None
            end
  end.

(** [re.findall(re, s)]: the successive matches, none overlapping the
    one before; [skip] counts the characters still covered by the last
    match. *)
Fixpoint findall_from (re : list atom) (s : string) (skip : nat) : list string :=
  match s with
  | EmptyString => []
  | String _ s' =>
      match skip with
      | S k => findall_from re s' k
      | O =>
          match matched_at re s with
          | Some m => m :: findall_from re s' (String.length m - 1)
          | None => findall_from re s' 0
          end
      end
  end.

Definition findall (re : list atom) (s : string) : list string := findall_from re s 0.

(* r'(\w+\s+\d{1,2},\s+\d{4})'  -- January 15, 2024 *)
Definition PAT_LONG : list atom := [Word1; Space1; Digits 1 2; Chr ","; Space1; Digits 4 4].
(* r'(\d{4}-\d{2}-\d{2})'       -- 2024-01-15 *)
Definition PAT_ISO : list atom := [Digits 4 4; Chr "-"; Digits 2 2; Chr "-"; Digits 2 2].
(* r'(\d{1,2}/\d{1,2}/\d{4})'   -- 01/15/2024 *)
Definition PAT_SLASH : list atom := [Digits 1 2; Chr "/"; Digits 1 2; Chr "/"; Digits 4 4].
(* r'(\d{1,2}\s+\w+\s+\d{4})'   -- 15 January 2024 *)
Definition PAT_DMY : list atom := [Digits 1 2; Space1; Word1; Space1; Digits 4 4].

End Regex.

(** ** URL normalisation: [_normalize_urls] *)

Module Urls.
Import PyStr.

Definition IMG_EXTS : list string := [".png"; ".jpg"; ".gif"; ".jpeg"; ".webp"; ".svg"; ".ico"].
Definition IMG_HOSTS : list string := ["blogger.googleusercontent.com"; "bp.blogspot.com"].
Definition BASE_HOST : string := "https://cloud.google.com".

Definition mem (u : string) (l : list string) : bool := existsb (String.eqb u) l.

(** One turn of the loop: the list [normalized] after [url] is seen. *)
Definition normalize_step (base_host : string) (normalized : list string) (url : string)
  : list string :=
  if negb (truthy url) then normalized
  else
    let url := strip url in
    if startswith url "#" then normalized
    else
      let resolved :=
        if startswith url "/" then Some (base_host +:+ url)
        else if negb (startswith url "http") then None
        else Some url in
      match resolved with
      | None => normalized
      | Some url =>
          if any_in (lower url) IMG_EXTS then normalized
          else if any_in url IMG_HOSTS then normalized
          else if negb (mem url normalized) then normalized ++ [url]
          else normalized
      end.

Definition _normalize_urls_from (base_host : string) (urls : list string) : list string :=
  fold_left (normalize_step base_host) urls [].

(** [_normalize_urls(urls)] with the default [base_host]. *)
Definition _normalize_urls (urls : list string) : list string :=
  _normalize_urls_from BASE_HOST urls.

(** A URL in absolute form: it starts with a scheme [http...]. *)
Definition is_absolute (url : string) : bool := startswith url "http".

End Urls.

(** ** The HTML extractor

    A content area is read through the queries the strategies make on it:
    - [children]: the tags of the area in document order, for areas whose
      date headers and the content under them are siblings; a list tag
      carries its [li] items;
    - [tables]: the rows of each table, a row being the texts of its cells
      and the [href]s of its anchors;
    - [release_divs]: the [div]s carrying a marker class, each with the
      texts of its previous sibling, parent and next sibling (those that
      exist and have text);
    - [text_nodes]: every text node with its parent tag. *)

Module Html.
Import PyStr Classifier DateTime Strptime DateNormalizer Regex Urls Scraper.
Local Open Scope Z_scope.

Record tag := Tag { tag_elem : element; tag_lis : list element }.
Record row := Row { row_cells : list string; row_hrefs : list string }.

Record content_area := ContentArea {
  children : list tag;
  tables : list (list row);
  release_divs : list (element * list string);
  text_nodes : list (string * option element)
}.

Record selectors := Selectors {
  date_headers : list string;
  date_patterns : list (list atom)
}.

(** [_detect_platform] *)
Definition _detect_platform (url : string) : string :=
  if contains url "cloud.google.com/blog" then "cloud_blog"
  else if contains url "developers.googleblog.com" then "developers_blog"
  else if contains url "medium.com/feed/" then "medium_feed"
  else if contains url "medium.com/google-cloud" then "medium_blog"
  else if contains url "cloud.google.com" || contains url "developers.google.com" then "google_cloud"
  else if contains url "firebase.google.com" then "firebase"
  else if contains url "antigravity.google" then "antigravity"
  else "generic".

(** [PLATFORM_SELECTORS[platform]]; [None] is [KeyError]. *)
Definition PLATFORM_SELECTORS (platform : string) : option selectors :=
  if String.eqb platform "google_cloud" then
    Some (Selectors ["h2"; "h3"] [PAT_LONG; PAT_ISO; PAT_SLASH])
  else if String.eqb platform "firebase" then
    Some (Selectors ["h2"; "h3"; "h4"] [PAT_LONG; PAT_ISO])
  else if String.eqb platform "antigravity" then
    Some (Selectors ["h2"; "h3"; "h4"; "time"] [PAT_LONG; PAT_ISO; PAT_DMY])
  else if String.eqb platform "generic" then
    Some (Selectors ["h2"; "h3"; "h4"] [PAT_LONG; PAT_ISO; PAT_SLASH])
  else None.

Definition RELEASE_CLASSES : list string :=
  ["release-feature"; "release-changed"; "release-announcement"; "release-breaking"; "release-issue"].

(** [text and len(text) > n] *)
Definition longer_than (n : Z) (text : string) : bool := truthy text && (n <? len text).

(** An item made from a tag: its markup as text, its category from the
    tag and its stripped text. *)
Definition item_of (e : element) (urls : list string) : item :=
  Item (el_str e) (_categorize_item (Some e) (Some (el_get_text e))) urls.

(** The headers named [name] in document order, each with the siblings
    that follow it. *)
Fixpoint headers_named (name : string) (l : list tag) : list (tag * list tag) :=
  match l with
  | [] => []
  | t :: rest =>
      (if String.eqb (el_name (tag_elem t)) name then [(t, rest)] else [])
      ++ headers_named name rest
  end.

(** *** [_parse_structured_releases] *)

(** What one sibling contributes. *)
Definition structured_sibling (sibling : tag) : list item :=
  let e := tag_elem sibling in
  if existsb (fun cls => mem cls RELEASE_CLASSES) (el_class e) then
    if longer_than 10 (el_get_text e) then [item_of e (_normalize_urls (el_hrefs e))] else []
  else if mem (el_name e) ["p"; "ul"; "ol"; "li"; "div"] then
    if mem (el_name e) ["ul"; "ol"] then
      flat_map (fun li => if truthy (el_get_text li)
                          then [item_of li (_normalize_urls (el_hrefs li))] else [])
               (tag_lis sibling)
    else if longer_than 10 (el_get_text e) then [item_of e (_normalize_urls (el_hrefs e))]
    else []
  else [].

(** The walk over the following siblings, up to a header of the same
    name or a configured header that sorts before it. *)
Fixpoint structured_walk (sel : selectors) (header_name : string) (siblings : list tag)
  : list item :=
  match siblings with
  | [] => []
  | sibling :: rest =>
      let name := el_name (tag_elem sibling) in
      if String.eqb name header_name then []
      else if mem name (date_headers sel) && String.ltb name header_name then []
      else structured_sibling sibling ++ structured_walk sel header_name rest
  end.

(** The first pattern that matches the header text with a date that
    parses. *)
Definition structured_date (sel : selectors) (header_text : string)
  : option (string * datetime) :=
  first_some (fun pattern =>
                match search pattern header_text with
                | Some date_str =>
                    match _parse_date date_str with
                    | Some parsed => Some (date_str, parsed)
                    | None => None
                    end
                | None => None
                end) (date_patterns sel).

Definition structured_header (self : scraper) (sel : selectors) (h : tag * list tag)
  : list release :=
  let '(header, siblings) := h in
  match structured_date sel (el_get_text (tag_elem header)) with
  | Some (date_str, parsed_date) =>
      match structured_walk sel (el_name (tag_elem header)) siblings with
      | [] => []
      | items => [Release (Some parsed_date) date_str items (self_url self)]
      end
  | None => []
  end.

(** [self.releases] after [_parse_structured_releases]. *)
Definition _parse_structured_releases (self : scraper) (sel : selectors)
    (area : content_area) (releases : list release) : list release :=
  releases ++
  flat_map (fun header_tag =>
              flat_map (structured_header self sel) (headers_named header_tag (children area)))
           (date_headers sel).

(** *** [_parse_firebase_releases] *)

(** The first pattern that matches decides; its date may fail to parse. *)
Definition firebase_date (sel : selectors) (text : string) : option (string * option datetime) :=
  first_some (fun pattern =>
                match search pattern text with
                | Some date_str => Some (date_str, _parse_date date_str)
                | None => None
                end) (date_patterns sel).

Definition firebase_li (li : element) : list item :=
  if longer_than 5 (el_get_text li) then [item_of li (el_hrefs li)] else [].

Definition firebase_sibling (sibling : tag) : list item :=
  let e := tag_elem sibling in
  if mem (el_name e) ["ul"; "ol"] then flat_map firebase_li (tag_lis sibling)
  else if String.eqb (el_name e) "li" then firebase_li e
  else if mem (el_name e) ["p"; "div"] then
    if longer_than 10 (el_get_text e) then [item_of e (el_hrefs e)] else []
  else [].

Fixpoint firebase_walk (header_tag : string) (siblings : list tag) : list item :=
  match siblings with
  | [] => []
  | sibling :: rest =>
      if String.eqb (el_name (tag_elem sibling)) header_tag then []
      else firebase_sibling sibling ++ firebase_walk header_tag rest
  end.

Definition firebase_header (self : scraper) (sel : selectors) (area : content_area)
    (header_tag : string) (h : tag * list tag) : list release :=
  let '(header, siblings) := h in
  let header_text := el_get_text (tag_elem header) in
  match firebase_date sel header_text with
  | Some (date_str, Some date_found) =>
      let items := firebase_walk header_tag siblings in
      let items :=
        match items with
        | [] => flat_map (fun t => if mem (el_name (tag_elem t)) ["ul"; "ol"]
                                   then flat_map firebase_li (tag_lis t) else [])
                         (children area)
        | _ => items
        end in
      let items :=
        match items with
        | [] => if 15 <? len header_text
                then [Item header_text (_categorize_item None (Some header_text)) []]
                else []
        | _ => items
        end in
      match items with
      | [] => []
      | _ => [Release (Some date_found) date_str items (self_url self)]
      end
  | _ => []
  end.

Definition firebase_row (self : scraper) (sel : selectors) (r : row) : list release :=
  match row_cells r with
  | first_cell :: second :: more =>
      let rest := second :: more in
      match firebase_date sel first_cell with
      | Some (date_str, Some date_found) =>
          let content_text := join_space rest in
          if longer_than 10 content_text then
            [Release (Some date_found) date_str
               [Item content_text (_categorize_item None (Some content_text))
                     (_normalize_urls (row_hrefs r))]
               (self_url self)]
          else []
      | _ => []
      end
  | _ => []
  end.

(** [self.releases] after [_parse_firebase_releases]. *)
Definition _parse_firebase_releases (self : scraper) (sel : selectors)
    (area : content_area) (releases : list release) : list release :=
  releases ++
  flat_map (fun header_tag =>
              flat_map (firebase_header self sel area header_tag)
                       (headers_named header_tag (children area)))
           ["h2"; "h3"; "h4"]
  ++ flat_map (flat_map (firebase_row self sel)) (tables area).

(** *** [_parse_unstructured_releases] *)

(** [any(item['text'] == text_content for release in releases for item in release['items'])] *)
Definition is_duplicate (releases : list release) (text_content : string) : bool :=
  existsb (fun r => existsb (fun it => String.eqb (text it) text_content) (items r)) releases.

(** The tail shared by both loops: length test, duplicate test, append. *)
Definition add_fragment (self : scraper) (releases : list release)
    (e : element) (date_str : string) (d : datetime) : list release :=
  if longer_than 20 (el_get_text e) then
    if negb (is_duplicate releases (el_str e)) then
      releases ++ [Release (Some d) date_str
                     [item_of e (_normalize_urls (el_hrefs e))] (self_url self)]
    else releases
  else releases.

(** The date near a marked [div]: the neighbours in turn, for each the
    first pattern that matches, until a date parses. *)
Definition nearby_date (sel : selectors) (neighbours : list string)
  : option (string * datetime) :=
  first_some (fun text =>
                match firebase_date sel text with
                | Some (date_str, Some d) => Some (date_str, d)
                | _ => None
                end) neighbours.

Definition unstructured_div (self : scraper) (sel : selectors)
    (releases : list release) (dv : element * list string) : list release :=
  let '(div, neighbours) := dv in
  match nearby_date sel neighbours with
  | Some (date_str, date_found) =>
      if ge date_found (cutoff_date self)
      then add_fragment self releases div date_str date_found
      else releases
  | None => releases
  end.

Definition unstructured_match (self : scraper) (parent : option element)
    (releases : list release) (m : string) : list release :=
  match _parse_date m with
  | Some parsed_date =>
      if ge parsed_date (cutoff_date self) then
        match parent with
        | Some parent =>
            if negb (mem (el_name parent) ["script"; "style"])
            then add_fragment self releases parent m parsed_date
            else releases
        | None => releases
        end
      else releases
  | None => releases
  end.

Definition unstructured_text (self : scraper) (sel : selectors)
    (releases : list release) (node : string * option element) : list release :=
  let '(nav_string, parent) := node in
  let text_str := strip nav_string in
  if negb (truthy text_str) then releases
  else
    fold_left (fun releases pattern =>
                 fold_left (unstructured_match self parent) (findall pattern text_str) releases)
              (date_patterns sel) releases.

(** [self.releases] after [_parse_unstructured_releases]. *)
Definition _parse_unstructured_releases (self : scraper) (sel : selectors)
    (area : content_area) (releases : list release) : list release :=
  let releases := fold_left (unstructured_div self sel) (release_divs area) releases in
  fold_left (unstructured_text self sel) (text_nodes area) releases.

(** *** The body of [_scrape_html] once the page is fetched and parsed *)

(** Items without URLs get the page URL. *)
Definition add_page_url (page_url : string) (releases : list release) : list release :=
  map (fun r => Release (date r) (date_str r)
                  (map (fun it => match urls it with
                                  | [] => Item (text it) (category it) [page_url]
                                  | _ => it
                                  end) (items r))
                  (url r)) releases.

(** The strategies in order, on a scraper whose [releases] is still empty:
    the platform's first strategy, then the unstructured one when nothing
    was collected.  The antigravity branch calls a method the class does
    not define. *)
Definition collect (self : scraper) (platform : string) (sel : selectors)
    (area : content_area) : result (list release) :=
  let first :=
    if String.eqb platform "firebase" then Ok (_parse_firebase_releases self sel area [])
    else if String.eqb platform "antigravity" then Raise AttributeError
    else Ok (_parse_structured_releases self sel area []) in
  match first with
  | Raise e => Raise e
  | Ok [] => Ok (_parse_unstructured_releases self sel area [])
  | Ok releases => Ok releases
  end.

Definition scrape_page (self : scraper) (page_url : string) (area : content_area)
  : result (list release) :=
  let platform := _detect_platform page_url in
  match PLATFORM_SELECTORS platform with
  | None => Raise KeyError
  | Some sel =>
      match collect self platform sel area with
      | Raise e => Raise e
      | Ok releases =>
          Ok (_filter_by_category self (_filter_by_date self (add_page_url page_url releases)))
      end
  end.

End Html.

(** ** The feed parser: field resolution of one entry *)

Module Feed.
Import PyStr DateTime.

(** A child element of an entry: qualified tag, text and [href]. *)
Record xml_element := XmlElement {
  xml_tag : string;
  xml_text : option string;
  xml_href : option string
}.

Definition ATOM : string := "{http://www.w3.org/2005/Atom}".

(** [entry.find(name)]: the first child with that tag. *)
Definition find (entry : list xml_element) (name : string) : option xml_element :=
  List.find (fun c => String.eqb (xml_tag c) name) entry.

(** The date element of an entry, the way [_parse_xml_feed] picks it. *)
Definition date_elem (entry : list xml_element) : option xml_element :=
  match find entry "pubDate" with
  | Some e => Some e
  | None =>
      match find entry (ATOM +:+ "published") with
      | Some e => Some e
      | None =>
          match find entry "published" with
          | Some e => Some e
          | None =>
              match find entry (ATOM +:+ "updated") with
              | Some e => Some e
              | None => find entry "updated"
              end
          end
      end
  end.

(** [date_str] and [parsed_date] of an entry; [_parse_xml_date] is the
    argument [parse]. *)
Definition entry_date (parse : string -> option datetime) (entry : list xml_element)
  : string * option datetime :=
  match date_elem entry with
  | Some e =>
      match xml_text e with
      | Some t => if truthy t then (t, parse t) else ("", None)
      | None => ("", None)
      end
  | None => ("", None)
  end.

(** The specification's reading: a priority list of tags, the first one
    present in the entry wins. *)
Definition DATE_PRIORITY : list string :=
  ["pubDate"; ATOM +:+ "published"; "published"; ATOM +:+ "updated"; "updated"].

Fixpoint first_present (entry : list xml_element) (tags : list string) : option xml_element :=
  match tags with
  | [] => None
  | t :: rest =>
      match find entry t with
      | Some e => Some e
      | None => first_present entry rest
      end
  end.

End Feed.

(** ** Categories assigned outside the classifier *)

Module Antigravity.
Import PyStr.

(** The category of an accordion item in [_parse_antigravity_sections]. *)
Definition accordion_category (item_title : string) : string :=
  if String.eqb (lower item_title) "improvements" then "ga"
  else if String.eqb (lower item_title) "fixes" then "fixed"
  else if String.eqb (lower item_title) "patches" then "fixed"
  else "update".

(** The sections scanned by [_parse_antigravity_direct]. *)
Definition DIRECT_SECTIONS : list (string * string) :=
  [("Improvements", "ga"); ("Fixes", "fixed"); ("Patches", "fixed")].

(** The category every blog scraper writes into its items. *)
Definition BLOG_CATEGORY : string := "announcement".

End Antigravity.

(** ** Fetching with fallback: [scrape] and [_scrape_html]

    A computation threads the log of the GET requests issued so far and
    returns a value or raises. *)

Module Fetch.
Import PyStr DateTime Scraper Html.
Local Open Scope Z_scope.

Definition M (A : Type) : Type := list string -> result A * list string.

Definition ret {A} (a : A) : M A := fun log => (Ok a, log).
Definition raise {A} (e : exn) : M A := fun log => (Raise e, log).
Definition bind {A B} (m : M A) (k : A -> M B) : M B :=
  fun log => match m log with
             | (Ok a, log') => k a log'
             | (Raise e, log') => (Raise e, log')
             end.
Definition lift {A} (r : result A) : M A := fun log => (r, log).

(** [try: m except ...: handler(e)] *)
Definition try_except {A} (m : M A) (handler : exn -> M A) : M A :=
  fun log => match m log with
             | (Ok a, log') => (Ok a, log')
             | (Raise e, log') => handler e log'
             end.

Notation "x <- m ;; k" := (bind m (fun x => k))
  (at level 100, m at next level, right associativity).

(** [response.raise_for_status()] followed by [response.content]. *)
Definition raise_for_status (response : Z * string) : result string :=
  let '(status_code, content) := response in
  if (400 <=? status_code) && (status_code <? 600)
  then Raise (RequestException (Some status_code))
  else Ok content.

(** [_is_xml_url] *)
Definition _is_xml_url (url : string) : bool :=
  if contains url "antigravity.google" then false
  else if contains url "medium.com/feed/" then true
  else if contains url "feeds.feedburner.com" || contains url "feedburner.google.com" then true
  else endswith url ".xml" || endswith url ".atom" || contains url "/feeds/".

Definition _is_antigravity_url (url : string) : bool := contains url "antigravity.google".

Definition SERVICE_HTML_FALLBACKS : gmap string string :=
  list_to_map
    [ ("application-design-center", "https://cloud.google.com/application-design-center/docs/release-notes");
      ("api-gateway", "https://cloud.google.com/api-gateway/docs/release-notes");
      ("cloud-deploy", "https://cloud.google.com/deploy/docs/release-notes");
      ("cloud-sdk", "https://cloud.google.com/sdk/docs/release-notes");
      ("antigravity", "https://antigravity.google/changelog");
      ("ai-app-builder", "https://cloud.google.com/generative-ai-app-builder/docs/release-notes");
      ("dialogflow", "https://cloud.google.com/dialogflow/docs/release-notes");
      ("document-ai", "https://cloud.google.com/document-ai/docs/release-notes");
      ("gemini-code-assist", "https://cloud.google.com/gemini/docs/codeassist/release-notes");
      ("speech-to-text", "https://cloud.google.com/speech-to-text/docs/release-notes");
      ("talent-solution", "https://cloud.google.com/talent-solution/docs/release-notes");
      ("text-to-speech", "https://cloud.google.com/text-to-speech/docs/release-notes");
      ("translation", "https://cloud.google.com/translate/docs/release-notes");
      ("vertex-ai", "https://cloud.google.com/vertex-ai/docs/release-notes");
      ("video-intelligence", "https://cloud.google.com/video-intelligence/docs/release-notes");
      ("bare-metal", "https://cloud.google.com/bare-metal/docs/release-notes");
      ("cloud-hub", "https://cloud.google.com/distributed-cloud/edge/latest/docs/release-notes");
      ("anthos-bare-metal", "https://cloud.google.com/anthos/clusters/docs/bare-metal/latest/release-notes");
      ("anthos-vmware", "https://cloud.google.com/anthos/clusters/docs/on-prem/latest/release-notes");
      ("cloud-nat", "https://cloud.google.com/nat/docs/release-notes");
      ("network-tiers", "https://cloud.google.com/network-tiers/docs/release-notes");
      ("database-migration", "https://cloud.google.com/database-migration/docs/release-notes");
      ("memorystore-memcached", "https://cloud.google.com/memorystore/docs/memcached/release-notes");
      ("memorystore-redis", "https://cloud.google.com/memorystore/docs/redis/release-notes");
      ("healthcare-api", "https://cloud.google.com/healthcare-api/docs/release-notes");
      ("blockchain-node-engine", "https://cloud.google.com/blockchain-node-engine/docs/release-notes") ].

(** [_get_fallback_url] *)
Definition _get_fallback_url (self : scraper) : option string :=
  match service_name self with
  | Some name => if truthy name then SERVICE_HTML_FALLBACKS !! name else None
  | None => None
  end.

Section WithCollaborators.
(** [requests.get(url, headers=.., timeout=30)]: the status and body of
    the response, or an exception. *)
Variable requests_get : string -> result (Z * string).
(** Building the tree from the body and choosing the content area. *)
Variable parse_html : string -> result content_area.
(** [_parse_xml_feed] and the scrapers of the other source kinds. *)
Variable _parse_xml_feed : scraper -> string -> result (list release).
Variable _scrape_antigravity_js : scraper -> M (list release).
Variable _scrape_cloud_blog : scraper -> M (list release).
Variable _scrape_developers_blog : scraper -> M (list release).
Variable _scrape_medium_blog : scraper -> M (list release).

Definition get (url : string) : M (Z * string) :=
  fun log => (requests_get url, (log ++ [url])%list).

(** [_scrape_html]: both [except] clauses return the empty list. *)
Definition _scrape_html (self : scraper) (url : string) : M (list release) :=
  try_except
    (response <- get url ;;
     content <- lift (raise_for_status response) ;;
     area <- lift (parse_html content) ;;
     lift (scrape_page self url area))
    (fun _ => ret []).

(** [scrape] *)
Definition scrape (self : scraper) : M (list release) :=
  if _is_xml_url (self_url self) then
    try_except
      (response <- get (self_url self) ;;
       content <- lift (raise_for_status response) ;;
       lift (_parse_xml_feed self content))
      (fun e =>
         match e with
         | RequestException (Some status_code) =>
             if status_code =? 404 then
               match _get_fallback_url self with
               | Some fallback_url =>
                   if truthy fallback_url then _scrape_html self fallback_url else ret []
               | None => ret []
               end
             else ret []
         | _ => ret []
         end)
  else if _is_antigravity_url (self_url self) then _scrape_antigravity_js self
  else if String.eqb (_detect_platform (self_url self)) "cloud_blog" then _scrape_cloud_blog self
  else if String.eqb (_detect_platform (self_url self)) "developers_blog" then _scrape_developers_blog self
  else if String.eqb (_detect_platform (self_url self)) "medium_blog" then _scrape_medium_blog self
  else _scrape_html self (self_url self).

(** The loop of [main] once the scrapers are built: each result is
    tagged with its service name and appended.  [Run.main_loop] has the
    construction of the scrapers inside the loop. *)
Fixpoint scrape_all (scrapers : list scraper) : M (list (option string * release)) :=
  match scrapers with
  | [] => ret []
  | self :: rest =>
      releases <- scrape self ;;
      others <- scrape_all rest ;;
      ret (map (fun r => (service_name self, r)) releases ++ others)%list
  end.

End WithCollaborators.

End Fetch.

(** ** More string operations *)

Module PyMore.
Import PyStr.

Definition upper_char (c : ascii) : ascii :=
  let n := nat_of_ascii c in
  if (97 <=? n)%nat && (n <=? 122)%nat then ascii_of_nat (n - 32) else c.

Definition is_alpha (c : ascii) : bool :=
  let n := nat_of_ascii c in
  ((65 <=? n)%nat && (n <=? 90)%nat) || ((97 <=? n)%nat && (n <=? 122)%nat).

(** [s.title()]: a letter is upper-cased when no letter stands before
    it, lower-cased otherwise. *)
Fixpoint title_from (previous_is_cased : bool) (s : string) : string :=
  match s with
  | EmptyString => EmptyString
  | String c s' =>
      if is_alpha c
      then String (if previous_is_cased then lower_char c else upper_char c) (title_from true s')
      else String c (title_from false s')
  end.

Definition title (s : string) : string := title_from false s.

(** [s.replace(c, by)] for a pattern of one character. *)
Fixpoint replace_char (c : ascii) (by_ : string) (s : string) : string :=
  match s with
  | EmptyString => EmptyString
  | String a s' =>
      if Ascii.eqb a c then by_ +:+ replace_char c by_ s' else String a (replace_char c by_ s')
  end.

(** [s.rstrip(chars)]: a character is kept when it is not in [chars] or
    when something is kept after it. *)
Fixpoint rstrip_chars (chars : list ascii) (s : string) : string :=
  match s with
  | EmptyString => EmptyString
  | String c s' =>
      match rstrip_chars chars s' with
      | EmptyString => if existsb (Ascii.eqb c) chars then EmptyString else String c EmptyString
      | r => String c r
      end
  end.

(** [s.find(needle)]; [None] is -1. *)
Fixpoint find_index (s needle : string) : option nat :=
  if startswith s needle then Some O
  else match s with
       | EmptyString => None
       | String _ s' => match find_index s' needle with
                        | Some i => Some (S i)
                        | None => None
                        end
       end.

(** [s.split(c)] for a separator of one character. *)
Fixpoint split_char (c : ascii) (s : string) : list string :=
  match s with
  | EmptyString => [EmptyString]
  | String a s' =>
      if Ascii.eqb a c then EmptyString :: split_char c s'
      else match split_char c s' with
           | first :: rest => String a first :: rest
           | [] => [String a EmptyString]
           end
  end.

(** [s.split(sep, 1)] when [sep in s]: what stands before and after the
    first occurrence. *)
Definition split_once (sep s : string) : option (string * string) :=
  match find_index s sep with
  | Some i => Some (Regex.take i s, drop (i + String.length sep) s)
  | None => None
  end.

(** [re.sub(r'\s+', ' ', s)]: every run of blanks becomes one space. *)
Fixpoint collapse_ws_from (in_run : bool) (s : string) : string :=
  match s with
  | EmptyString => EmptyString
  | String c s' =>
      if is_space c
      then (if in_run then collapse_ws_from true s' else String " " (collapse_ws_from true s'))
      else String c (collapse_ws_from false s')
  end.

Definition collapse_ws (s : string) : string := collapse_ws_from false s.

(** [re.sub(r'\\/', '/', s)]: a backslash before a slash is removed. *)
Fixpoint unescape_slashes (s : string) : string :=
  match s with
  | EmptyString => EmptyString
  | String a s' =>
      match s' with
      | String b _ =>
          if Ascii.eqb a "\" && Ascii.eqb b "/" then unescape_slashes s'
          else String a (unescape_slashes s')
      | EmptyString => String a EmptyString
      end
  end.

End PyMore.

(** ** The feed parser: from the entries of a feed to release groups *)

Module FeedEntries.
Import PyStr Classifier DateTime Scraper Feed.

Definition CONTENT : string := "{http://purl.org/rss/1.0/modules/content/}".
Definition ORIGLINK : string := "{http://rssnamespace.org/feedburner/ext/1.0}origLink".

(** What [ET.fromstring] and the three [findall] queries give: the
    entries found as [atom:entry], as [entry] and as [item], each entry
    being the list of its children. *)
Record xml_root := XmlRoot {
  atom_entries : list (list xml_element);
  plain_entries : list (list xml_element);
  rss_items : list (list xml_element)
}.

(** [_is_blog_feed] *)
Definition _is_blog_feed (self : scraper) : bool :=
  let url := self_url self in
  if contains url "medium.com/feed/" then true
  else if contains url "feeds.feedburner.com" || contains url "feedburner.google.com" then true
  else false.

(** The entries the loop runs over. *)
Definition entries_of (root : xml_root) : list (list xml_element) :=
  match atom_entries root with
  | [] => match plain_entries root with
          | [] => rss_items root
          | entries => entries
          end
  | entries => entries
  end.

(** [title]: [None] without a title element, else [title_elem.text or '']. *)
Definition entry_title (entry : list xml_element) : option string :=
  let title_elem :=
    match find entry (ATOM +:+ "title") with
    | Some e => Some e
    | None => find entry "title"
    end in
  match title_elem with
  | Some e => Some (default "" (xml_text e))
  | None => None
  end.

(** [content_text] *)
Definition entry_content (entry : list xml_element) : string :=
  let content_text :=
    match find entry (CONTENT +:+ "encoded") with
    | Some e => if truthy_opt (xml_text e) then default "" (xml_text e) else ""
    | None => ""
    end in
  if negb (truthy content_text) then
    let content_elem :=
      match find entry (ATOM +:+ "content") with
      | Some e => Some e
      | None =>
          match find entry "content" with
          | Some e => Some e
          | None =>
              match find entry (ATOM +:+ "summary") with
              | Some e => Some e
              | None =>
                  match find entry "summary" with
                  | Some e => Some e
                  | None => find entry "description"
                  end
              end
          end
      end in
    match content_elem with
    | Some e => default "" (xml_text e)
    | None => content_text
    end
  else content_text.

(** [link]: the [href] attribute, else the text of the link element, else
    the text of [feedburner:origLink]. *)
Definition entry_link (entry : list xml_element) : string :=
  let link_elem :=
    match find entry (ATOM +:+ "link") with
    | Some e => Some e
    | None => find entry "link"
    end in
  let link :=
    match link_elem with
    | Some e =>
        if truthy (default "" (xml_href e)) then default "" (xml_href e)
        else if truthy_opt (xml_text e) then default "" (xml_text e)
        else ""
    | None => ""
    end in
  if negb (truthy link) then
    match find entry ORIGLINK with
    | Some e => if truthy_opt (xml_text e) then default "" (xml_text e) else link
    | None => link
    end
  else link.

Section WithParsers.
(** [ET.fromstring]: [None] is [ET.ParseError]. *)
Variable fromstring : string -> option xml_root.
Variable _parse_xml_date : string -> option datetime.
Variable _strip_html_tags : string -> result string.
(** [_parse_xml_content(content_text, title, link)] *)
Variable _parse_xml_content : string -> option string -> string -> result (list item).
(** [parsed_date.strftime('%B %d, %Y')] *)
Variable strftime : datetime -> string.

(** The items of one dated entry. *)
Definition entry_items (self : scraper) (entry : list xml_element) : result (list item) :=
  let title := entry_title entry in
  let link := entry_link entry in
  if _is_blog_feed self then
    match (if truthy_opt title then _strip_html_tags (default "" title) else Ok "") with
    | Raise e => Raise e
    | Ok clean_title =>
        if truthy clean_title then
          Ok [Item clean_title (_categorize_item None (Some clean_title))
                   (if truthy link then [strip link] else [])]
        else Ok []
    end
  else _parse_xml_content (entry_content entry) title link.

(** What one turn of the loop appends to [releases]. *)
Definition entry_release (self : scraper) (entry : list xml_element) : result (list release) :=
  match snd (entry_date _parse_xml_date entry) with
  | Some parsed_date =>
      match entry_items self entry with
      | Raise e => Raise e
      | Ok [] => Ok []
      | Ok items =>
          let link := entry_link entry in
          Ok [Release (Some parsed_date) (strftime parsed_date) items
                      (if truthy link then link else self_url self)]
      end
  | None => Ok []
  end.

(** The loop over the entries; an exception leaves it. *)
Fixpoint entry_loop (self : scraper) (entries : list (list xml_element))
    (releases : list release) : result (list release) :=
  match entries with
  | [] => Ok releases
  | entry :: rest =>
      match entry_release self entry with
      | Raise e => Raise e
      | Ok added => entry_loop self rest (releases ++ added)
      end
  end.

(** [_parse_xml_feed] *)
Definition _parse_xml_feed (self : scraper) (content : string) : result (list release) :=
  match fromstring content with
  | None => Ok []
  | Some root =>
      match entry_loop self (entries_of root) [] with
      | Raise e => Raise e
      | Ok releases => Ok (_filter_by_category self (_filter_by_date self releases))
      end
  end.

End WithParsers.

End FeedEntries.

(** ** The content of a feed entry: [_parse_xml_content]

    The unescaped content is read through the queries the function makes
    on it. *)

Module Content.
Import PyStr PyMore Classifier Urls.
Local Open Scope Z_scope.

Record soup := Soup {
  (* [a.get('href', '')] of every anchor with an [href], in document order *)
  anchor_hrefs : list string;
  (* [url_pattern.findall(content)]: the http and https URLs written in the text *)
  found_urls : list string;
  (* [bool(soup.find_all(['h1', 'h2', 'h3', 'h4']))] *)
  has_headers : bool;
  (* [len(soup.get_text(strip=True))] *)
  text_len : Z;
  (* the [div]s carrying one of the five marker classes *)
  marked_divs : list element;
  (* [soup.find_all('li')] and [soup.find_all('p')] *)
  all_lis : list element;
  all_ps : list element;
  (* [soup.get_text(separator=' ', strip=True)] *)
  whole_text : string
}.

Definition IMG_MARKS : list string :=
  ["blogger.googleusercontent.com"; "bp.blogspot.com"; "/img/"; ".png"; ".jpg"; ".gif";
   ".jpeg"; ".webp"].

(** The characters removed by [url.rstrip(..)]: the punctuation marks,
    the closing parenthesis and bracket and both quotes. *)
Definition TRAILING : list ascii :=
  ["."; ","; ";"; ":"; "!"; "?"; ")"; "'"; ascii_of_nat 34; "]"]%char.

(** One turn of the loop over the anchors. *)
Definition add_href (all_urls : list string) (raw : string) : list string :=
  let href := strip raw in
  if truthy href then
    let resolved :=
      if startswith href "/" then Some ("https://cloud.google.com" +:+ href)
      else if startswith href "#" then None
      else if negb (startswith href "http") then None
      else Some href in
    match resolved with
    | Some href => if negb (any_in href IMG_MARKS) then (all_urls ++ [href])%list else all_urls
    | None => all_urls
    end
  else all_urls.

(** One turn of the loop over the URLs found in the text. *)
Definition add_found (all_urls : list string) (url : string) : list string :=
  let url := rstrip_chars TRAILING url in
  if truthy url && negb (mem url all_urls) then
    if negb (any_in url IMG_MARKS) then (all_urls ++ [url])%list else all_urls
  else all_urls.

Definition collect_urls (s : soup) : list string :=
  fold_left add_found (found_urls s) (fold_left add_href (anchor_hrefs s) []).

(** [[entry_link] if entry_link else []] *)
Definition link_or_nothing (entry_link : string) : list string :=
  if truthy entry_link then [entry_link] else [].

Section WithParsers.
(** [html.unescape] followed by [BeautifulSoup(content, 'html.parser')]. *)
Variable parse_content : string -> result soup.
Variable _strip_html_tags : string -> result string.

(** The item of one tag in the loops over the marked [div]s, the [li]s
    and the [p]s: nothing when the text is not longer than [n]. *)
Definition tag_item (n : Z) (urls_of : list string -> list string) (e : element)
  : result (list item) :=
  match _strip_html_tags (el_get_text e) with
  | Raise err => Raise err
  | Ok text =>
      let links := _normalize_urls (el_hrefs e) in
      if Html.longer_than n text
      then Ok [Item text (_categorize_item (Some e) (Some text)) (urls_of links)]
      else Ok []
  end.

Fixpoint tag_items (n : Z) (urls_of : list string -> list string) (l : list element)
  : result (list item) :=
  match l with
  | [] => Ok []
  | e :: rest =>
      match tag_item n urls_of e with
      | Raise err => Raise err
      | Ok first =>
          match tag_items n urls_of rest with
          | Raise err => Raise err
          | Ok others => Ok (first ++ others)%list
          end
      end
  end.

(** The whole content as one item. *)
Definition whole_item (s : soup) (all_urls : list string) (entry_link : string)
  : result (list item) :=
  match _strip_html_tags (whole_text s) with
  | Raise err => Raise err
  | Ok text =>
      let text := collapse_ws text in
      if Html.longer_than 10 text
      then Ok [Item text (_categorize_item None (Some text))
                    (match all_urls with
                     | [] => link_or_nothing entry_link
                     | _ => firstn 5 all_urls
                     end)]
      else Ok []
  end.

(** The last loop: every item ends with normalised URLs, or with the
    first URLs of the content, or with the link of the entry. *)
Definition final_urls (all_urls : list string) (entry_link : string) (it : item) : item :=
  match urls it with
  | [] =>
      match all_urls with
      | [] => if truthy entry_link then Item (text it) (category it) [entry_link] else it
      | _ => Item (text it) (category it) (_normalize_urls (firstn 5 all_urls))
      end
  | _ => Item (text it) (category it) (_normalize_urls (urls it))
  end.

(** [items] after a stage that runs only [if not items]. *)
Definition unless_items (items : list item) (stage : result (list item)) : result (list item) :=
  match items with
  | [] => stage
  | _ => Ok items
  end.

(** [_parse_xml_content(content, title, entry_link)] *)
Definition _parse_xml_content (content : string) (title : option string) (entry_link : string)
  : result (list item) :=
  let entry_link := if truthy entry_link then strip entry_link else "" in
  if negb (truthy content) then
    if truthy_opt title then
      match _strip_html_tags (default "" title) with
      | Raise err => Raise err
      | Ok clean_title =>
          Ok [Item clean_title (_categorize_item None (Some clean_title))
                   (link_or_nothing entry_link)]
      end
    else Ok []
  else
    match parse_content content with
    | Raise err => Raise err
    | Ok s =>
        let all_urls := collect_urls s in
        match
          tag_items 5 (fun links => match links with
                                    | [] => _normalize_urls (firstn 3 all_urls)
                                    | _ => links
                                    end) (marked_divs s)
        with
        | Raise err => Raise err
        | Ok items =>
            match
              unless_items items
                (if has_headers s || (200 <? text_len s)
                 then whole_item s all_urls entry_link else Ok [])
            with
            | Raise err => Raise err
            | Ok items =>
                match unless_items items (tag_items 5 (fun links => links) (all_lis s)) with
                | Raise err => Raise err
                | Ok items =>
                    match unless_items items (tag_items 10 (fun links => links) (all_ps s)) with
                    | Raise err => Raise err
                    | Ok items =>
                        match unless_items items (whole_item s all_urls entry_link) with
                        | Raise err => Raise err
                        | Ok items => Ok (map (final_urls all_urls entry_link) items)
                        end
                    end
                end
            end
        end
    end.

End WithParsers.

End Content.

(** ** The embedded script of the AntiGravity changelog: [_extract_js_array] *)

Module Script.
Import PyStr.
Local Open Scope Z_scope.

(** [js_str[start:stop]] for indices that are not negative. *)
Definition slice (js_str : string) (start stop : nat) : string :=
  String.substring start (stop - start) js_str.

(** The loop of [_extract_js_array] at index [i], [rest] being
    [js_str[i:]]. *)
Fixpoint extract_loop (js_str rest : string) (i : nat) (depth : Z) (start : nat) : string :=
  match rest with
  | EmptyString => js_str
  | String char rest' =>
      if Ascii.eqb char "[" then
        extract_loop js_str rest' (S i) (depth + 1) (if depth =? 0 then i else start)
      else if Ascii.eqb char "]" then
        if depth - 1 =? 0 then slice js_str start (i + 1)
        else extract_loop js_str rest' (S i) (depth - 1) start
      else extract_loop js_str rest' (S i) depth start
  end.

(** [_extract_js_array] *)
Definition _extract_js_array (js_str : string) : string :=
  extract_loop js_str js_str 0 0 0.

(** [closes d s]: read with [d >= 1] brackets open, [s] ends with the
    bracket that closes the outermost one, and closes it nowhere before. *)
Inductive closes : Z -> string -> Prop :=
| closes_end : closes 1 (String "]" EmptyString)
| closes_other d c s :
    c <> "["%char -> c <> "]"%char -> closes d s -> closes d (String c s)
| closes_open d s :
    1 <= d -> closes (d + 1) s -> closes d (String "[" s)
| closes_close d s :
    d <> 1 -> closes (d - 1) s -> closes d (String "]" s).

End Script.

(** ** The embedded script of the AntiGravity changelog: sections and items

    The regular expressions of these functions are collaborators: each is
    given by what [findall], [finditer] or [search] returns for it. *)

Module AntigravityJs.
Import PyStr PyMore Classifier DateTime DateNormalizer Scraper Antigravity Script Fetch.

Definition CHANGELOG_URL : string := "https://antigravity.google/changelog".

Section WithPatterns.
(** [version_pattern.findall]: version, date, description, changes and
    the text of the items array of every section. *)
Variable version_findall : string -> list (string * string * string * string * string).
(** [simple_version_pattern.findall]: version with date, and description. *)
Variable simple_findall : string -> list (string * string).
(** [re.sub(r'<[^>]+>', ' ', changes)] *)
Variable sub_tags : string -> string.
(** [item_pattern.findall]: title and accordion items of every block. *)
Variable item_findall : string -> list (string * string).
(** [text_pattern.findall]: the texts of the accordion items. *)
Variable text_findall : string -> list string.
(** [version_date_pattern.finditer]: version, date and [match.end()]. *)
Variable version_date_finditer : string -> list (string * string * nat).
(** The searches of [_parse_antigravity_direct], each with [group(1)]. *)
Variable desc_search : string -> option string.
Variable changes_search : string -> option string.
Variable section_search : string -> string -> option string.
Variable section_texts : string -> list string.
(** The searches of [_scrape_antigravity_js], each with [group(1)]. *)
Variable bundle_search : string -> option string.
Variable changelog_search : string -> option string.

(** The group of one match of the simple pattern. *)
Definition simple_section (self : scraper) (m : string * string) : list release :=
  let '(version_raw, description) := m in
  let '(version, date_str) :=
    match split_once "<br>" version_raw with
    | Some (version, date_str) => (version, date_str)
    | None => (version_raw, "")
    end in
  match _parse_antigravity_date date_str with
  | Some parsed_date =>
      [Release (Some parsed_date) (strip date_str)
               [Item ("<strong>" +:+ version +:+ "</strong>: " +:+ description)
                     (_categorize_item None (Some description))
                     [CHANGELOG_URL]]
               (self_url self)]
  | None => []
  end.

(** The items of one accordion block. *)
Definition accordion_items (block : string * string) : list item :=
  let '(item_title, accordion) := block in
  flat_map (fun item_text =>
              if truthy item_text
              then [Item ("[" +:+ item_title +:+ "] " +:+ item_text)
                         (accordion_category item_title) [CHANGELOG_URL]]
              else [])
           (text_findall accordion).

(** The group of one match of the full pattern. *)
Definition full_section (self : scraper)
    (m : string * string * string * string * string) : list release :=
  let '(version, date_str, description, changes, items_str) := m in
  match _parse_antigravity_date date_str with
  | Some parsed_date =>
      let main_item :=
        if truthy changes then
          let changes_text := unescape_slashes (strip (sub_tags changes)) in
          if truthy changes_text
          then [Item ("<strong>" +:+ version +:+ "</strong>: " +:+ changes_text)
                     (_categorize_item None (Some (description +:+ " " +:+ changes_text)))
                     [CHANGELOG_URL]]
          else []
        else [] in
      match (main_item ++ flat_map accordion_items (item_findall items_str))%list with
      | [] => []
      | items => [Release (Some parsed_date) (strip date_str) items (self_url self)]
      end
  | None => []
  end.

(** The items of one named section in [_parse_antigravity_direct]. *)
Definition direct_section (items_section : string) (section : string * string) : list item :=
  let '(section_name, category) := section in
  match section_search section_name items_section with
  | Some found =>
      flat_map (fun item_text =>
                  if truthy item_text
                  then [Item ("[" +:+ section_name +:+ "] " +:+ item_text) category
                             [CHANGELOG_URL]]
                  else [])
               (section_texts found)
  | None => []
  end.

(** The group of one match of the version and date pattern. *)
Definition direct_match (self : scraper) (js_content : string) (m : string * string * nat)
  : list release :=
  let '(version, date_str, desc_start) := m in
  match _parse_antigravity_date date_str with
  | Some parsed_date =>
      let description :=
        match desc_search (slice js_content desc_start (desc_start + 500)) with
        | Some description => description
        | None => "Version " +:+ version
        end in
      let changes_text :=
        match changes_search (slice js_content desc_start (desc_start + 2000)) with
        | Some changes_text => changes_text
        | None => ""
        end in
      let items_section := slice js_content desc_start (desc_start + 3000) in
      [Release (Some parsed_date) date_str
               (Item (strip ("<strong>v" +:+ version +:+ "</strong> - " +:+ description
                             +:+ ": " +:+ changes_text))
                     (_categorize_item None (Some (description +:+ " " +:+ changes_text)))
                     [CHANGELOG_URL]
                :: flat_map (direct_section items_section) DIRECT_SECTIONS)
               (self_url self)]
  | None => []
  end.

(** [_parse_antigravity_direct] *)
Definition _parse_antigravity_direct (self : scraper) (js_content : string) : list release :=
  flat_map (direct_match self js_content) (version_date_finditer js_content).

(** [_parse_antigravity_sections] *)
Definition _parse_antigravity_sections (self : scraper) (js_content : string) : list release :=
  let releases :=
    match version_findall js_content with
    | [] => flat_map (simple_section self) (simple_findall js_content)
    | matches => flat_map (full_section self) matches
    end in
  match releases with
  | [] => _parse_antigravity_direct self js_content
  | _ => releases
  end.

(** The statement searched when the pattern of the changelog does not
    match: the first one, split at semicolons, that holds both marks. *)
Definition changelog_statement (js_content : string) : option string :=
  List.find (fun stmt => contains stmt "Google Antigravity Changelog" && contains stmt "sections:")
            (split_char ";" js_content).

Variable requests_get : string -> result (Z * string).

(** [_scrape_antigravity_js]: both [except] clauses return the empty
    list. *)
Definition _scrape_antigravity_js (self : scraper) : M (list release) :=
  try_except
    (response <- get requests_get (self_url self) ;;
     text <- lift (raise_for_status response) ;;
     match bundle_search text with
     | None => ret []
     | Some js_bundle_name =>
         js_response <- get requests_get ("https://antigravity.google/" +:+ js_bundle_name) ;;
         js_content <- lift (raise_for_status js_response) ;;
         let sections :=
           match changelog_search js_content with
           | Some sections_str => Some sections_str
           | None =>
               match changelog_statement js_content with
               | Some stmt =>
                   match find_index stmt "sections:[" with
                   | Some sections_start =>
                       Some (_extract_js_array (drop (sections_start + 9) stmt))
                   | None => None
                   end
               | None => None
               end
           end in
         match sections with
         | None => ret []
         | Some sections_str =>
             ret (_filter_by_category self
                    (_filter_by_date self (_parse_antigravity_sections self sections_str)))
         end
     end)
    (fun _ => ret []).

End WithPatterns.

End AntigravityJs.

(** ** The blog scrapers

    A page is read through the queries its scraper makes on it; the
    regular expressions, the JSON decoder, the browser and the two
    constructors [datetime.fromtimestamp] and [datetime.fromisoformat] are
    collaborators. *)

Module Blogs.
Import PyStr PyMore DateTime Strptime DateNormalizer Scraper Fetch.
Local Open Scope Z_scope.

(** A [datetime] as a blog scraper holds it: naive, or aware of its UTC
    offset. *)
Inductive pydatetime :=
| Naive (d : datetime)
| Aware (d : datetime) (utcoffset : Z).

(** The calendar fields of a date, as [strftime] and
    [replace(tzinfo=None)] read them. *)
Definition wall_clock (d : pydatetime) : datetime :=
  match d with Naive d => d | Aware d _ => d end.

(** A group as the scrapers collect it, before the filter loop. *)
Record blog_release := BlogRelease {
  b_date : option pydatetime;
  b_date_str : string;
  b_items : list item;
  b_url : string
}.

(** The filter loop at the end of the three scrapers:
    [release['date'] >= self.cutoff_date] raises [TypeError] for a date
    that is aware, the cut-off being naive. *)
Fixpoint filter_loop (self : scraper) (releases : list blog_release) : result (list release) :=
  match releases with
  | [] => Ok []
  | release :: rest =>
      match b_date release with
      | Some (Aware _ _) => Raise TypeError
      | Some (Naive d) =>
          match filter_loop self rest with
          | Raise e => Raise e
          | Ok filtered =>
              if in_range self d
              then Ok (Release (Some d) (b_date_str release) (b_items release) (b_url release)
                       :: filtered)
              else Ok filtered
          end
      | None =>
          match filter_loop self rest with
          | Raise e => Raise e
          | Ok filtered =>
              if negb (strict_mode self)
              then Ok (Release None (b_date_str release) (b_items release) (b_url release)
                       :: filtered)
              else Ok filtered
          end
      end
  end.

(** [any(r['items'][0]['text'] == title for r in releases)] *)
Definition is_duplicate (releases : list blog_release) (title : string) : bool :=
  existsb (fun r => match b_items r with
                    | it :: _ => String.eqb (text it) title
                    | [] => false
                    end) releases.

(** *** The Cloud blog *)

#[warnings="-register-all"]
Inductive json :=
| JNull
| JBool (b : bool)
| JInt (n : Z)
| JFloat (mantissa exponent : Z)
| JStr (s : string)
| JList (l : list json)
| JDict (l : list (string * json)).

(** Truthiness of a decoded value. *)
Definition json_truthy (j : json) : bool :=
  match j with
  | JNull => false
  | JBool b => b
  | JInt n => negb (n =? 0)
  | JFloat mantissa _ => negb (mantissa =? 0)
  | JStr s => truthy s
  | JList l => match l with [] => false | _ => true end
  | JDict l => match l with [] => false | _ => true end
  end.

(** Induction over a decoded value, the elements of a list included. *)
Fixpoint json_induction (P : json -> Prop)
    (Hnull : P JNull) (Hbool : forall b, P (JBool b)) (Hint : forall n, P (JInt n))
    (Hfloat : forall m e, P (JFloat m e)) (Hstr : forall s, P (JStr s))
    (Hlist : forall l, Forall P l -> P (JList l))
    (Hdict : forall l, P (JDict l)) (j : json) {struct j} : P j :=
  match j with
  | JNull => Hnull
  | JBool b => Hbool b
  | JInt n => Hint n
  | JFloat m e => Hfloat m e
  | JStr s => Hstr s
  | JList l =>
      Hlist l ((fix each (l : list json) : Forall P l :=
                  match l with
                  | [] => @List.Forall_nil json P
                  | x :: rest =>
                      @List.Forall_cons json P x rest
                        (json_induction P Hnull Hbool Hint Hfloat Hstr Hlist Hdict x)
                        (each rest)
                  end) l)
  | JDict l => Hdict l
  end.

(** A card of the page: the text of its [h5], when it has one, and the
    [href] of its link, when it has one (the empty string for a link
    without the attribute). *)
Record cloud_card := CloudCard {
  card_title : option string;
  card_href : option string
}.

Record cloud_page := CloudPage {
  (* [script.string] of every [script] *)
  cloud_scripts : list (option string);
  (* the [div]s of class [u2M0Kb] *)
  cloud_cards : list cloud_card
}.

(** *** Medium *)

Record medium_article := MediumArticle {
  (* the text of the first [h2], [h3] or [h1] *)
  art_title : option string;
  (* [get('href', '')] of the first anchor with an [href] *)
  art_href : option string;
  (* the [datetime] attribute and the text of the [time] element *)
  art_time : option (option string * string);
  (* the texts of the [span]s *)
  art_spans : list string;
  (* [article.get_text()] *)
  art_text : string
}.

(** An anchor with an [href], with the text of the first [h2], [h3],
    [h1] or [p] below it. *)
Record medium_link := MediumLink {
  ml_href : string;
  ml_title : option string
}.

Record medium_page := MediumPage {
  medium_articles : list medium_article;
  medium_links : list medium_link
}.

(** *** The Developers blog *)

(** A [post-item]: its link, with the text of the headline and the
    [href] (each when present), and the text of its date line. *)
Record dev_post := DevPost {
  post_link : option (option string * option string);
  post_date : option string
}.

(** A [glue-card]: the texts of its [post-title] and [glue-headline] and
    its [href], each when present. *)
Record dev_card := DevCard {
  dcard_post_title : option string;
  dcard_headline : option string;
  dcard_href : option string
}.

Record dev_page := DevPage {
  dev_posts : list dev_post;
  dev_cards : list dev_card
}.

(** A [meta] tag: [get('property', '')], [get('name', '')] and
    [get('content')]. *)
Record meta := Meta {
  meta_property : string;
  meta_name : string;
  meta_content : option string
}.

(** An article page: the texts of the first elements of class
    [date-time] and [published-date], and the [meta] tags. *)
Record article_page := ArticlePage {
  page_date_time : option string;
  page_published_date : option string;
  page_metas : list meta
}.

Section WithCollaborators.
Variable requests_get : string -> result (Z * string).
Variable strftime : datetime -> string.
(** [datetime.now()] *)
Variable now : datetime.

(** **** [_extract_articles_from_json] and [_scrape_cloud_blog] *)

Variable parse_cloud : string -> result cloud_page.
(** [re.search(r'data:(\[.*\])\}\);', script.string, re.DOTALL)], as
    [group(1)]. *)
Variable af_data_search : string -> option string.
Variable json_loads : string -> result json.
(** [datetime.fromtimestamp], a naive local time. *)
Variable fromtimestamp : json -> result datetime.

(** What a list adds when it looks like an article entry. *)
Definition article_entry (self : scraper) (obj : list json) : result (list blog_release) :=
  match nth_error obj 8, nth_error obj 1, nth_error obj 7, nth_error obj 0 with
  | Some eighth, Some (JStr title), Some (JStr url), Some (JStr _) =>
      if startswith url "https://cloud.google.com/blog/" then
        let timestamp :=
          match eighth with
          | JList (first :: _) => first
          | _ => JNull
          end in
        let dated :=
          if json_truthy timestamp then
            match fromtimestamp timestamp with
            | Ok date => Ok (Some (Naive date), strftime date)
            | Raise ValueError => Ok (None, "Recent")
            | Raise e => Raise e
            end
          else Ok (None, "Recent") in
        match dated with
        | Ok (date, date_str) =>
            Ok [BlogRelease date date_str [Item title "announcement" [url]] (self_url self)]
        | Raise e => Raise e
        end
      else Ok []
  | _, _, _, _ => Ok []
  end.

(** [_extract_articles_from_json(obj, releases)]: the list [releases]
    afterwards, and the exception that stopped the walk, if any. *)
Fixpoint _extract_articles_from_json (self : scraper) (obj : json)
    (releases : list blog_release) {struct obj} : list blog_release * option exn :=
  match obj with
  | JList l =>
      match article_entry self l with
      | Raise e => (releases, Some e)
      | Ok added =>
          (fix each (l : list json) (releases : list blog_release) {struct l}
             : list blog_release * option exn :=
             match l with
             | [] => (releases, None)
             | item :: rest =>
                 match _extract_articles_from_json self item releases with
                 | (releases, None) => each rest releases
                 | (releases, Some e) => (releases, Some e)
                 end
             end) l (releases ++ added)%list
      end
  | _ => (releases, None)
  end.

(** One turn of the loop over the scripts; the [except] clause keeps what
    was collected before the exception. *)
Definition from_script (self : scraper) (releases : list blog_release)
    (script : option string) : list blog_release :=
  match script with
  | Some s =>
      if truthy s && contains s "AF_initDataCallback" then
        match af_data_search s with
        | Some data =>
            match json_loads data with
            | Ok data => fst (_extract_articles_from_json self data releases)
            | Raise _ => releases
            end
        | None => releases
        end
      else releases
  | None => releases
  end.

(** One turn of the loop over the cards. *)
Definition from_card (self : scraper) (card : cloud_card) : list blog_release :=
  match card_title card, card_href card with
  | Some title, Some url =>
      let url := if truthy url && startswith url "/"
                 then "https://cloud.google.com" +:+ url else url in
      [BlogRelease None "Recent" [Item title "announcement" [url]] (self_url self)]
  | _, _ => []
  end.

Definition collect_cloud (self : scraper) (page : cloud_page) : list blog_release :=
  match fold_left (from_script self) (cloud_scripts page) [] with
  | [] => flat_map (from_card self) (cloud_cards page)
  | releases => releases
  end.

(** [_scrape_cloud_blog] *)
Definition _scrape_cloud_blog (self : scraper) : M (list release) :=
  try_except
    (response <- get requests_get (self_url self) ;;
     content <- lift (raise_for_status response) ;;
     page <- lift (parse_cloud content) ;;
     lift (filter_loop self (collect_cloud self page)))
    (fun _ => ret []).

(** **** [_scrape_medium_blog] *)

(** The page after rendering in the browser; an exception stands for a
    missing driver as well. *)
Variable page_source : string -> result string.
Variable parse_medium : string -> result medium_page.
Variable fromisoformat : string -> result pydatetime.
(** [re.match(r'^\d+[dhm]\s*ago$', s, re.IGNORECASE)] and
    [re.match(r'^(jan|feb|..|dec)\s+\d+', s, re.IGNORECASE)] *)
Variable span_ago : string -> bool.
Variable span_month : string -> bool.
(** The two searches in the text of an article, as [group(1)]. *)
Variable relative_search : string -> option string.
Variable month_search : string -> option string.

(** [date = self._parse_relative_date(s)] followed by
    [if date: date_str = date.strftime(..)]. *)
Definition relative (s : string) : result (option datetime * string) :=
  match _parse_relative_date now s with
  | Ok (Some date) => Ok (Some date, strftime date)
  | Ok None => Ok (None, "Recent")
  | Raise e => Raise e
  end.

(** The date of the [time] element. *)
Definition time_date (article : medium_article) : result (option datetime * string) :=
  match art_time article with
  | Some (attribute, shown) =>
      let date_text := if truthy_opt attribute then default "" attribute else shown in
      if truthy date_text then
        match fromisoformat (replace_char "Z" "+00:00" date_text) with
        | Ok date => Ok (Some (wall_clock date), strftime (wall_clock date))
        | Raise ValueError => relative date_text
        | Raise e => Raise e
        end
      else Ok (None, "Recent")
  | None => Ok (None, "Recent")
  end.

(** The loop over the [span]s: it ends at the first one that gives a
    date. *)
Fixpoint span_date (spans : list string) : result (option datetime * string) :=
  match spans with
  | [] => Ok (None, "Recent")
  | span_text :: rest =>
      if span_ago span_text || span_month span_text || contains (lower span_text) "ago" then
        match relative span_text with
        | Ok (Some date, date_str) => Ok (Some date, date_str)
        | Ok (None, _) => span_date rest
        | Raise e => Raise e
        end
      else span_date rest
  end.

(** The date searched in the text of the article. *)
Definition text_date (article : medium_article) : result (option datetime * string) :=
  match relative_search (art_text article) with
  | Some found => relative found
  | None =>
      match month_search (art_text article) with
      | Some found => relative found
      | None => Ok (None, "Recent")
      end
  end.

(** [stage], unless a date is there. *)
Definition unless_dated (dated : result (option datetime * string))
    (stage : result (option datetime * string)) : result (option datetime * string) :=
  match dated with
  | Ok (None, _) => stage
  | found => found
  end.

Definition article_date (article : medium_article) : result (option datetime * string) :=
  unless_dated (unless_dated (time_date article) (span_date (art_spans article)))
               (text_date article).

(** One turn of the loop over the articles. *)
Definition from_article (self : scraper) (article : medium_article)
  : result (list blog_release) :=
  match art_title article with
  | None => Ok []
  | Some title =>
      if negb (truthy title) || (len title <? 10) then Ok []
      else
        let link :=
          match art_href article with
          | Some href =>
              if startswith href "/" then "https://medium.com" +:+ href
              else if startswith href "http" then href
              else "https://medium.com/google-cloud/" +:+ href
          | None => ""
          end in
        match article_date article with
        | Raise e => Raise e
        | Ok (date, date_str) =>
            Ok [BlogRelease (match date with Some d => Some (Naive d) | None => None end)
                            date_str
                            [Item title "announcement" (if truthy link then [link] else [])]
                            (self_url self)]
        end
  end.

Fixpoint from_articles (self : scraper) (articles : list medium_article)
  : result (list blog_release) :=
  match articles with
  | [] => Ok []
  | article :: rest =>
      match from_article self article with
      | Raise e => Raise e
      | Ok first =>
          match from_articles self rest with
          | Raise e => Raise e
          | Ok others => Ok (first ++ others)%list
          end
      end
  end.

(** One turn of the loop over the links, run when no article was found. *)
Definition from_link (self : scraper) (releases : list blog_release) (link : medium_link)
  : list blog_release :=
  let href := ml_href link in
  if contains href "/google-cloud/" && negb (endswith href "/all") && negb (contains href "?")
  then
    match ml_title link with
    | Some title =>
        if truthy title && (15 <? len title) then
          let full_url := if startswith href "http" then href else "https://medium.com" +:+ href in
          if negb (is_duplicate releases title)
          then (releases ++ [BlogRelease None "Recent" [Item title "announcement" [full_url]]
                                         (self_url self)])%list
          else releases
        else releases
    | None => releases
    end
  else releases.

Definition collect_medium (self : scraper) (page : medium_page) : result (list blog_release) :=
  match from_articles self (medium_articles page) with
  | Raise e => Raise e
  | Ok [] => Ok (fold_left (from_link self) (medium_links page) [])
  | Ok releases => Ok releases
  end.

(** [_scrape_medium_blog] *)
Definition _scrape_medium_blog (self : scraper) : M (list release) :=
  try_except
    (source <- lift (page_source (self_url self)) ;;
     page <- lift (parse_medium source) ;;
     releases <- lift (collect_medium self page) ;;
     lift (filter_loop self releases))
    (fun _ => ret []).

(** **** [_fetch_date_from_url] and [_scrape_developers_blog] *)

Variable parse_dev : string -> result dev_page.
Variable parse_article : string -> result article_page.

(** The loop over the two classes of the Developers blog. *)
Definition class_date (page : article_page) : option datetime :=
  first_some (fun elem =>
                match elem with
                | Some date_str => strptime (title date_str) FMT_B_d_Y
                | None => None
                end)
             [page_date_time page; page_published_date page].

(** The loop over the [meta] tags: the first one that names a date and
    parses. *)
Fixpoint meta_date (metas : list meta) : result (option pydatetime) :=
  match metas with
  | [] => Ok None
  | m :: rest =>
      match meta_content m with
      | Some content =>
          if truthy content
             && (contains (meta_property m) "published_time"
                 || contains (meta_name m) "published_time"
                 || contains (meta_property m) "date" || contains (meta_name m) "date")
          then
            match fromisoformat (replace_char "Z" "+00:00" content) with
            | Ok date => Ok (Some date)
            | Raise ValueError => meta_date rest
            | Raise e => Raise e
            end
          else meta_date rest
      | None => meta_date rest
      end
  end.

(** [_fetch_date_from_url]: every exception gives [None]. *)
Definition _fetch_date_from_url (url : string) : M (option pydatetime) :=
  try_except
    (response <- get requests_get url ;;
     if negb (fst response =? 200) then ret None
     else
       page <- lift (parse_article (snd response)) ;;
       match (if contains url "developers.googleblog.com" then class_date page else None) with
       | Some date => ret (Some (Naive date))
       | None => lift (meta_date (page_metas page))
       end)
    (fun _ => ret None).

(** [link = elem.get('href')] followed by [link.startswith('/')], which
    raises [AttributeError] without the attribute. *)
Definition dev_link (href : option string) : result string :=
  match href with
  | Some link =>
      Ok (if startswith link "/" then "https://developers.googleblog.com" +:+ link else link)
  | None => Raise AttributeError
  end.

(** One turn of the loop over the posts. *)
Definition from_post (self : scraper) (post : dev_post) : result (list blog_release) :=
  match post_link post with
  | Some (Some title, href) =>
      match dev_link href with
      | Raise e => Raise e
      | Ok link =>
          let '(date, date_str) :=
            match post_date post with
            | Some raw_date =>
                match strptime (replace_char "." "" raw_date) FMT_b_d_Y with
                | Some date => (Some (Naive date), strftime date)
                | None => (None, raw_date)
                end
            | None => (None, "Recent")
            end in
          Ok [BlogRelease date date_str [Item title "announcement" [link]] (self_url self)]
      end
  | _ => Ok []
  end.

Fixpoint from_posts (self : scraper) (posts : list dev_post) : result (list blog_release) :=
  match posts with
  | [] => Ok []
  | post :: rest =>
      match from_post self post with
      | Raise e => Raise e
      | Ok first =>
          match from_posts self rest with
          | Raise e => Raise e
          | Ok others => Ok (first ++ others)%list
          end
      end
  end.

(** One turn of the loop over the cards: a card whose title is new gets
    its date from the page of the article. *)
Definition from_dev_card (self : scraper) (releases : list blog_release) (card : dev_card)
  : M (list blog_release) :=
  match (match dcard_post_title card with
         | Some t => Some t
         | None => dcard_headline card
         end) with
  | Some title =>
      link <- lift (dev_link (dcard_href card)) ;;
      if negb (is_duplicate releases title) then
        date <- _fetch_date_from_url link ;;
        ret (releases ++ [BlogRelease date
                            (match date with
                             | Some d => strftime (wall_clock d)
                             | None => "Featured"
                             end)
                            [Item title "announcement" [link]] (self_url self)])%list
      else ret releases
  | None => ret releases
  end.

Fixpoint from_dev_cards (self : scraper) (cards : list dev_card) (releases : list blog_release)
  : M (list blog_release) :=
  match cards with
  | [] => ret releases
  | card :: rest =>
      releases <- from_dev_card self releases card ;;
      from_dev_cards self rest releases
  end.

(** [_scrape_developers_blog] *)
Definition _scrape_developers_blog (self : scraper) : M (list release) :=
  try_except
    (response <- get requests_get (self_url self) ;;
     content <- lift (raise_for_status response) ;;
     page <- lift (parse_dev content) ;;
     posts <- lift (from_posts self (dev_posts page)) ;;
     releases <- from_dev_cards self (dev_cards page) posts ;;
     lift (filter_loop self releases))
    (fun _ => ret []).

End WithCollaborators.

End Blogs.

(** ** A source, with every collaborator in place *)

Module Sources.
Import DateTime Scraper Html Fetch.

(** The collaborators of a run: the HTTP client, the parsers of the
    pages, the regular expressions and the library functions that depend
    on the clock or on the time zone. *)
Record library := Library {
  requests_get : string -> result (Z * string);
  parse_html : string -> result content_area;
  fromstring : string -> option FeedEntries.xml_root;
  _parse_xml_date : string -> option datetime;
  _strip_html_tags : string -> result string;
  parse_content : string -> result Content.soup;
  strftime : datetime -> string;
  now : datetime;
  version_findall : string -> list (string * string * string * string * string);
  simple_findall : string -> list (string * string);
  sub_tags : string -> string;
  item_findall : string -> list (string * string);
  text_findall : string -> list string;
  version_date_finditer : string -> list (string * string * nat);
  desc_search : string -> option string;
  changes_search : string -> option string;
  section_search : string -> string -> option string;
  section_texts : string -> list string;
  bundle_search : string -> option string;
  changelog_search : string -> option string;
  parse_cloud : string -> result Blogs.cloud_page;
  af_data_search : string -> option string;
  json_loads : string -> result Blogs.json;
  fromtimestamp : Blogs.json -> result datetime;
  page_source : string -> result string;
  parse_medium : string -> result Blogs.medium_page;
  fromisoformat : string -> result Blogs.pydatetime;
  span_ago : string -> bool;
  span_month : string -> bool;
  relative_search : string -> option string;
  month_search : string -> option string;
  parse_dev : string -> result Blogs.dev_page;
  parse_article : string -> result Blogs.article_page
}.

Definition _parse_xml_content (lib : library) :=
  Content._parse_xml_content (parse_content lib) (_strip_html_tags lib).

Definition _parse_xml_feed (lib : library) :=
  FeedEntries._parse_xml_feed (fromstring lib) (_parse_xml_date lib) (_strip_html_tags lib)
                              (_parse_xml_content lib) (strftime lib).

Definition _scrape_antigravity_js (lib : library) :=
  AntigravityJs._scrape_antigravity_js
    (version_findall lib) (simple_findall lib) (sub_tags lib) (item_findall lib)
    (text_findall lib) (version_date_finditer lib) (desc_search lib) (changes_search lib)
    (section_search lib) (section_texts lib) (bundle_search lib) (changelog_search lib)
    (requests_get lib).

Definition _scrape_cloud_blog (lib : library) :=
  Blogs._scrape_cloud_blog (requests_get lib) (strftime lib) (parse_cloud lib)
                           (af_data_search lib) (json_loads lib) (fromtimestamp lib).

Definition _scrape_medium_blog (lib : library) :=
  Blogs._scrape_medium_blog (strftime lib) (now lib) (page_source lib) (parse_medium lib)
                            (fromisoformat lib) (span_ago lib) (span_month lib)
                            (relative_search lib) (month_search lib).

Definition _scrape_developers_blog (lib : library) :=
  Blogs._scrape_developers_blog (requests_get lib) (strftime lib) (fromisoformat lib)
                                (parse_dev lib) (parse_article lib).

(** [scrape] *)
Definition scrape (lib : library) : scraper -> M (list release) :=
  Fetch.scrape (requests_get lib) (parse_html lib) (_parse_xml_feed lib)
               (_scrape_antigravity_js lib) (_scrape_cloud_blog lib)
               (_scrape_developers_blog lib) (_scrape_medium_blog lib).

End Sources.

(** ** The loop of [main] over the sources of a run *)

Module Run.
Import DateTime Scraper Fetch.

Section WithScrape.
(** [scraper.scrape()] *)
Variable scrape : scraper -> M (list release).
(** [datetime.now()] at the construction of the scraper of each turn. *)
Variable clock : nat -> datetime.
Variable months days : option Z.
Variable start_date end_date : option datetime.
Variable categories : option (list string).


End WithScrape.

End Run.

(** ** The command line: combining the services of several groups *)

Module Cli.



(** The month count after the checks of [main] on the time options:
    [None] is [parser.error] for more than one option given, and the
    default of 12 months is set when no option holds a value that counts
    as true. *)
Definition time_options (days months : option Z) (start_date : option DateTime.datetime)
  : option (option Z) :=
  let given {A} (x : option A) : Z := match x with Some _ => 1%Z | None => 0%Z end in
  if (1 <? given days + given months + given start_date)%Z then None
  else if negb (bool_decide (is_Some start_date))
          && negb (Scraper.truthy_int months) && negb (Scraper.truthy_int days)
       then Some (Some 12%Z)
       else Some months.

End Cli.

(** ** The renderers: order of the groups, statistics and line wrapping *)

Module Render.
Import PyStr DateTime.
Local Open Scope Z_scope.

(** [datetime.min] *)
Definition datetime_min : datetime := mkdt 1 0.

(** [key=lambda x: x['date'] if x['date'] else datetime.min] *)
Definition sort_key (r : release) : datetime := default datetime_min (date r).

(** [releases.sort(key=.., reverse=True)]: the stable sort into
    descending order, written as insertion from the right; an element
    goes before the first one whose key is not greater than its own. *)
Fixpoint insert_desc (x : release) (sorted : list release) : list release :=
  match sorted with
  | [] => [x]
  | y :: rest =>
      if le (sort_key y) (sort_key x) then x :: y :: rest
      else y :: insert_desc x rest
  end.

Definition sort_newest_first (releases : list release) : list release :=
  fold_right insert_desc [] releases.

(** [category_counts] of the statistics block. *)
Definition category_counts (releases : list release) : gmap string nat :=
  fold_left (fun counts r =>
               fold_left (fun counts it =>
                            <[category it := (default 0%nat (counts !! category it) + 1)%nat]> counts)
                         (items r) counts)
            releases ∅.

(** [total_items = sum(len(r['items']) for r in releases)] *)
Definition total_items (releases : list release) : nat :=
  list_sum (map (fun r => length (items r)) releases).

(** *** Line wrapping in [_format_text]

    The prefix of a line holds an icon outside ASCII, so the lines are
    sequences of code points here; [len] is the length of the sequence. *)

Definition ustr := list N.

Definition SPACE : N := 32%N.

(** The code points [str.strip()] removes. *)
Definition is_space_cp (c : N) : bool :=
  ((9 <=? c) && (c <=? 13) || (28 <=? c) && (c <=? 32) || (c =? 133) || (c =? 160)
   || (c =? 5760) || (8192 <=? c) && (c <=? 8202) || (c =? 8232) || (c =? 8233)
   || (c =? 8239) || (c =? 8287) || (c =? 12288))%N.

(** Truthiness of [s.strip()]. *)
Definition strip_truthy (s : ustr) : bool := existsb (fun c => negb (is_space_cp c)) s.

Definition ulen (s : ustr) : Z := Z.of_nat (length s).

(** One turn of the loop over the words: [lines] and [current_line]. *)
Definition wrap_step (prefix indent : ustr) (max_width : Z)
    (st : list ustr * ustr) (word : ustr) : list ustr * ustr :=
  let '(lines, current_line) := st in
  if ulen current_line + ulen word + 1 <=? max_width + ulen prefix then
    if bool_decide (current_line = prefix) then (lines, (current_line ++ word)%list)
    else (lines, (current_line ++ SPACE :: word)%list)
  else ((lines ++ [current_line])%list, (indent ++ word)%list).

(** The lines written for the words of one item. *)
Definition wrap (prefix : ustr) (words : list ustr) : list ustr :=
  let max_width := 70 in
  let indent := repeat SPACE (length prefix) in
  let '(lines, current_line) :=
    fold_left (wrap_step prefix indent max_width) words ([], prefix) in
  if strip_truthy current_line then (lines ++ [current_line])%list else lines.

End Render.

(** ** The earlier script [gcp-changelog.py] *)

Module Legacy.
Import PyStr DateTime Scraper.
Local Open Scope Z_scope.

(** The cut-off computed by its [__init__]: the time of day is kept. *)
Definition compute_cutoff (now : datetime) (months days : option Z) (start_date : option datetime)
  : result datetime :=
  match start_date with
  | Some d => Ok d
  | None =>
      if truthy_int days then sub now (DateTime.days (default 0 days))
      else if truthy_int months then sub now (DateTime.days (default 0 months * 30))
      else sub now (DateTime.days (12 * 30))
  end.

End Legacy.

(** ** Vocabulary of the properties of the other functions *)

Module MoreProps.
Import PyStr Classifier DateTime Scraper Urls Html.
Local Open Scope Z_scope.

(** A string that is empty or starts with a character that is not blank. *)
Definition starts_nonspace (s : string) : Prop :=
  match s with
  | String c _ => is_space c = false
  | EmptyString => True
  end.

(** A URL on which one more normalisation changes nothing. *)
Definition settled (u : string) : Prop :=
  strip u = u /\ is_absolute u = true
  /\ any_in (lower u) IMG_EXTS = false /\ any_in u IMG_HOSTS = false.

(** Where a normalised URL comes from: a raw URL taken as it is, or a
    path put behind the host, blanks around it removed. *)
Definition from_raw (base_host : string) (urls : list string) (u : string) : Prop :=
  exists raw, In raw urls
              /\ ((u = strip raw /\ startswith (strip raw) "http" = true)
                  \/ (u = base_host +:+ strip raw /\ startswith (strip raw) "/" = true)).

(** The invariant of the loop, [seen] being the URLs already read. *)
Definition norm_inv (base_host : string) (seen normalized : list string) : Prop :=
  NoDup normalized
  /\ Forall (fun u => any_in (lower u) IMG_EXTS = false /\ any_in u IMG_HOSTS = false
                      /\ from_raw base_host seen u) normalized.

(** A group as the extractors hand it on: dated within the range of the
    scraper, with at least one item, every item with at least one URL. *)
Definition well_formed (self : scraper) (r : release) : Prop :=
  (exists d, date r = Some d /\ in_range self d = true)
  /\ items r <> []
  /\ Forall (fun it => urls it <> []) (items r).

(** The category of an item is one of [cats], letter case aside. *)
Definition listed (cats : list string) (it : item) : Prop :=
  In (lower (category it)) cats.

(** The groups all have an item. *)
Definition have_items (rs : list release) : Prop := Forall (fun r => items r <> []) rs.

(** A group dated within the range of the scraper. *)
Definition dated_in_range (self : scraper) (r : release) : Prop :=
  exists d, date r = Some d /\ in_range self d = true.

(** The sources that [scrape] hands to the feed parser or to the HTML
    extractor: XML feeds, and the pages that are neither the AntiGravity
    changelog nor one of the three blogs. *)
Definition feed_or_page (url : string) : bool :=
  Fetch._is_xml_url url
  || (negb (Fetch._is_antigravity_url url)
      && negb (Urls.mem (_detect_platform url) ["cloud_blog"; "developers_blog"; "medium_blog"])).

(** A list of groups in the order of the reports: no group is followed
    by one with a later date, a group without date counting as dated
    [datetime.min]. *)
Fixpoint newest_first (rs : list release) : Prop :=
  match rs with
  | [] => True
  | r :: rest =>
      Forall (fun r' => le (Render.sort_key r') (Render.sort_key r) = true) rest
      /\ newest_first rest
  end.

(** The groups of [rs] with sort key [k], in their order in [rs]. *)
Definition with_key (k : Z) (rs : list release) : list release :=
  List.filter (fun r => to_micros (Render.sort_key r) =? k) rs.

(** The number of items of [rs] with category [c]. *)
Definition count_category (c : string) (rs : list release) : nat :=
  length (List.filter (fun it => String.eqb (category it) c) (flat_map items rs)).

(** The sum of the counts of a table. *)
Definition sum_counts (counts : gmap string nat) : nat :=
  map_fold (fun _ n acc => (n + acc)%nat) 0%nat counts.

(** A line of the report within the width of its item: at most [width]
    code points after the prefix, or the indentation followed by a single
    word (a word that is too long for a line is not broken). *)
Definition fits (prefix : Render.ustr) (words : list Render.ustr) (line : Render.ustr) : Prop :=
  Render.ulen line <= 70 + Render.ulen prefix
  \/ exists word, In word words /\ line = (repeat Render.SPACE (length prefix) ++ word)%list.

(** Every item carries one of the eleven categories. *)
Definition valid_items (its : list item) : Prop :=
  Forall (fun it => In (category it) VALID_CATEGORIES) its.

(** Every item of every collected blog group is an announcement. *)
Definition announcements (rs : list Blogs.blog_release) : Prop :=
  Forall (fun r => Forall (fun it => category it = "announcement") (Blogs.b_items r)) rs.

(** Whenever the computation returns, its value satisfies [P]. *)
Definition whenever {A} (P : A -> Prop) (m : Fetch.M A) : Prop :=
  forall log, match fst (m log) with Ok a => P a | Raise _ => True end.

(** The computation returns on every log, with a value that satisfies
    [P]. *)
Definition always {A} (P : A -> Prop) (m : Fetch.M A) : Prop :=
  forall log, exists a, fst (m log) = Ok a /\ P a.

(** The same for a computation without requests. *)
Definition when_ok {A} (P : A -> Prop) (r : result A) : Prop :=
  match r with Ok a => P a | Raise _ => True end.

End MoreProps.

(** ** Vocabulary of the properties *)

Module Props.
Import PyStr Classifier DateTime Scraper Html.
Local Open Scope Z_scope.

(** Every item of every group carries one of the eleven categories. *)
Definition categories_valid (releases : list release) : Prop :=
  Forall (fun r => Forall (fun it => In (category it) VALID_CATEGORIES) (items r)) releases.

(** The item texts of a run of groups, in order. *)
Definition texts (releases : list release) : list string :=
  flat_map (fun r => map text (items r)) releases.

(** The group [r] with its date set to [d]. *)
Definition dated (r : release) (d : datetime) : release :=
  Release (Some d) (date_str r) (items r) (url r).

(** The look-back of the cut-off in days, as the options select it: a
    non-zero day count, else thirty days per month of a non-zero month
    count, else 360 days. *)
Inductive lookback : option Z -> option Z -> Z -> Prop :=
| lookback_days months n :
    n <> 0 -> lookback months (Some n) n
| lookback_months m days :
    m <> 0 -> days = None \/ days = Some 0 -> lookback (Some m) days (30 * m)
| lookback_default months days :
    months = None \/ months = Some 0 -> days = None \/ days = Some 0 ->
    lookback months days 360.

(** A [datetime] whose time of day is within one day. *)
Definition wf (d : datetime) : Prop := 0 <= usec_of_day d < US_PER_DAY.

(** [rs'] is [rs] followed by groups whose item texts differ from one
    another and from every item text of [rs]. *)
Definition fresh_extension (rs rs' : list release) : Prop :=
  exists added,
    rs' = (rs ++ added)%list
    /\ NoDup (texts added)
    /\ Forall (fun t => ~ In t (texts rs)) (texts added).

(** Every character of [s] satisfies [p]. *)
Fixpoint all_of (p : ascii -> bool) (s : string) : bool :=
  match s with
  | EmptyString => true
  | String c s' => p c && all_of p s'
  end.

(** The duration that [n] units [u] stand for. *)
Definition unit_delta (u : string) (n : Z) : Z :=
  if existsb (String.eqb u) ["d"; "day"] then DateTime.days n
  else if existsb (String.eqb u) ["h"; "hr"; "hour"] then hours n
  else if existsb (String.eqb u) ["m"; "min"; "minute"] then minutes n
  else weeks n.

(** How a GET fails, if it does: [Some st] when it raises or answers with
    an error status, [st] being the status of the response attached to the
    error ([None] for a timeout or a refused connection). *)
Definition failure_status (outcome : result (Z * string)) : option (option Z) :=
  match outcome with
  | Raise (RequestException st) => Some st
  | Raise _ => Some None
  | Ok (status_code, _) =>
      if (400 <=? status_code) && (status_code <? 600) then Some (Some status_code) else None
  end.

End Props.

(** ** Concrete inputs used by the examples *)

Module Examples.
Import PyStr DateTime Scraper Html.
Local Open Scope Z_scope.

(** 2025-06-15 10:30:00 *)
Definition now0 : datetime := at_ 2025 6 15 10 30 0.

(** The scraper of [-u https://example.com/notes -m 3] built at [now0]. *)
Definition months_only : scraper :=
  {| self_url := "https://example.com/notes";
     months := Some 3; days_ := None; start_date := None;
     end_date := Some now0; categories := None; service_name := Some "custom";
     cutoff_date := at_ 2025 3 17 0 0 0 |}.

(** The scraper of [-u https://example.com/notes -d 2] built at [now0]. *)
Definition two_days : scraper :=
  {| self_url := "https://example.com/notes";
     months := None; days_ := Some 2; start_date := None;
     end_date := Some now0; categories := None; service_name := Some "custom";
     cutoff_date := at_ 2025 6 13 0 0 0 |}.

(** A group without a date, as the blog scrapers build them. *)
Definition undated : release :=
  Release None "Recent" [Item "Announcing a new region" "announcement" ["https://cloud.google.com/blog/x"]]
          "https://cloud.google.com/blog/".

(** An Atom entry with both dates. *)
Definition atom_entry : list Feed.xml_element :=
  [ Feed.XmlElement "{http://www.w3.org/2005/Atom}title" (Some "June 10, 2025") None;
    Feed.XmlElement "{http://www.w3.org/2005/Atom}updated" (Some "2025-06-12") None;
    Feed.XmlElement "{http://www.w3.org/2005/Atom}published" (Some "2025-06-10") None ].

(** The scraper of [-s cloud-nat -m 3]: a feed with a registered fallback. *)
Definition cloud_nat : scraper :=
  {| self_url := "https://cloud.google.com/feeds/cloud-nat-release-notes.xml";
     months := Some 3; days_ := None; start_date := None;
     end_date := Some now0; categories := None; service_name := Some "cloud-nat";
     cutoff_date := at_ 2025 3 17 0 0 0 |}.

(** The scraper of [-s cloud-run -m 3]: a feed without fallback. *)
Definition cloud_run : scraper :=
  {| self_url := "https://cloud.google.com/feeds/cloud-run-release-notes.xml";
     months := Some 3; days_ := None; start_date := None;
     end_date := Some now0; categories := None; service_name := Some "cloud-run";
     cutoff_date := at_ 2025 3 17 0 0 0 |}.

(** A network on which the cloud-nat feed is gone (404), the cloud-run
    feed is broken (500) and every other URL answers. *)
Definition network (url : string) : result (Z * string) :=
  if String.eqb url "https://cloud.google.com/feeds/cloud-nat-release-notes.xml"
  then Ok (404, "Not Found")
  else if String.eqb url "https://cloud.google.com/feeds/cloud-run-release-notes.xml"
  then Ok (500, "Server Error")
  else Ok (200, "<html></html>").

(** A page of the Firebase documentation (the quotes around the attribute
    value are left out of the markup strings):
    [<h2>June 10, 2025</h2>
     <ul><li>Added the new API. See the <a href=/docs/reference/android>reference</a>.</li></ul>] *)
Definition firebase_url : string := "https://firebase.google.com/support/release-notes/android".

Definition firebase_scraper : scraper :=
  {| self_url := firebase_url;
     months := Some 3; days_ := None; start_date := None;
     end_date := Some now0; categories := None; service_name := Some "custom";
     cutoff_date := at_ 2025 3 17 0 0 0 |}.

Definition fb_h2 : element :=
  Element "h2" [] "June 10, 2025" "<h2>June 10, 2025</h2>" [].

Definition fb_li : element :=
  Element "li" [] "Added the new API. See thereference."
          "<li>Added the new API. See the <a href=/docs/reference/android>reference</a>.</li>"
          ["/docs/reference/android"].

Definition fb_ul : element :=
  Element "ul" [] "Added the new API. See thereference."
          "<ul><li>Added the new API. See the <a href=/docs/reference/android>reference</a>.</li></ul>"
          ["/docs/reference/android"].

Definition fb_a : element :=
  Element "a" [] "reference" "<a href=/docs/reference/android>reference</a>"
          ["/docs/reference/android"].

Definition firebase_area : content_area :=
  {| children := [Tag fb_h2 []; Tag fb_ul [fb_li]];
     tables := [];
     release_divs := [];
     text_nodes := [("June 10, 2025", Some fb_h2); ("Added the new API. See the ", Some fb_li);
                    ("reference", Some fb_a); (".", Some fb_li)] |}.

(** A page of the Cloud documentation with a dated [h2], a dated [h3] and
    one paragraph after them:
    [<h2>June 10, 2025</h2>
     <h3>Released June 10, 2025</h3>
     <p>As of June 10, 2025 the gateway supports IPv6.</p>] *)
Definition nat_url : string := "https://cloud.google.com/nat/docs/release-notes".

Definition nat_scraper : scraper :=
  {| self_url := nat_url;
     months := Some 3; days_ := None; start_date := None;
     end_date := Some now0; categories := None; service_name := Some "cloud-nat";
     cutoff_date := at_ 2025 3 17 0 0 0 |}.

Definition nat_h2 : element :=
  Element "h2" [] "June 10, 2025" "<h2>June 10, 2025</h2>" [].

Definition nat_h3 : element :=
  Element "h3" [] "Released June 10, 2025" "<h3>Released June 10, 2025</h3>" [].

Definition nat_p : element :=
  Element "p" [] "As of June 10, 2025 the gateway supports IPv6."
          "<p>As of June 10, 2025 the gateway supports IPv6.</p>" [].

Definition nat_area : content_area :=
  {| children := [Tag nat_h2 []; Tag nat_h3 []; Tag nat_p []];
     tables := [];
     release_divs := [];
     text_nodes := [("June 10, 2025", Some nat_h2); ("Released June 10, 2025", Some nat_h3);
                    ("As of June 10, 2025 the gateway supports IPv6.", Some nat_p)] |}.

(** The scraper of [-s gke -m 3]: a feed that downloads on [network]. *)
Definition gke_feed : scraper :=
  {| self_url := "https://cloud.google.com/feeds/gke-release-notes.xml";
     months := Some 3; days_ := None; start_date := None;
     end_date := Some now0; categories := None; service_name := Some "gke";
     cutoff_date := at_ 2025 3 17 0 0 0 |}.

(** The scraper of a Medium feed. *)
Definition medium_feed : scraper :=
  {| self_url := "https://medium.com/feed/google-cloud";
     months := Some 3; days_ := None; start_date := None;
     end_date := Some now0; categories := None; service_name := Some "medium";
     cutoff_date := at_ 2025 3 17 0 0 0 |}.

(** The front page of the Developers blog with one post without a date
    line and one featured card:
    [<div class=post-item><a class=post-item__link href=/gemma-3n/>
       <h3 class=glue-headline>Gemma 3n is here</h3></a></div>
     <a class=glue-card href=/agent-kit/>
       <span class=post-title>Introducing Agent Kit</span></a>] *)
Definition dev_url : string := "https://developers.googleblog.com/".

(** The scraper of [-u https://developers.googleblog.com/ -m 3] built at
    [now0]. *)
Definition dev_scraper : scraper :=
  {| self_url := dev_url;
     months := Some 3; days_ := None; start_date := None;
     end_date := Some now0; categories := None; service_name := Some "custom";
     cutoff_date := at_ 2025 3 17 0 0 0 |}.

Definition dev_post0 : Blogs.dev_post :=
  Blogs.DevPost (Some (Some "Gemma 3n is here", Some "/gemma-3n/")) None.

Definition dev_card0 : Blogs.dev_card :=
  Blogs.DevCard (Some "Introducing Agent Kit") None (Some "/agent-kit/").

Definition dev_front : Blogs.dev_page := Blogs.DevPage [dev_post0] [dev_card0].

(** The same page without the card. *)
Definition dev_front_posts : Blogs.dev_page := Blogs.DevPage [dev_post0] [].

(** The page of the article of the card, without an element of class
    [date-time] or [published-date]:
    [<meta property=article:published_time content=2025-06-10T08:00:00Z>] *)
Definition dev_article : Blogs.article_page :=
  Blogs.ArticlePage None None
    [Blogs.Meta "article:published_time" "" (Some "2025-06-10T08:00:00Z")].

(** [datetime.fromisoformat] on the string of the example, which names
    the offset of UTC; any other string is taken not to parse. *)
Definition fromisoformat0 (s : string) : result Blogs.pydatetime :=
  if String.eqb s "2025-06-10T08:00:00+00:00"
  then Ok (Blogs.Aware (at_ 2025 6 10 8 0 0) 0)
  else Raise ValueError.

End Examples.

(* ===================================================================== *)
(** * Part II: properties                                                 *)
(* ===================================================================== *)

Import PyStr Classifier DateTime Strptime DateNormalizer Scraper Regex Urls Html
       Feed Antigravity Fetch Props Examples.

Ltac in_list := simpl; solve [repeat (first [left; reflexivity | right])].

(** Closed comparisons on [Z], decided by evaluation. *)
Ltac by_eval := vm_compute; repeat split; first [reflexivity | discriminate].

(** ** The classifier *)

Section ClassifierFacts.

Lemma categorize_text_first_match (t : string) :
  categorize_text t = first_match KEYWORD_GROUPS (lower t).
Proof. reflexivity. Qed.

Lemma categorize_text_valid (t : string) : In (categorize_text t) VALID_CATEGORIES.
Proof.
  unfold categorize_text.
  repeat match goal with
         | |- context [if ?b then _ else _] => destruct b; [in_list |]
         end.
  in_list.
Qed.

Lemma class_hint_valid (e : element) (c : string) :
  class_hint e = Some c -> In c VALID_CATEGORIES.
Proof.
  unfold class_hint.
  repeat match goal with
         | |- context [if ?b then _ else _] => destruct b
         end;
    intros H; inversion H; subst; in_list.
Qed.

Lemma categorize_item_valid (element : option element) (text : option string) :
  In (_categorize_item element text) VALID_CATEGORIES.
Proof.
  unfold _categorize_item.
  destruct element as [e|].
  - destruct (class_hint e) as [c|] eqn:Hc; [eapply class_hint_valid; eauto |].
    destruct text as [[|c t]|]; simpl;
      try (destruct (truthy (el_get_text e)); [apply categorize_text_valid | in_list]).
    apply categorize_text_valid.
  - destruct text as [[|c t]|]; simpl; [in_list | apply categorize_text_valid | in_list].
Qed.

(** The example of the specification does contain a keyword of the
    [breaking] group, so the order is what decides it. *)
Example security_before_breaking :
  any_in (lower "Security patch introduces a breaking change")
         ["breaking change"; "breaking change:"; "migration required"; "major version update"] = true
  /\ categorize_text "Security patch introduces a breaking change" = "security".
Proof. split; reflexivity. Qed.

Lemma first_match_hit (s c : string) (kws : list string)
      (pre post : list (string * list string)) :
  Forall (fun g => any_in s (snd g) = false) pre ->
  any_in s kws = true ->
  first_match (pre ++ (c, kws) :: post) s = c.
Proof.
  intros Hpre Hhit. induction Hpre as [| [c' kws'] pre Hg _ IH]; simpl.
  - now rewrite Hhit.
  - simpl in Hg. now rewrite Hg.
Qed.

Lemma first_match_miss (s : string) (groups : list (string * list string)) :
  Forall (fun g => any_in s (snd g) = false) groups ->
  first_match groups s = "update".
Proof.
  induction 1 as [| [c kws] groups Hg _ IH]; simpl; [reflexivity |].
  simpl in Hg. now rewrite Hg.
Qed.

Lemma categorize_item_first_match (element : option element) (text : option string) :
  no_class_hint element ->
  _categorize_item element text
    = first_match KEYWORD_GROUPS (lower (effective_text element text)).
Proof.
  intros Hhint. unfold _categorize_item, effective_text.
  destruct element as [e|]; simpl in Hhint.
  - rewrite Hhint.
    destruct text as [[|c t]|]; simpl.
    + destruct (el_get_text e); reflexivity.
    + reflexivity.
    + destruct (el_get_text e); reflexivity.
  - destruct text as [[|c t]|]; reflexivity.
Qed.

(** C2. Without a recognised marker class the classifier lower-cases the
    text (the [text] argument, or the element's text when that is missing
    or empty) and tests the keyword groups in the order security,
    breaking, public-preview, ga, deprecated, fixed, issue, change,
    announcement, libraries: the result is the category of the first
    group one of whose keywords occurs in the text, and [update] when no
    group has one; the text "Security patch introduces a breaking
    change" is classified [security]. *)
Theorem categorize_item_text_priority (element : option element) (text : option string) :
  no_class_hint element ->
  let s := lower (effective_text element text) in
  (forall pre c kws post,
      KEYWORD_GROUPS = (pre ++ (c, kws) :: post)%list ->
      Forall (fun g => any_in s (snd g) = false) pre ->
      any_in s kws = true ->
      _categorize_item element text = c)
  /\ (Forall (fun g => any_in s (snd g) = false) KEYWORD_GROUPS ->
      _categorize_item element text = "update")
  /\ map fst KEYWORD_GROUPS = PRIORITY
  /\ _categorize_item None (Some "Security patch introduces a breaking change") = "security".
Proof.
  intros Hhint s. repeat split.
  - intros pre c kws post Hgroups Hpre Hhit.
    rewrite categorize_item_first_match by assumption.
    fold s. rewrite Hgroups. now apply first_match_hit.
  - intros Hmiss. rewrite categorize_item_first_match by assumption.
    now apply first_match_miss.
Qed.

Lemma categorize_item_text_priority_witness :
  no_class_hint (Some (Element "p" ["note"] "Resolved a crash in the API" "<p>..</p>" []))
  /\ _categorize_item (Some (Element "p" ["note"] "Resolved a crash in the API" "<p>..</p>" [])) None
     = "fixed".
Proof.
  split; [reflexivity |].
  refine (proj1 (categorize_item_text_priority
                   (Some (Element "p" ["note"] "Resolved a crash in the API" "<p>..</p>" []))
                   None eq_refl)
                (firstn 5 KEYWORD_GROUPS) "fixed" ["fixed"; "fix:"; "resolved"; "bug"]
                (skipn 6 KEYWORD_GROUPS) eq_refl _ eq_refl).
  repeat constructor.
Defined.

End ClassifierFacts.

(** ** Categories of emitted items *)

Section CategoryFacts.

Let valid_item (it : item) : Prop := In (category it) VALID_CATEGORIES.

Lemma item_of_valid (e : element) (us : list string) : valid_item (item_of e us).
Proof. apply categorize_item_valid. Qed.

Lemma one_valid (it : item) : valid_item it -> Forall valid_item [it].
Proof. intros H. apply List.Forall_cons; [exact H | apply List.Forall_nil]. Qed.

Lemma one_group_valid (r : release) : Forall valid_item (items r) -> categories_valid [r].
Proof. intros H. apply List.Forall_cons; [exact H | apply List.Forall_nil]. Qed.

Lemma structured_sibling_valid (t : tag) : Forall valid_item (structured_sibling t).
Proof.
  unfold structured_sibling.
  repeat match goal with
         | |- context [if ?b then _ else _] => destruct b
         end;
    try apply List.Forall_nil; try (apply one_valid, item_of_valid).
  apply Forall_flat_map, Forall_forall. intros li _.
  destruct (truthy (el_get_text li)); [apply one_valid, item_of_valid | apply List.Forall_nil].
Qed.

Lemma structured_walk_valid (sel : selectors) (name : string) (l : list tag) :
  Forall valid_item (structured_walk sel name l).
Proof.
  induction l as [| t l IH]; simpl; [apply List.Forall_nil |].
  repeat match goal with
         | |- context [if ?b then _ else _] => destruct b
         end; try apply List.Forall_nil.
  apply Forall_app; split; [apply structured_sibling_valid | exact IH].
Qed.

Lemma firebase_li_valid (li : element) : Forall valid_item (firebase_li li).
Proof.
  unfold firebase_li.
  destruct (longer_than 5 _); [apply one_valid, item_of_valid | apply List.Forall_nil].
Qed.

Lemma firebase_lis_valid (l : list element) : Forall valid_item (flat_map firebase_li l).
Proof. apply Forall_flat_map, Forall_forall. intros; apply firebase_li_valid. Qed.

Lemma firebase_sibling_valid (t : tag) : Forall valid_item (firebase_sibling t).
Proof.
  unfold firebase_sibling.
  repeat match goal with
         | |- context [if ?b then _ else _] => destruct b
         end;
    try apply firebase_lis_valid; try apply firebase_li_valid; try apply List.Forall_nil.
  apply one_valid, item_of_valid.
Qed.

Lemma firebase_walk_valid (name : string) (l : list tag) :
  Forall valid_item (firebase_walk name l).
Proof.
  induction l as [| t l IH]; simpl; [apply List.Forall_nil |].
  destruct (String.eqb _ _); [apply List.Forall_nil |].
  apply Forall_app; split; [apply firebase_sibling_valid | exact IH].
Qed.

Lemma categories_valid_app (a b : list release) :
  categories_valid a -> categories_valid b -> categories_valid (a ++ b).
Proof. intros; apply Forall_app; split; assumption. Qed.

Lemma categories_valid_flat_map {A} (f : A -> list release) (l : list A) :
  (forall a, categories_valid (f a)) -> categories_valid (flat_map f l).
Proof. intros H. apply Forall_flat_map, Forall_forall. intros; apply H. Qed.

Lemma structured_valid (self : scraper) (sel : selectors) (area : content_area)
      (releases : list release) :
  categories_valid releases ->
  categories_valid (_parse_structured_releases self sel area releases).
Proof.
  intros H. apply categories_valid_app; [exact H |].
  apply categories_valid_flat_map; intros header_tag.
  apply categories_valid_flat_map; intros [header siblings].
  unfold structured_header.
  destruct (structured_date _ _) as [[ds d]|]; [| apply List.Forall_nil].
  pose proof (structured_walk_valid sel (el_name (tag_elem header)) siblings) as Hw.
  destruct (structured_walk _ _ _); [apply List.Forall_nil |].
  apply one_group_valid. exact Hw.
Qed.

Lemma firebase_valid (self : scraper) (sel : selectors) (area : content_area)
      (releases : list release) :
  categories_valid releases ->
  categories_valid (_parse_firebase_releases self sel area releases).
Proof.
  intros H. unfold _parse_firebase_releases.
  apply categories_valid_app; [exact H |].
  apply categories_valid_app.
  - apply categories_valid_flat_map; intros header_tag.
    apply categories_valid_flat_map; intros [header siblings].
    unfold firebase_header.
    destruct (firebase_date _ _) as [[ds [d|]]|]; try apply List.Forall_nil.
    pose proof (firebase_walk_valid header_tag siblings) as Hw.
    destruct (firebase_walk _ _) as [| i1 l1].
    + assert (Hn : Forall valid_item
                     (flat_map (fun t => if mem (el_name (tag_elem t)) ["ul"; "ol"]
                                         then flat_map firebase_li (tag_lis t) else [])
                               (children area))).
      { apply Forall_flat_map, Forall_forall. intros t _.
        destruct (mem _ _); [apply firebase_lis_valid | apply List.Forall_nil]. }
      destruct (flat_map _ (children area)) as [| i2 l2].
      * destruct (15 <? _)%Z; [| apply List.Forall_nil].
        apply one_group_valid, one_valid, categorize_item_valid.
      * apply one_group_valid. exact Hn.
    + apply one_group_valid. exact Hw.
  - apply categories_valid_flat_map; intros rows.
    apply categories_valid_flat_map; intros r.
    unfold firebase_row.
    destruct (row_cells r) as [| c1 [| c2 more]]; try apply List.Forall_nil.
    destruct (firebase_date _ _) as [[ds [d|]]|]; try apply List.Forall_nil.
    destruct (longer_than 10 _); [| apply List.Forall_nil].
    apply one_group_valid, one_valid, categorize_item_valid.
Qed.

Lemma add_fragment_valid (self : scraper) (releases : list release) (e : element)
      (ds : string) (d : datetime) :
  categories_valid releases -> categories_valid (add_fragment self releases e ds d).
Proof.
  intros H. unfold add_fragment.
  destruct (longer_than 20 _); [| exact H].
  destruct (negb _); [| exact H].
  apply categories_valid_app; [exact H |].
  apply one_group_valid, one_valid, item_of_valid.
Qed.

Lemma fold_left_valid {A} (f : list release -> A -> list release) (l : list A) :
  (forall rs a, categories_valid rs -> categories_valid (f rs a)) ->
  forall rs, categories_valid rs -> categories_valid (fold_left f l rs).
Proof. intros Hf. induction l as [| a l IH]; simpl; intros rs H; auto. Qed.

Lemma unstructured_valid (self : scraper) (sel : selectors) (area : content_area)
      (releases : list release) :
  categories_valid releases ->
  categories_valid (_parse_unstructured_releases self sel area releases).
Proof.
  intros H. unfold _parse_unstructured_releases.
  apply fold_left_valid.
  - intros rs [nav parent] Hrs. unfold unstructured_text.
    destruct (negb _); [exact Hrs |].
    apply fold_left_valid; [| exact Hrs]. intros rs1 pattern Hrs1.
    apply fold_left_valid; [| exact Hrs1]. intros rs2 m Hrs2.
    unfold unstructured_match.
    destruct (_parse_date m); [| exact Hrs2].
    destruct (ge _ _); [| exact Hrs2].
    destruct parent; [| exact Hrs2].
    destruct (negb _); [| exact Hrs2].
    now apply add_fragment_valid.
  - apply fold_left_valid; [| exact H]. intros rs [div nb] Hrs.
    unfold unstructured_div.
    destruct (nearby_date _ _) as [[ds d]|]; [| exact Hrs].
    destruct (ge _ _); [| exact Hrs].
    now apply add_fragment_valid.
Qed.

Lemma add_page_url_valid (u : string) (releases : list release) :
  categories_valid releases -> categories_valid (add_page_url u releases).
Proof.
  intros H. unfold add_page_url, categories_valid.
  apply Forall_map. eapply List.Forall_impl; [| exact H]. intros r Hr; simpl.
  apply Forall_map. eapply List.Forall_impl; [| exact Hr]. intros it Hit.
  destruct (urls it); exact Hit.
Qed.

Lemma filter_by_date_valid (self : scraper) (releases : list release) :
  categories_valid releases -> categories_valid (_filter_by_date self releases).
Proof.
  intros H. unfold _filter_by_date. eapply incl_Forall; [apply incl_filter | exact H].
Qed.

Lemma filter_by_category_valid (self : scraper) (releases : list release) :
  categories_valid releases -> categories_valid (_filter_by_category self releases).
Proof.
  intros H. unfold _filter_by_category.
  destruct (categories self) as [[| c cs] |]; [exact H | | exact H].
  set (cats := c :: cs).
  apply Forall_flat_map. eapply List.Forall_impl; [| exact H]. intros r Hr.
  pose proof (incl_filter (fun it => existsb (String.eqb (lower (category it))) cats) (items r))
    as Hincl.
  destruct (List.filter _ (items r)) as [| i l]; [apply List.Forall_nil |].
  apply one_group_valid. eapply incl_Forall; [exact Hincl | exact Hr].
Qed.

Lemma accordion_category_valid (item_title : string) :
  In (accordion_category item_title) VALID_CATEGORIES.
Proof.
  unfold accordion_category.
  repeat match goal with
         | |- context [if ?b then _ else _] => destruct b; [in_list |]
         end.
  in_list.
Qed.

Lemma scrape_page_valid (self : scraper) (page_url : string) (area : content_area) :
  match scrape_page self page_url area with
  | Ok releases => categories_valid releases
  | Raise _ => True
  end.
Proof.
  unfold scrape_page.
  destruct (PLATFORM_SELECTORS _) as [sel|]; [| exact I].
  unfold collect.
  destruct (String.eqb _ "firebase").
  + pose proof (firebase_valid self sel area [] (List.Forall_nil _)) as Hf.
    destruct (_parse_firebase_releases self sel area []) as [| r l].
    * apply filter_by_category_valid, filter_by_date_valid, add_page_url_valid.
      apply unstructured_valid, List.Forall_nil.
    * apply filter_by_category_valid, filter_by_date_valid, add_page_url_valid, Hf.
  + destruct (String.eqb _ "antigravity"); [exact I |].
    pose proof (structured_valid self sel area [] (List.Forall_nil _)) as Hs.
    destruct (_parse_structured_releases self sel area []) as [| r l].
    * apply filter_by_category_valid, filter_by_date_valid, add_page_url_valid.
      apply unstructured_valid, List.Forall_nil.
    * apply filter_by_category_valid, filter_by_date_valid, add_page_url_valid, Hs.
Qed.

End CategoryFacts.

(** ** The date filters and the cut-off *)

Section DateFilterFacts.
Local Open Scope Z_scope.

Lemma to_micros_shift (d : datetime) (delta : Z) :
  to_micros (shift d delta) = to_micros d + delta.
Proof.
  unfold shift, to_micros at 1; simpl.
  pose proof (Z.div_mod (to_micros d + delta) US_PER_DAY) as H.
  assert (US_PER_DAY <> 0) as Hne by (unfold US_PER_DAY, US_PER_SECOND; lia).
  specialize (H Hne). lia.
Qed.

Lemma shift_days (now : datetime) (n : Z) :
  wf now -> shift now (- DateTime.days n) = mkdt (toordinal now - n) (usec_of_day now).
Proof.
  intros Hwf. unfold wf in Hwf. unfold shift.
  assert (Heq : to_micros now + - DateTime.days n
                = (toordinal now - n) * US_PER_DAY + usec_of_day now).
  { unfold to_micros, DateTime.days, timedelta, US_PER_DAY. ring. }
  rewrite Heq. f_equal.
  - rewrite Z.div_add_l by (unfold US_PER_DAY, US_PER_SECOND; lia).
    rewrite Z.div_small by assumption. lia.
  - rewrite Z.add_comm, Z.mod_add by (unfold US_PER_DAY, US_PER_SECOND; lia).
    now apply Z.mod_small.
Qed.

Lemma midnight_before (now : datetime) (n : Z) :
  wf now -> 0 < toordinal now - n <= MAXORDINAL ->
  match sub now (DateTime.days n) with
  | Ok cutoff => Ok (replace_time cutoff 0 0 0 0)
  | Raise e => Raise e
  end = Ok (mkdt (toordinal now - n) 0).
Proof.
  intros Hwf Hr. unfold sub. rewrite shift_days by assumption. simpl.
  destruct (Z.ltb_spec 0 (toordinal now - n)); [| lia].
  destruct (Z.leb_spec (toordinal now - n) MAXORDINAL); [| lia].
  reflexivity.
Qed.

Lemma filter_by_date_In (self : scraper) (r : release) (rs : list release) :
  In r (_filter_by_date self rs)
  <-> In r rs /\ match date r with Some d => in_range self d = true | None => False end.
Proof.
  unfold _filter_by_date. rewrite filter_In.
  destruct (date r); intuition discriminate.
Qed.

Lemma in_range_spec (self : scraper) (d e : datetime) :
  end_date self = Some e ->
  in_range self d = true
  <-> to_micros (cutoff_date self) <= to_micros d <= to_micros e.
Proof.
  intros He. unfold in_range, ge, le. rewrite He.
  rewrite andb_true_iff, !Z.leb_le. tauto.
Qed.

Lemma init_months_only :
  __init__ now0 "https://example.com/notes" (Some 3) None None None None (Some "custom")
  = Ok months_only.
Proof. reflexivity. Qed.

Lemma init_two_days :
  __init__ now0 "https://example.com/notes" None (Some 2) None None None (Some "custom")
  = Ok two_days.
Proof. reflexivity. Qed.

(** [_filter_by_date] keeps no group without a date, whatever the mode;
    the groups of feeds, HTML pages and the embedded script are built
    from dates that parsed. *)
Lemma filter_by_date_drops_undated (self : scraper) (r : release) (rs : list release) :
  date r = None -> ~ In r (_filter_by_date self rs).
Proof. intros Hd. rewrite filter_by_date_In, Hd. tauto. Qed.

(** Strict mode is on exactly when a day count or a start date was given. *)
Lemma strict_mode_spec (self : scraper) :
  strict_mode self = true <-> days_ self <> None \/ start_date self <> None.
Proof.
  unfold strict_mode. destruct (days_ self), (start_date self); split;
    try discriminate; try (intros _; (left; discriminate) || (right; discriminate));
    try reflexivity.
  intros [H | H]; congruence.
Qed.

(** C3. A group with a date passes [_filter_by_date] exactly when its
    date lies between the cut-off and the end date, both included: the
    cut-off itself passes and the day before does not, the end date
    itself passes and the second after does not (the first and third
    whenever the range is not empty).  The end date [main] builds from
    [--end-date] is 23:59:59 of that day. *)
Theorem date_filter_inclusive_bounds
        (self : scraper) (r : release) (rs : list release) (d e : datetime) :
  date r = Some d -> end_date self = Some e ->
  let c := cutoff_date self in
  let passes (x : datetime) := In (dated r x) (_filter_by_date self [dated r x]) in
  (In r (_filter_by_date self rs)
   <-> In r rs /\ to_micros c <= to_micros d <= to_micros e)
  /\ (to_micros c <= to_micros e -> passes c)
  /\ ~ passes (shift c (- DateTime.days 1))
  /\ (to_micros c <= to_micros e -> passes e)
  /\ ~ passes (shift e (seconds 1))
  /\ (forall day, usec_of_day day = 0 ->
                  to_micros (main_end_date day) = to_micros day + seconds 86399).
Proof.
  intros Hd He c passes.
  assert (Hp : forall x, passes x <-> to_micros c <= to_micros x <= to_micros e).
  { intros x. unfold passes. rewrite filter_by_date_In. simpl.
    rewrite (in_range_spec self x e He). fold c. intuition. }
  split; [rewrite filter_by_date_In, Hd, (in_range_spec self d e He); reflexivity |].
  split; [intros; apply Hp; lia |].
  split; [rewrite Hp, to_micros_shift; unfold DateTime.days, timedelta, US_PER_SECOND; lia |].
  split; [intros; apply Hp; lia |].
  split; [rewrite Hp, to_micros_shift; unfold seconds, timedelta, US_PER_SECOND; lia |].
  intros day H0. unfold main_end_date, replace_hms, replace_time, to_micros; simpl.
  rewrite H0. unfold seconds, timedelta, US_PER_SECOND.
  rewrite Z.mod_0_l by lia. lia.
Qed.

Lemma date_filter_inclusive_bounds_witness :
  In (dated undated (at_ 2025 6 13 0 0 0))
     (_filter_by_date two_days [dated undated (at_ 2025 6 13 0 0 0)])
  /\ ~ In (dated undated (at_ 2025 6 12 0 0 0))
          (_filter_by_date two_days [dated undated (at_ 2025 6 12 0 0 0)])
  /\ In (dated undated now0) (_filter_by_date two_days [dated undated now0])
  /\ ~ In (dated undated (at_ 2025 6 15 10 30 1))
          (_filter_by_date two_days [dated undated (at_ 2025 6 15 10 30 1)]).
Proof.
  pose proof (date_filter_inclusive_bounds two_days (dated undated now0)
                [dated undated now0] now0 now0 eq_refl eq_refl)
    as [_ [H1 [H2 [H3 [H4 _]]]]].
  split; [apply H1; by_eval |].
  split; [exact H2 |].
  split; [apply H3; by_eval | exact H4].
Defined.

(** For counts that are not zero: without a start date the constructor
    returns a scraper whose cut-off is midnight of the day [back] days
    before the day of construction, where [back] is the day count when it
    is not zero, else thirty times the month count when that is not zero,
    else 360 (provided that day exists in the calendar). *)
Lemma cutoff_is_midnight_of_boundary_day
        (now : datetime) (url : string) (months days : option Z) (back : Z)
        (end_ : option datetime) (cats : option (list string)) (name : option string) :
  wf now -> lookback months days back -> 0 < toordinal now - back <= MAXORDINAL ->
  compute_cutoff now months days None = Ok (mkdt (toordinal now - back) 0)
  /\ exists self, __init__ now url months days None end_ cats name = Ok self
                  /\ cutoff_date self = mkdt (toordinal now - back) 0.
Proof.
  intros Hwf Hl Hr.
  assert (Hc : compute_cutoff now months days None = Ok (mkdt (toordinal now - back) 0)).
  { unfold compute_cutoff. destruct Hl as [months n Hn | m days Hm Hd | months days Hm Hd].
    - simpl. destruct (Z.eqb_spec n 0); [contradiction |]. simpl.
      now apply midnight_before.
    - assert (truthy_int days = false) as -> by (destruct Hd; subst; reflexivity).
      simpl. destruct (Z.eqb_spec m 0); [contradiction |]. simpl.
      replace (m * 30) with (30 * m) by ring. now apply midnight_before.
    - assert (truthy_int days = false) as -> by (destruct Hd; subst; reflexivity).
      assert (truthy_int months = false) as -> by (destruct Hm; subst; reflexivity).
      now apply midnight_before. }
  split; [exact Hc |].
  unfold __init__. rewrite Hc. eexists; split; reflexivity.
Qed.

Lemma cutoff_is_midnight_of_boundary_day_witness :
  compute_cutoff now0 None (Some 2) None = Ok (at_ 2025 6 13 0 0 0)
  /\ compute_cutoff now0 (Some 3) None None = Ok (at_ 2025 3 17 0 0 0)
  /\ compute_cutoff now0 None None None = Ok (at_ 2024 6 20 0 0 0).
Proof.
  assert (Hwf : wf now0) by by_eval.
  split; [| split].
  - refine (proj1 (cutoff_is_midnight_of_boundary_day now0 "" None (Some 2) 2 None None None
                     Hwf (lookback_days None 2 _) _)); [discriminate |].
    by_eval.
  - refine (proj1 (cutoff_is_midnight_of_boundary_day now0 "" (Some 3) None (30 * 3) None None None
                     Hwf (lookback_months 3 None _ (or_introl eq_refl)) _)); [discriminate |].
    by_eval.
  - refine (proj1 (cutoff_is_midnight_of_boundary_day now0 "" None None 360 None None None
                     Hwf (lookback_default None None (or_introl eq_refl) (or_introl eq_refl)) _)).
    by_eval.
Defined.

(** C10. A day count of zero is not taken as a day count by the
    constructor.  With [-d 0] the checks of [main] count the option as
    given and set the month count to 12, and the scraper is in strict
    mode; but [elif days:] is false for zero, so the cut-off is midnight
    360 days before the construction, 2024-06-20 for [now0], and not
    midnight of the day zero days before, 2025-06-15.  A day count of
    zero gives the cut-off of no day count at all, whatever the month
    count. *)
Theorem zero_day_count_is_ignored :
  Cli.time_options (Some 0) None None = Some (Some 12)
  /\ compute_cutoff now0 (Some 12) (Some 0) None = Ok (at_ 2024 6 20 0 0 0)
  /\ (exists self,
         __init__ now0 "https://example.com/notes" (Some 12) (Some 0) None None None
                  (Some "custom") = Ok self
         /\ days_ self = Some 0
         /\ strict_mode self = true
         /\ cutoff_date self = at_ 2024 6 20 0 0 0
         /\ cutoff_date self <> mkdt (toordinal now0 - 0) 0)
  /\ mkdt (toordinal now0 - 0) 0 = at_ 2025 6 15 0 0 0
  /\ mkdt (toordinal now0 - 360) 0 = at_ 2024 6 20 0 0 0
  /\ (forall now months,
         compute_cutoff now months (Some 0) None = compute_cutoff now months None None).
Proof.
  split; [reflexivity |]. split; [reflexivity |]. split.
  - eexists. split; [reflexivity |]. repeat split; try reflexivity. discriminate.
  - repeat split; reflexivity.
Qed.

End DateFilterFacts.

(** ** Feed entries *)

Section FeedFacts.

Lemma date_elem_first_present (entry : list xml_element) :
  date_elem entry = first_present entry DATE_PRIORITY.
Proof.
  unfold date_elem, DATE_PRIORITY; simpl.
  repeat match goal with
         | |- context [match find entry ?t with _ => _ end] => destruct (find entry t)
         end; reflexivity.
Qed.

Lemma first_present_hit (entry : list xml_element) (pre post : list string)
      (t : string) (e : xml_element) :
  Forall (fun t' => find entry t' = None) pre ->
  find entry t = Some e ->
  first_present entry (pre ++ t :: post) = Some e.
Proof.
  intros Hpre Hhit. induction Hpre as [| t' pre Ht' _ IH]; simpl.
  - now rewrite Hhit.
  - now rewrite Ht'.
Qed.

Lemma first_present_miss (entry : list xml_element) (tags : list string) :
  Forall (fun t => find entry t = None) tags -> first_present entry tags = None.
Proof.
  induction 1 as [| t tags Ht _ IH]; simpl; [reflexivity |]. now rewrite Ht.
Qed.

(** C5. The date of an entry is read from the first element present
    among [pubDate], Atom [published] (with or without the namespace) and
    Atom [updated] (likewise), in that order: whichever of the five tags
    is the first one present, the date element is that element, the date
    string is its text and the date is what [_parse_xml_date] makes of
    that text (no date when the text is missing or empty); an entry with
    none of them has no date.  With no [pubDate], an entry that has a
    [published] and an [updated] element gets the date of [published].
    The group built from the entry carries that date. *)
Theorem entry_date_priority (parse : string -> option datetime) (entry : list xml_element) :
  (forall pre t post e,
      DATE_PRIORITY = (pre ++ t :: post)%list ->
      Forall (fun t' => find entry t' = None) pre ->
      find entry t = Some e ->
      date_elem entry = Some e
      /\ entry_date parse entry
         = match xml_text e with
           | Some s => if truthy s then (s, parse s) else ("", None)
           | None => ("", None)
           end)
  /\ (Forall (fun t => find entry t = None) DATE_PRIORITY ->
      date_elem entry = None /\ entry_date parse entry = ("", None))
  /\ DATE_PRIORITY
     = ["pubDate"; ATOM +:+ "published"; "published"; ATOM +:+ "updated"; "updated"]
  /\ (forall p u s,
         find entry "pubDate" = None ->
         find entry (ATOM +:+ "published") = Some p ->
         find entry (ATOM +:+ "updated") = Some u ->
         xml_text p = Some s -> truthy s = true ->
         date_elem entry = Some p /\ entry_date parse entry = (s, parse s))
  /\ (forall _strip_html_tags _parse_xml_content strftime self added r,
         FeedEntries.entry_release parse _strip_html_tags _parse_xml_content strftime
                                   self entry = Ok added ->
         In r added ->
         date r = snd (entry_date parse entry)
         /\ exists d, date r = Some d /\ date_str r = strftime d).
Proof.
  split; [| split; [| split; [reflexivity | split]]].
  - intros pre t post e Hp Hpre Hhit.
    assert (Hd : date_elem entry = Some e).
    { rewrite date_elem_first_present, Hp. now apply first_present_hit. }
    split; [exact Hd |]. unfold entry_date. now rewrite Hd.
  - intros Hmiss.
    assert (Hd : date_elem entry = None).
    { rewrite date_elem_first_present. now apply first_present_miss. }
    split; [exact Hd |]. unfold entry_date. now rewrite Hd.
  - intros p u s Hpub Hp Hu Hs Ht.
    assert (Hd : date_elem entry = Some p) by (unfold date_elem; now rewrite Hpub, Hp).
    split; [exact Hd |]. unfold entry_date. now rewrite Hd, Hs, Ht.
  - intros strip_tags parse_content strftime self added r. unfold FeedEntries.entry_release.
    destruct (snd (entry_date parse entry)) as [d |]; [| intros [= <-] []].
    destruct (FeedEntries.entry_items _ _ self entry) as [[| i l] | e];
      [intros [= <-] [] | | discriminate].
    intros [= <-] [<- | []]. split; [reflexivity |]. now exists d.
Qed.

Lemma entry_date_priority_witness :
  find atom_entry "pubDate" = None
  /\ entry_date (fun s => try_formats s [FMT_Y_m_d]) atom_entry
     = ("2025-06-10", Some (at_ 2025 6 10 0 0 0)).
Proof.
  split; [reflexivity |].
  exact (proj2 (proj1 (proj2 (proj2 (proj2 (entry_date_priority
                                       (fun s => try_formats s [FMT_Y_m_d]) atom_entry))))
                      (XmlElement "{http://www.w3.org/2005/Atom}published" (Some "2025-06-10") None)
                      (XmlElement "{http://www.w3.org/2005/Atom}updated" (Some "2025-06-12") None)
                      "2025-06-10" eq_refl eq_refl eq_refl eq_refl eq_refl)).
Defined.

End FeedFacts.

(** ** Fetching and the fallback *)

Lemma classic_404 (st : option Z) (fallback : option string) :
  (st = Some 404%Z /\ exists fallback_url, fallback = Some fallback_url)
  \/ (st <> Some 404%Z \/ fallback = None).
Proof.
  destruct fallback as [fb|]; [| right; right; reflexivity].
  destruct st as [code|]; [| right; left; discriminate].
  destruct (Z.eq_dec code 404%Z) as [-> | Hne]; [left; eauto |].
  right; left. congruence.
Qed.

Section FetchFacts.

Variable requests_get : string -> result (Z * string).
Variable parse_html : string -> result content_area.
Variable _parse_xml_feed : scraper -> string -> result (list release).
Variable _scrape_antigravity_js : scraper -> M (list release).
Variable _scrape_cloud_blog : scraper -> M (list release).
Variable _scrape_developers_blog : scraper -> M (list release).
Variable _scrape_medium_blog : scraper -> M (list release).

Let scrape_html := _scrape_html requests_get parse_html.
Let scrape_one :=
  scrape requests_get parse_html _parse_xml_feed _scrape_antigravity_js
         _scrape_cloud_blog _scrape_developers_blog _scrape_medium_blog.
Let scrape_run :=
  scrape_all requests_get parse_html _parse_xml_feed _scrape_antigravity_js
             _scrape_cloud_blog _scrape_developers_blog _scrape_medium_blog.

(** [_scrape_html] issues one GET, against the URL it is given, and always
    returns a list. *)
Lemma scrape_html_total (self : scraper) (url : string) (log : list string) :
  exists releases, scrape_html self url log = (Ok releases, (log ++ [url])%list).
Proof.
  unfold scrape_html, _scrape_html, try_except, bind, get, lift, ret.
  destruct (requests_get url) as [response | e]; [| eauto].
  destruct (raise_for_status response) as [content | e]; [| eauto].
  destruct (parse_html content) as [area | e]; [| eauto].
  destruct (scrape_page self url area) as [releases | e]; eauto.
Qed.

Lemma fallbacks_nonempty (name fallback_url : string) :
  SERVICE_HTML_FALLBACKS !! name = Some fallback_url -> truthy fallback_url = true.
Proof.
  intros H. apply elem_of_list_to_map_2 in H.
  repeat (apply elem_of_cons in H; destruct H as [H | H]; [inversion H; reflexivity |]).
  now apply elem_of_nil in H.
Qed.

Lemma get_fallback_truthy (self : scraper) (fallback_url : string) :
  _get_fallback_url self = Some fallback_url -> truthy fallback_url = true.
Proof.
  unfold _get_fallback_url. destruct (service_name self) as [name|]; [| discriminate].
  destruct (truthy name); [| discriminate]. apply fallbacks_nonempty.
Qed.

(** The exception that reaches the handler of [scrape] when the GET of the
    feed fails with status [st]. *)
Lemma feed_failure (self : scraper) (log : list string) (st : option Z)
      (handler : exn -> M (list release)) :
  failure_status (requests_get (self_url self)) = Some st ->
  exists e,
    try_except
      (response <- get requests_get (self_url self) ;;
       content <- lift (raise_for_status response) ;;
       lift (_parse_xml_feed self content))
      handler log
    = handler e (log ++ [self_url self])%list
    /\ (st = Some 404%Z <-> e = RequestException (Some 404%Z)).
Proof.
  unfold failure_status, try_except, bind, get, lift.
  destruct (requests_get (self_url self)) as [[status_code content] | e]; simpl.
  - destruct ((400 <=? status_code)%Z && (status_code <? 600)%Z); [| discriminate].
    intros [= <-]. eexists; split; [reflexivity |]. split; congruence.
  - intros H. exists e. split; [reflexivity |].
    destruct e; inversion H; subst; split; congruence.
Qed.

(** C4. For an XML-feed source [scrape] always returns a list.  When the
    GET of the feed fails with HTTP 404 and a fallback URL is registered
    for the service, one further GET is issued, against the fallback, and
    the result is that of [_scrape_html] on it.  When the GET fails in any
    other way (another status such as 500, an exception without response
    such as a timeout, or a 404 without registered fallback) no further
    GET is issued and the result is the empty list; the loop over the
    sources of the run then continues with the remaining sources exactly
    as it would run on them alone. *)
Theorem fallback_only_on_404 (self : scraper) (log : list string) (st : option Z) :
  _is_xml_url (self_url self) = true ->
  failure_status (requests_get (self_url self)) = Some st ->
  (exists releases log', scrape_one self log = (Ok releases, log'))
  /\ (forall fallback_url,
         st = Some 404%Z -> _get_fallback_url self = Some fallback_url ->
         scrape_one self log = scrape_html self fallback_url (log ++ [self_url self])%list
         /\ snd (scrape_one self log) = (log ++ [self_url self; fallback_url])%list)
  /\ (st <> Some 404%Z \/ _get_fallback_url self = None ->
      scrape_one self log = (Ok [], (log ++ [self_url self])%list)
      /\ forall rest, scrape_run (self :: rest) log
                      = scrape_run rest (log ++ [self_url self])%list).
Proof.
  intros Hxml Hfail.
  set (handler := fun e : exn =>
         match e with
         | RequestException (Some status_code) =>
             if (status_code =? 404)%Z then
               match _get_fallback_url self with
               | Some fallback_url =>
                   if truthy fallback_url then scrape_html self fallback_url else ret []
               | None => ret []
               end
             else ret []
         | _ => ret []
         end).
  destruct (feed_failure self log st handler Hfail) as [e [Hrun He]].
  assert (Hscrape : scrape_one self log = handler e (log ++ [self_url self])%list).
  { unfold scrape_one, scrape. rewrite Hxml. exact Hrun. }
  assert (Hfb : forall fallback_url,
             st = Some 404%Z -> _get_fallback_url self = Some fallback_url ->
             scrape_one self log = scrape_html self fallback_url (log ++ [self_url self])%list).
  { intros fb H404 Hget. rewrite Hscrape. apply He in H404. subst e. unfold handler.
    rewrite Hget, (get_fallback_truthy self fb Hget). reflexivity. }
  assert (Hempty : st <> Some 404%Z \/ _get_fallback_url self = None ->
                   scrape_one self log = (Ok [], (log ++ [self_url self])%list)).
  { intros Hother. rewrite Hscrape. unfold handler.
    destruct e as [| | | | | | [code|]]; try reflexivity.
    destruct (Z.eqb_spec code 404%Z) as [-> | Hne]; [| reflexivity].
    destruct Hother as [Hst | Hnone]; [exfalso; apply Hst, He; reflexivity |].
    rewrite Hnone. reflexivity. }
  split; [| split].
  - destruct (classic_404 st (_get_fallback_url self)) as [[H404 [fb Hget]] | Hother].
    + rewrite (Hfb fb H404 Hget).
      destruct (scrape_html_total self fb (log ++ [self_url self])%list) as [rs Hrs].
      eauto.
    + rewrite (Hempty Hother). eauto.
  - intros fb H404 Hget. split; [now apply Hfb |].
    rewrite (Hfb fb H404 Hget).
    destruct (scrape_html_total self fb (log ++ [self_url self])%list) as [rs Hrs].
    rewrite Hrs. simpl. now rewrite <- app_assoc.
  - intros Hother. split; [now apply Hempty |].
    intros rest. unfold scrape_run. simpl. unfold bind at 1.
    fold scrape_one. rewrite (Hempty Hother).
    unfold bind, ret. simpl.
    destruct (scrape_all _ _ _ _ _ _ _ rest _) as [[others | e'] log']; reflexivity.
Qed.

End FetchFacts.

Lemma fallback_only_on_404_witness :
  let run := scrape network (fun _ => Ok (ContentArea [] [] [] [])) (fun _ _ => Ok [])
                    (fun _ => ret []) (fun _ => ret []) (fun _ => ret []) (fun _ => ret []) in
  snd (run cloud_nat [])
  = [ "https://cloud.google.com/feeds/cloud-nat-release-notes.xml";
      "https://cloud.google.com/nat/docs/release-notes" ]
  /\ run cloud_run [] = (Ok [], ["https://cloud.google.com/feeds/cloud-run-release-notes.xml"]).
Proof.
  split.
  - exact (proj2 (proj1 (proj2 (fallback_only_on_404
                                  network (fun _ => Ok (ContentArea [] [] [] [])) (fun _ _ => Ok [])
                                  (fun _ => ret []) (fun _ => ret []) (fun _ => ret [])
                                  (fun _ => ret []) cloud_nat [] (Some 404%Z) eq_refl eq_refl))
                        "https://cloud.google.com/nat/docs/release-notes" eq_refl eq_refl)).
  - refine (proj1 (proj2 (proj2 (fallback_only_on_404
                                   network (fun _ => Ok (ContentArea [] [] [] [])) (fun _ _ => Ok [])
                                   (fun _ => ret []) (fun _ => ret []) (fun _ => ret [])
                                   (fun _ => ret []) cloud_run [] (Some 500%Z) eq_refl eq_refl))
                         (or_introl _))).
    discriminate.
Defined.

(** ** Relative dates *)

Section RelativeDateFacts.

Example two_days_ago :
  _parse_relative_date now0 "2d ago" = Ok (Some (shift now0 (- DateTime.days 2)))
  /\ shift now0 (- DateTime.days 2) = at_ 2025 6 13 10 30 0.
Proof. split; reflexivity. Qed.

Example relative_variants :
  _parse_relative_date now0 "3 hrs ago" = Ok (Some (shift now0 (- hours 3)))
  /\ _parse_relative_date now0 "45 minutes ago" = Ok (Some (shift now0 (- minutes 45)))
  /\ _parse_relative_date now0 "2 weeks ago" = Ok (Some (shift now0 (- weeks 2)))
  /\ _parse_relative_date now0 "1 day ago" = Ok (Some (shift now0 (- DateTime.days 1)))
  /\ _parse_relative_date now0 "5m ago" = Ok (Some (shift now0 (- minutes 5))).
Proof. repeat split; reflexivity. Qed.

Example dec_10_rolls_back :
  _parse_relative_date (at_ 2025 1 15 0 0 0) "Dec 10" = Ok (Some (at_ 2024 12 10 0 0 0))
  /\ _parse_relative_date (at_ 2025 12 15 0 0 0) "Dec 10" = Ok (Some (at_ 2025 12 10 0 0 0)).
Proof. split; reflexivity. Qed.

(** *** Strings of the form [<n> <unit> ago] *)

Ltac ascii_cases c :=
  destruct c as [[] [] [] [] [] [] [] []]; try reflexivity; try discriminate.

Lemma digit_not_space (c : ascii) : is_digit c = true -> is_space c = false.
Proof. ascii_cases c. Qed.

Lemma space_not_digit (c : ascii) : is_space c = true -> is_digit c = false.
Proof. ascii_cases c. Qed.

Lemma lower_char_digit (c : ascii) : is_digit c = true -> lower_char c = c.
Proof. ascii_cases c. Qed.

Lemma lower_char_space (c : ascii) : is_space c = true -> lower_char c = c.
Proof. ascii_cases c. Qed.

Lemma space_not_s (c : ascii) (s : string) :
  is_space c = true ->
  match String c s with String "s" s' => s' | _ => String c s end = String c s.
Proof. ascii_cases c. Qed.

Lemma space_not_e (c : ascii) (s : string) :
  is_space c = true -> startswith (String c s) "eek" = false.
Proof. ascii_cases c. Qed.

Lemma append_nil (b : string) : "" +:+ b = b.
Proof. reflexivity. Qed.

Lemma append_cons (c : ascii) (a b : string) : String c a +:+ b = String c (a +:+ b).
Proof. reflexivity. Qed.

Ltac push_append := repeat rewrite append_cons; repeat rewrite append_nil.

Lemma lower_append (a b : string) : lower (a +:+ b) = lower a +:+ lower b.
Proof. induction a as [| c a IH]; simpl; [reflexivity | now rewrite IH]. Qed.

Lemma lower_digits (s : string) : all_of is_digit s = true -> lower s = s.
Proof.
  induction s as [| c s IH]; simpl; [reflexivity |].
  intros H. apply andb_true_iff in H. destruct H as [Hc Hs].
  now rewrite lower_char_digit, IH.
Qed.

Lemma lower_spaces (s : string) : all_of is_space s = true -> lower s = s.
Proof.
  induction s as [| c s IH]; simpl; [reflexivity |].
  intros H. apply andb_true_iff in H. destruct H as [Hc Hs].
  now rewrite lower_char_space, IH.
Qed.

Lemma lstrip_spaces (ws r : string) :
  all_of is_space ws = true -> lstrip (ws +:+ r) = lstrip r.
Proof.
  induction ws as [| c ws IH]; simpl; [reflexivity |].
  intros H. apply andb_true_iff in H. destruct H as [Hc Hs].
  rewrite Hc. now apply IH.
Qed.

Lemma rstrip_append (a b : string) :
  b <> "" -> rstrip b = b -> rstrip (a +:+ b) = a +:+ b.
Proof.
  intros Hne Hb. induction a as [| c a IH]; [exact Hb |].
  change (String c a +:+ b) with (String c (a +:+ b)).
  cbn [rstrip]. rewrite IH. destruct (a +:+ b) eqn:Hab; [| reflexivity].
  destruct a; simpl in Hab; [contradiction | discriminate].
Qed.

Lemma span_digits_append (ds r : string) :
  all_of is_digit ds = true ->
  match r with String c _ => is_digit c = false | EmptyString => True end ->
  span_digits (ds +:+ r) = (ds, r).
Proof.
  intros Hds Hr. induction ds as [| c ds IH]; simpl.
  - destruct r as [| c r]; [reflexivity |]. simpl. now rewrite Hr.
  - simpl in Hds. apply andb_true_iff in Hds. destruct Hds as [Hc Hds].
    rewrite Hc, (IH Hds). reflexivity.
Qed.

(** The tail [s?\s*ago] matches what follows the unit. *)
Lemma ago_tail_matches (plural : bool) (ws : string) :
  all_of is_space ws = true ->
  ago_tail ((if plural then "s" else "") +:+ (ws +:+ "ago")) = true.
Proof.
  intros Hws. unfold ago_tail. destruct plural; push_append.
  - rewrite lstrip_spaces by assumption. reflexivity.
  - destruct ws as [| c ws]; [reflexivity |].
    pose proof Hws as Hws'.
    simpl in Hws. apply andb_true_iff in Hws. destruct Hws as [Hc Hws].
    rewrite append_cons, (space_not_s c _ Hc), <- append_cons.
    rewrite lstrip_spaces by assumption. reflexivity.
Qed.

Lemma tail_not_eek (plural : bool) (ws : string) :
  all_of is_space ws = true ->
  startswith ((if plural then "s" else "") +:+ (ws +:+ "ago")) "eek" = false.
Proof.
  intros Hws. destruct plural; push_append; [reflexivity |].
  destruct ws as [| c ws]; [reflexivity |].
  simpl in Hws. apply andb_true_iff in Hws. destruct Hws as [Hc _].
  rewrite append_cons. now apply space_not_e.
Qed.

Lemma filter_skip {A} (f : A -> bool) (x : A) (l : list A) :
  f x = false -> List.filter f (x :: l) = List.filter f l.
Proof. intros H. simpl. now rewrite H. Qed.

Lemma filter_keep {A} (f : A -> bool) (x : A) (l : list A) :
  f x = true -> List.filter f (x :: l) = x :: List.filter f l.
Proof. intros H. simpl. now rewrite H. Qed.

(** Among the unit alternatives, the first one after which the tail
    matches is the unit that is written. *)
Lemma first_unit (tail u : string) :
  ago_tail tail = true -> startswith tail "eek" = false -> In u AGO_UNITS ->
  exists post,
    List.filter (fun u' => startswith (u +:+ tail) u'
                           && ago_tail (drop (String.length u') (u +:+ tail)))
                AGO_UNITS
    = u :: post.
Proof.
  intros Htail Heek Hu. simpl in Hu. unfold AGO_UNITS.
  repeat (destruct Hu as [<- | Hu];
          [ push_append;
            repeat (rewrite filter_skip
                      by (cbv beta;
                          first [ reflexivity
                                | change (startswith (String "w" tail) "week")
                                    with (startswith tail "eek");
                                  rewrite Heek; reflexivity ]));
            rewrite filter_keep
              by (cbv beta;
                  match goal with
                  | |- context [ago_tail (drop ?n ?s)] =>
                      change (ago_tail (drop n s)) with (ago_tail tail)
                  end;
                  rewrite Htail; reflexivity);
            eexists; reflexivity
          | ]).
  contradiction.
Qed.

(** The pattern picks the unit that is written. *)
Lemma match_ago_form (ds ws1 u ws2 : string) (plural : bool) :
  ds <> "" -> all_of is_digit ds = true ->
  all_of is_space ws1 = true -> all_of is_space ws2 = true ->
  In u AGO_UNITS ->
  match_ago (ds +:+ (ws1 +:+ (u +:+ ((if plural then "s" else "") +:+ (ws2 +:+ "ago")))))
  = Some (int_of 0 ds, u).
Proof.
  intros Hne Hds Hws1 Hws2 Hu.
  set (tail := (if plural then "s" else "") +:+ (ws2 +:+ "ago")).
  assert (Htail : ago_tail tail = true) by now apply ago_tail_matches.
  assert (Heek : startswith tail "eek" = false) by now apply tail_not_eek.
  assert (Hletter : lstrip (u +:+ tail) = u +:+ tail).
  { simpl in Hu.
    repeat (destruct Hu as [<- | Hu]; [push_append; reflexivity |]). contradiction. }
  unfold match_ago.
  rewrite span_digits_append; [| exact Hds |].
  - destruct ds as [| c0 ds0]; [contradiction |].
    rewrite lstrip_spaces by assumption. rewrite Hletter.
    destruct (first_unit tail u Htail Heek Hu) as [post ->]. reflexivity.
  - destruct ws1 as [| c ws1].
    + simpl in Hu.
      repeat (destruct Hu as [<- | Hu]; [reflexivity |]). contradiction.
    + simpl in Hws1. apply andb_true_iff in Hws1. destruct Hws1 as [Hc _].
      rewrite append_cons. now apply space_not_digit.
Qed.

Lemma append_assoc (a b c : string) : (a +:+ b) +:+ c = a +:+ (b +:+ c).
Proof.
  induction a as [| x a IH]; [reflexivity |]. rewrite !append_cons. now rewrite IH.
Qed.

Lemma lstrip_digit (c : ascii) (s : string) :
  is_digit c = true -> lstrip (String c s) = String c s.
Proof. intros H. simpl. now rewrite (digit_not_space c H). Qed.

(** A string [<n> <unit> ago] is already stripped and in lower case. *)
Lemma ago_form_normal (ds ws1 u ws2 : string) (plural : bool) :
  ds <> "" -> all_of is_digit ds = true ->
  all_of is_space ws1 = true -> all_of is_space ws2 = true ->
  In u AGO_UNITS ->
  let s := ds +:+ (ws1 +:+ (u +:+ ((if plural then "s" else "") +:+ (ws2 +:+ "ago")))) in
  lower (strip s) = s.
Proof.
  intros Hne Hds Hws1 Hws2 Hu s.
  assert (Hstrip : strip s = s).
  { unfold strip.
    assert (Hl : lstrip s = s).
    { unfold s. destruct ds as [| c ds0]; [contradiction |].
      simpl in Hds. apply andb_true_iff in Hds. destruct Hds as [Hc _].
      rewrite append_cons. now apply lstrip_digit. }
    rewrite Hl. unfold s.
    rewrite <- !append_assoc. apply rstrip_append; [discriminate | reflexivity]. }
  rewrite Hstrip. unfold s.
  rewrite !lower_append, (lower_digits ds Hds), (lower_spaces ws1 Hws1),
    (lower_spaces ws2 Hws2).
  assert (Hlu : lower u = u).
  { simpl in Hu. repeat (destruct Hu as [<- | Hu]; [reflexivity |]). contradiction. }
  rewrite Hlu. destruct plural; reflexivity.
Qed.

(** The relative forms of C6: for a number [n] written in digits, a unit
    among d, day, h, hr, hour, m, min, minute, w, week, an optional plural
    [s] and optional blanks, [<n><unit> ago] is the instant [n] units
    before now (or [OverflowError] when that instant is before year 1). *)
Lemma relative_ago_form (now : datetime) (ds ws1 u ws2 : string) (plural : bool) :
  ds <> "" -> all_of is_digit ds = true ->
  all_of is_space ws1 = true -> all_of is_space ws2 = true ->
  In u AGO_UNITS ->
  _parse_relative_date now
    (ds +:+ (ws1 +:+ (u +:+ ((if plural then "s" else "") +:+ (ws2 +:+ "ago")))))
  = match sub now (unit_delta u (int_of 0 ds)) with
    | Ok d => Ok (Some d)
    | Raise e => Raise e
    end.
Proof.
  intros Hne Hds Hws1 Hws2 Hu. unfold _parse_relative_date.
  rewrite (ago_form_normal ds ws1 u ws2 plural Hne Hds Hws1 Hws2 Hu).
  rewrite (match_ago_form ds ws1 u ws2 plural Hne Hds Hws1 Hws2 Hu).
  simpl in Hu.
  repeat (destruct Hu as [<- | Hu]; [reflexivity |]). contradiction.
Qed.

Lemma relative_ago_form_example :
  _parse_relative_date now0 "12  weeks ago" = Ok (Some (at_ 2025 3 23 10 30 0)).
Proof.
  exact (relative_ago_form now0 "12" "  " "week" " " true
           ltac:(discriminate) eq_refl eq_refl eq_refl
           ltac:(simpl; tauto)).
Defined.

(** C6. The rule for month-day strings misses 29 February: [strptime]
    without a year builds the date in 1900, which has no such day, so both
    formats raise [ValueError] and the function returns [None], although
    on 2024-03-15 the date 2024-02-29 exists and is not in the future.
    The neighbouring day and the examples of the specification resolve as
    stated. *)
Theorem leap_day_is_not_resolved :
  _parse_relative_date (at_ 2024 3 15 10 30 0) "Feb 29" = Ok None
  /\ strptime "feb 29" FMT_b_d = None
  /\ strptime "feb 29" FMT_B_d = None
  /\ make 2024 2 29 = Some (at_ 2024 2 29 0 0 0)
  /\ gt (at_ 2024 2 29 0 0 0) (at_ 2024 3 15 10 30 0) = false
  /\ _parse_relative_date (at_ 2024 3 15 10 30 0) "Feb 28" = Ok (Some (at_ 2024 2 28 0 0 0)).
Proof. repeat split; reflexivity. Qed.

End RelativeDateFacts.

(** ** URL normalisation on the extraction paths *)

Section UrlFacts.

Lemma startswith_append (a b p : string) :
  startswith a p = true -> startswith (a +:+ b) p = true.
Proof.
  revert a. induction p as [| c p IH]; intros a.
  - intros _. destruct (a +:+ b); reflexivity.
  - destruct a as [| c' a]; simpl; [discriminate |].
    destruct (Ascii.eqb c c'); [apply IH | discriminate].
Qed.

Lemma normalize_step_absolute (base_host : string) (normalized : list string) (u : string) :
  is_absolute base_host = true ->
  Forall (fun x => is_absolute x = true) normalized ->
  Forall (fun x => is_absolute x = true) (normalize_step base_host normalized u).
Proof.
  intros Hbase Hn. unfold normalize_step.
  destruct (negb (truthy u)); [exact Hn |].
  destruct (startswith (strip u) "#"); [exact Hn |].
  destruct (startswith (strip u) "/") eqn:Hslash.
  - destruct (any_in _ IMG_EXTS); [exact Hn |].
    destruct (any_in _ IMG_HOSTS); [exact Hn |].
    destruct (negb _); [| exact Hn].
    apply Forall_app; split; [exact Hn |].
    constructor; [| constructor]. now apply startswith_append.
  - destruct (startswith (strip u) "http") eqn:Hhttp; cbn [negb]; [| exact Hn].
    destruct (any_in _ IMG_EXTS); [exact Hn |].
    destruct (any_in _ IMG_HOSTS); [exact Hn |].
    destruct (negb _); [| exact Hn].
    apply Forall_app; split; [exact Hn |].
    constructor; [exact Hhttp | constructor].
Qed.

(** [_normalize_urls] returns absolute URLs only. *)
Lemma normalize_urls_absolute (us : list string) :
  Forall (fun x => is_absolute x = true) (_normalize_urls us).
Proof.
  unfold _normalize_urls, _normalize_urls_from.
  assert (H : forall acc, Forall (fun x => is_absolute x = true) acc ->
                          Forall (fun x => is_absolute x = true)
                                 (fold_left (normalize_step BASE_HOST) us acc)).
  { induction us as [| u us IH]; simpl; intros acc Hacc; [exact Hacc |].
    apply IH, normalize_step_absolute; [reflexivity | exact Hacc]. }
  apply H. constructor.
Qed.

Example normalize_urls_example :
  _normalize_urls ["/docs/a"; "#top"; "docs/b"; "https://x.y/z.png"; " https://x.y/z "; "/docs/a"]
  = ["https://cloud.google.com/docs/a"; "https://x.y/z"].
Proof. reflexivity. Qed.

(** The same list under a dated header of a Cloud page goes through
    [_normalize_urls]. *)
Example structured_path_normalizes :
  structured_sibling (Tag fb_ul [fb_li])
  = [Item (el_str fb_li) "libraries" ["https://cloud.google.com/docs/reference/android"]].
Proof. reflexivity. Qed.

(** C8. On the Firebase path the items collected under a dated header
    keep the [href]s as they stand in the page: for the page
    [firebase_area] the scrape returns one group whose item carries the
    relative URL [/docs/reference/android], which is not absolute. *)
Theorem firebase_header_path_emits_relative_url :
  scrape_page firebase_scraper firebase_url firebase_area
  = Ok [Release (Some (at_ 2025 6 10 0 0 0)) "June 10, 2025"
                [Item (el_str fb_li) "libraries" ["/docs/reference/android"]]
                firebase_url]
  /\ is_absolute "/docs/reference/android" = false.
Proof. split; reflexivity. Qed.

End UrlFacts.

(** ** Duplicates across and within the strategies *)

Section DedupFacts.

Lemma texts_app (a b : list release) : texts (a ++ b) = (texts a ++ texts b)%list.
Proof. unfold texts. apply flat_map_app. Qed.

Lemma is_duplicate_spec (rs : list release) (t : string) :
  is_duplicate rs t = true <-> In t (texts rs).
Proof.
  unfold is_duplicate, texts. rewrite existsb_exists, in_flat_map.
  split; intros [r [Hr H]]; exists r; split; try exact Hr.
  - apply existsb_exists in H. destruct H as [it [Hit Heq]].
    apply String.eqb_eq in Heq. subst t. now apply in_map.
  - apply in_map_iff in H. destruct H as [it [Heq Hit]].
    apply existsb_exists. exists it. split; [exact Hit |]. now apply String.eqb_eq.
Qed.

Lemma fresh_extension_refl (rs : list release) : fresh_extension rs rs.
Proof.
  exists []. rewrite app_nil_r.
  split; [reflexivity |]. simpl. split; [apply NoDup_nil_2 | apply List.Forall_nil].
Qed.

Lemma add_fragment_fresh (self : scraper) (rs0 rs : list release) (e : element)
      (ds : string) (d : datetime) :
  fresh_extension rs0 rs -> fresh_extension rs0 (add_fragment self rs e ds d).
Proof.
  intros [added [-> [Hnd Hfresh]]]. unfold add_fragment.
  destruct (longer_than 20 _); [| exists added; auto].
  destruct (is_duplicate (rs0 ++ added) (el_str e)) eqn:Hdup; simpl; [exists added; auto |].
  assert (Hnot : ~ In (el_str e) (texts (rs0 ++ added))).
  { intros Hin. apply is_duplicate_spec in Hin. congruence. }
  rewrite texts_app, in_app_iff in Hnot.
  eexists (added ++ [_])%list. split; [now rewrite app_assoc |].
  rewrite texts_app; simpl. split.
  - apply NoDup_app. split; [exact Hnd |].
    split; [| apply NoDup_cons_2; [apply not_elem_of_nil | apply NoDup_nil_2]].
    intros t Ht Ht'. apply list_elem_of_In in Ht. apply list_elem_of_singleton in Ht'.
    subst t. tauto.
  - apply Forall_app; split; [exact Hfresh |].
    apply List.Forall_cons; [tauto | apply List.Forall_nil].
Qed.

Lemma fold_left_fresh {A} (f : list release -> A -> list release) (rs0 : list release)
      (l : list A) :
  (forall rs a, fresh_extension rs0 rs -> fresh_extension rs0 (f rs a)) ->
  forall rs, fresh_extension rs0 rs -> fresh_extension rs0 (fold_left f l rs).
Proof. intros Hf. induction l as [| a l IH]; simpl; intros rs H; auto. Qed.

Lemma unstructured_fresh (self : scraper) (sel : selectors) (area : content_area)
      (releases : list release) :
  fresh_extension releases (_parse_unstructured_releases self sel area releases).
Proof.
  unfold _parse_unstructured_releases.
  apply fold_left_fresh.
  - intros rs [nav parent] Hrs. unfold unstructured_text.
    destruct (negb _); [exact Hrs |].
    apply fold_left_fresh; [| exact Hrs]. intros rs1 pattern Hrs1.
    apply fold_left_fresh; [| exact Hrs1]. intros rs2 m Hrs2.
    unfold unstructured_match.
    destruct (_parse_date m); [| exact Hrs2].
    destruct (ge _ _); [| exact Hrs2].
    destruct parent; [| exact Hrs2].
    destruct (negb _); [| exact Hrs2].
    now apply add_fragment_fresh.
  - apply fold_left_fresh; [| apply fresh_extension_refl]. intros rs [div nb] Hrs.
    unfold unstructured_div.
    destruct (nearby_date _ _) as [[ds d]|]; [| exact Hrs].
    destruct (ge _ _); [| exact Hrs].
    now apply add_fragment_fresh.
Qed.

(** What the unstructured strategy does hold: it appends a fragment only
    when its raw markup differs from the text of every item collected so
    far, so what it adds to the groups already collected has pairwise
    different texts, none of them the text of an earlier item.  It runs
    only when the strategy before it collected nothing. *)
Lemma unstructured_strategy_drops_duplicates
        (self : scraper) (sel : selectors) (area : content_area) (releases : list release) :
  fresh_extension releases (_parse_unstructured_releases self sel area releases)
  /\ NoDup (texts (_parse_unstructured_releases self sel area []))
  /\ (forall platform rs,
         collect self platform sel area = Ok rs ->
         (rs = _parse_unstructured_releases self sel area [] /\ NoDup (texts rs))
         \/ (rs <> []
             /\ (rs = _parse_structured_releases self sel area []
                 \/ rs = _parse_firebase_releases self sel area []))).
Proof.
  assert (Hnd : NoDup (texts (_parse_unstructured_releases self sel area []))).
  { destruct (unstructured_fresh self sel area []) as [added [-> [Hnd _]]]. exact Hnd. }
  split; [apply unstructured_fresh |]. split; [exact Hnd |].
  intros platform rs. unfold collect.
  destruct (String.eqb platform "firebase").
  - destruct (_parse_firebase_releases self sel area []) as [| r l] eqn:Hf.
    + intros [= <-]. left. split; [reflexivity | exact Hnd].
    + intros [= <-]. right. split; [discriminate | right; reflexivity].
  - destruct (String.eqb platform "antigravity"); [discriminate |].
    destruct (_parse_structured_releases self sel area []) as [| r l] eqn:Hs.
    + intros [= <-]. left. split; [reflexivity | exact Hnd].
    + intros [= <-]. right. split; [discriminate | left; reflexivity].
Qed.

(** C7. One node of the page is returned twice.  On the page [nat_area]
    the structured strategy collects the paragraph once under the dated
    [h2] and once under the dated [h3]; it compares nothing, the
    unstructured strategy with its comparison does not run because
    groups were collected, and the filters keep both groups: the scrape
    returns two items with the same raw markup.  The paragraph is also
    within reach of the unstructured text scan. *)
Theorem structured_strategy_keeps_duplicates :
  scrape_page nat_scraper nat_url nat_area
  = Ok [Release (Some (at_ 2025 6 10 0 0 0)) "June 10, 2025"
                [Item (el_str nat_p) "update" [nat_url]] nat_url;
        Release (Some (at_ 2025 6 10 0 0 0)) "June 10, 2025"
                [Item (el_str nat_p) "update" [nat_url]] nat_url]
  /\ (exists releases,
         scrape_page nat_scraper nat_url nat_area = Ok releases
         /\ texts releases = [el_str nat_p; el_str nat_p]
         /\ ~ NoDup (texts releases))
  /\ texts (_parse_structured_releases nat_scraper
               (Selectors ["h2"; "h3"] [PAT_LONG; PAT_ISO; PAT_SLASH]) nat_area [])
     = [el_str nat_p; el_str nat_p]
  /\ In (el_str nat_p)
        (texts (_parse_unstructured_releases nat_scraper
                  (Selectors ["h2"; "h3"] [PAT_LONG; PAT_ISO; PAT_SLASH]) nat_area [])).
Proof.
  split; [reflexivity |]. split; [| split].
  - eexists. split; [reflexivity |]. split; [reflexivity |].
    intros Hnd. apply NoDup_cons_1_1 in Hnd. apply Hnd. now left.
  - reflexivity.
  - vm_compute. tauto.
Qed.

End DedupFacts.

(* ===================================================================== *)
(** * Part III: further properties of the code                            *)
(* ===================================================================== *)

Import FeedEntries Script Cli Render MoreProps.

(** ** URL normalisation as a function on lists *)

Section NormalizeFacts.

Lemma lstrip_starts_nonspace (s : string) : starts_nonspace (lstrip s).
Proof.
  induction s as [| c s IH]; simpl; [exact I |].
  destruct (is_space c) eqn:Hc; [exact IH | simpl; exact Hc].
Qed.

Lemma rstrip_starts_nonspace (s : string) : starts_nonspace s -> starts_nonspace (rstrip s).
Proof.
  destruct s as [| c s]; simpl; [trivial |].
  intros Hc. destruct (rstrip s); [rewrite Hc |]; simpl; exact Hc.
Qed.

Lemma lstrip_fixed (s : string) : starts_nonspace s -> lstrip s = s.
Proof. destruct s as [| c s]; simpl; [trivial |]. now intros ->. Qed.

Lemma rstrip_idempotent (s : string) : rstrip (rstrip s) = rstrip s.
Proof.
  induction s as [| c s IH]; [reflexivity |].
  cbn [rstrip]. destruct (rstrip s) as [| d r] eqn:Hr.
  - destruct (is_space c) eqn:Hc; [reflexivity |]. cbn [rstrip]. now rewrite Hc.
  - cbn [rstrip] in IH |- *. cbn [rstrip]. rewrite IH. reflexivity.
Qed.

Lemma strip_idempotent (s : string) : strip (strip s) = strip s.
Proof.
  unfold strip.
  rewrite (lstrip_fixed (rstrip (lstrip s))).
  - apply rstrip_idempotent.
  - apply rstrip_starts_nonspace, lstrip_starts_nonspace.
Qed.

Lemma rstrip_strip (s : string) : rstrip (strip s) = strip s.
Proof. apply rstrip_idempotent. Qed.

Lemma absolute_head (s : string) :
  is_absolute s = true -> exists s', s = String "h" s'.
Proof.
  unfold is_absolute. destruct s as [| c s']; cbn [startswith]; [discriminate |].
  destruct (Ascii.eqb_spec "h" c) as [<- |]; [eauto | discriminate].
Qed.

Lemma strip_absolute (s : string) :
  is_absolute s = true -> rstrip s = s -> strip s = s.
Proof.
  intros Ha Hr. destruct (absolute_head s Ha) as [s' ->].
  unfold strip. rewrite lstrip_fixed; [exact Hr | reflexivity].
Qed.

Lemma startswith_nonempty (s p : string) :
  p <> "" -> startswith s p = true -> s <> "".
Proof.
  destruct p; [congruence |]. destruct s; simpl; [discriminate | discriminate].
Qed.

Lemma mem_In (u : string) (l : list string) : mem u l = true <-> In u l.
Proof.
  unfold mem. rewrite existsb_exists. split.
  - intros [x [Hin Heq]]. apply String.eqb_eq in Heq. now subst.
  - intros Hin. exists u. split; [exact Hin | apply String.eqb_refl].
Qed.

Lemma from_raw_more (base_host : string) (seen : list string) (url u : string) :
  from_raw base_host seen u -> from_raw base_host (seen ++ [url]) u.
Proof.
  intros [raw [Hin H]]. exists raw. split; [| exact H].
  apply in_or_app. now left.
Qed.

Lemma normalize_step_cases (base_host : string) (normalized : list string) (url : string) :
  normalize_step base_host normalized url = normalized
  \/ exists u,
       normalize_step base_host normalized url = (normalized ++ [u])%list
       /\ ~ In u normalized
       /\ any_in (lower u) IMG_EXTS = false /\ any_in u IMG_HOSTS = false
       /\ ((u = strip url /\ startswith (strip url) "http" = true)
           \/ (u = base_host +:+ strip url /\ startswith (strip url) "/" = true)).
Proof.
  unfold normalize_step.
  destruct (negb (truthy url)); [now left |].
  destruct (startswith (strip url) "#"); [now left |].
  destruct (startswith (strip url) "/") eqn:Hslash.
  - destruct (any_in (lower (base_host +:+ strip url)) IMG_EXTS) eqn:Hext; [now left |].
    destruct (any_in (base_host +:+ strip url) IMG_HOSTS) eqn:Hhost; [now left |].
    destruct (mem (base_host +:+ strip url) normalized) eqn:Hmem; cbn [negb]; [now left |].
    right. exists (base_host +:+ strip url). repeat split; auto.
    intros Hin. apply mem_In in Hin. congruence.
  - destruct (startswith (strip url) "http") eqn:Hhttp; cbn [negb]; [| now left].
    destruct (any_in (lower (strip url)) IMG_EXTS) eqn:Hext; [now left |].
    destruct (any_in (strip url) IMG_HOSTS) eqn:Hhost; [now left |].
    destruct (mem (strip url) normalized) eqn:Hmem; cbn [negb]; [now left |].
    right. exists (strip url). repeat split; auto.
    intros Hin. apply mem_In in Hin. congruence.
Qed.

Lemma normalize_step_inv (base_host : string) (seen normalized : list string) (url : string) :
  norm_inv base_host seen normalized ->
  norm_inv base_host (seen ++ [url]) (normalize_step base_host normalized url).
Proof.
  intros [Hnd Hall].
  assert (Hall' : Forall (fun u => any_in (lower u) IMG_EXTS = false /\ any_in u IMG_HOSTS = false
                                   /\ from_raw base_host (seen ++ [url]) u) normalized).
  { eapply List.Forall_impl; [| exact Hall]. intros u (H1 & H2 & H3).
    repeat split; auto using from_raw_more. }
  destruct (normalize_step_cases base_host normalized url)
    as [-> | (u & -> & Hnew & Hext & Hhost & Hfrom)]; [now split |].
  split.
  - apply NoDup_app. split; [exact Hnd |]. split.
    + intros x Hx Hx'. apply list_elem_of_singleton in Hx'. subst x.
      apply Hnew. now apply list_elem_of_In.
    + apply NoDup_cons_2; [apply not_elem_of_nil | apply NoDup_nil_2].
  - apply Forall_app. split; [exact Hall' |].
    apply List.Forall_cons; [| apply List.Forall_nil].
    repeat split; auto. exists url. split; [| exact Hfrom].
    apply in_or_app. right. now left.
Qed.

Lemma normalize_fold_inv (base_host : string) (urls seen normalized : list string) :
  norm_inv base_host seen normalized ->
  norm_inv base_host (seen ++ urls) (fold_left (normalize_step base_host) urls normalized).
Proof.
  revert seen normalized. induction urls as [| url urls IH]; intros seen normalized H; simpl.
  - now rewrite app_nil_r.
  - replace (seen ++ url :: urls)%list with ((seen ++ [url]) ++ urls)%list
      by (rewrite <- app_assoc; reflexivity).
    apply IH. now apply normalize_step_inv.
Qed.

Lemma normalize_urls_inv (base_host : string) (urls : list string) :
  norm_inv base_host urls (_normalize_urls_from base_host urls).
Proof.
  apply (normalize_fold_inv base_host urls [] []).
  split; [apply NoDup_nil_2 | apply List.Forall_nil].
Qed.

(** X1.  Whatever the raw [href]s and the host, every URL returned by
    [_normalize_urls] is the stripped form of one of the raw URLs (taken
    as it is when that starts with http, put behind the host when it
    starts with a slash), contains none of the image extensions in any
    letter case and neither of the image hosts. *)
Theorem normalize_urls_only_cleans (base_host : string) (urls : list string) :
  Forall (fun u => any_in (lower u) IMG_EXTS = false /\ any_in u IMG_HOSTS = false
                   /\ from_raw base_host urls u)
         (_normalize_urls_from base_host urls).
Proof. exact (proj2 (normalize_urls_inv base_host urls)). Qed.

(** X2.  [_normalize_urls] never returns the same URL twice, also when
    two different raw URLs normalise to the same one. *)
Theorem normalize_urls_no_duplicates (base_host : string) (urls : list string) :
  NoDup (_normalize_urls_from base_host urls)
  /\ _normalize_urls ["/docs/a"; " https://cloud.google.com/docs/a "; "/docs/a"]
     = ["https://cloud.google.com/docs/a"].
Proof. split; [exact (proj1 (normalize_urls_inv base_host urls)) | reflexivity]. Qed.

Lemma from_raw_settled (base_host : string) (urls : list string) (u : string) :
  is_absolute base_host = true ->
  any_in (lower u) IMG_EXTS = false -> any_in u IMG_HOSTS = false ->
  from_raw base_host urls u -> settled u.
Proof.
  intros Hbase Hext Hhost [raw [_ [[-> Hhttp] | [-> Hslash]]]].
  - repeat split; auto using strip_idempotent.
  - assert (Habs : is_absolute (base_host +:+ strip raw) = true)
      by (apply startswith_append; exact Hbase).
    repeat split; auto.
    apply strip_absolute; [exact Habs |].
    apply rstrip_append; [| apply rstrip_strip].
    eapply startswith_nonempty; [| exact Hslash]. discriminate.
Qed.

Lemma normalize_step_settled (base_host : string) (normalized : list string) (u : string) :
  settled u ->
  normalize_step base_host normalized u
  = if mem u normalized then normalized else (normalized ++ [u])%list.
Proof.
  intros (Hstrip & Habs & Hext & Hhost).
  destruct (absolute_head u Habs) as [u' Hu].
  unfold normalize_step. rewrite Hstrip.
  replace (truthy u) with true by (rewrite Hu; reflexivity).
  replace (startswith u "#") with false by (rewrite Hu; reflexivity).
  replace (startswith u "/") with false by (rewrite Hu; reflexivity).
  unfold is_absolute in Habs. rewrite Habs. cbn [negb].
  rewrite Hext, Hhost. now destruct (mem u normalized).
Qed.

Lemma normalize_fold_settled (base_host : string) (l normalized : list string) :
  Forall settled l -> NoDup (normalized ++ l) ->
  fold_left (normalize_step base_host) l normalized = (normalized ++ l)%list.
Proof.
  revert normalized. induction l as [| u l IH]; intros normalized Hall Hnd; simpl.
  - now rewrite app_nil_r.
  - inversion Hall as [| ? ? Hu Hl]; subst.
    rewrite (normalize_step_settled base_host normalized u Hu).
    assert (Hnot : mem u normalized = false).
    { destruct (mem u normalized) eqn:Hm; [| reflexivity].
      apply mem_In in Hm. apply NoDup_app in Hnd. destruct Hnd as (_ & Hdisj & _).
      exfalso. apply (Hdisj u); [now apply list_elem_of_In | left]. }
    rewrite Hnot.
    replace (normalized ++ u :: l)%list with ((normalized ++ [u]) ++ l)%list
      by (rewrite <- app_assoc; reflexivity).
    apply IH; [exact Hl |]. rewrite <- app_assoc. exact Hnd.
Qed.

(** X3.  Normalising a list of URLs that is already normalised returns it
    unchanged, order included: running [_normalize_urls] on its own
    output (as [_parse_xml_content] does for the items that have URLs)
    neither drops nor rewrites a URL. *)
Theorem normalize_urls_idempotent (urls : list string) :
  _normalize_urls (_normalize_urls urls) = _normalize_urls urls.
Proof.
  destruct (normalize_urls_inv BASE_HOST urls) as [Hnd Hall].
  unfold _normalize_urls at 1. unfold _normalize_urls_from at 1.
  fold (_normalize_urls urls).
  apply (normalize_fold_settled BASE_HOST (_normalize_urls urls) []); [| exact Hnd].
  eapply List.Forall_impl; [| exact Hall].
  intros u (Hext & Hhost & Hfrom).
  now apply (from_raw_settled BASE_HOST urls u).
Qed.

End NormalizeFacts.

(** ** The filters *)

Section FilterFacts.

Lemma listed_spec (cats : list string) (it : item) :
  existsb (String.eqb (lower (category it))) cats = true <-> listed cats it.
Proof.
  unfold listed. rewrite existsb_exists. split.
  - intros [c [Hin Heq]]. apply String.eqb_eq in Heq. now rewrite Heq.
  - intros Hin. exists (lower (category it)). split; [exact Hin | apply String.eqb_refl].
Qed.

Lemma filter_by_category_In (self : scraper) (cats : list string) (rs : list release)
      (r' : release) :
  categories self = Some cats -> cats <> [] ->
  In r' (_filter_by_category self rs)
  <-> exists r, In r rs
                /\ r' = Release (date r) (date_str r)
                                (List.filter (fun it => existsb (String.eqb (lower (category it))) cats)
                                             (items r))
                                (url r)
                /\ items r' <> [].
Proof.
  intros Hc Hne. unfold _filter_by_category. rewrite Hc.
  destruct cats as [| c cs]; [now elim Hne |]. set (cats := c :: cs).
  rewrite in_flat_map. split.
  - intros [r [Hin Hr']]. exists r. split; [exact Hin |].
    destruct (List.filter _ (items r)) as [| i l] eqn:Hf; [destruct Hr' |].
    destruct Hr' as [<- | []]. simpl. split; [reflexivity | discriminate].
  - intros [r [Hin [-> Hitems]]]. exists r. split; [exact Hin |]. simpl in Hitems.
    destruct (List.filter _ (items r)) as [| i l]; [congruence | now left].
Qed.

(** X4.  With a category list that is not empty, [_filter_by_category]
    returns only groups that still have an item, and only items whose
    lower-cased category is in the list; no item with a listed category
    is lost: it stays in a group with the date, date text and URL of its
    own group.  Without a list, or with the empty list, the groups are
    returned as they are; [__init__] never stores an empty list. *)
Theorem filter_by_category_exact (self : scraper) (rs : list release) :
  match categories self with
  | None | Some [] => _filter_by_category self rs = rs
  | Some cats =>
      Forall (fun r' => items r' <> [] /\ Forall (listed cats) (items r'))
             (_filter_by_category self rs)
      /\ Forall (fun r =>
                   Forall (fun it =>
                             listed cats it ->
                             exists r', In r' (_filter_by_category self rs)
                                        /\ date r' = date r /\ date_str r' = date_str r
                                        /\ url r' = url r /\ In it (items r'))
                          (items r)) rs
  end
  /\ (forall now page_url months days start_date end_date cats name,
         match __init__ now page_url months days start_date end_date cats name with
         | Ok built => categories built <> Some []
         | Raise _ => True
         end).
Proof.
  split.
  - destruct (categories self) as [[| c cs] |] eqn:Hc;
      [unfold _filter_by_category; now rewrite Hc | | unfold _filter_by_category; now rewrite Hc].
    assert (Hne : c :: cs <> []) by discriminate.
    set (cats := c :: cs) in *.
    split.
    + apply List.Forall_forall. intros r' Hin.
      apply (filter_by_category_In self cats rs r' Hc Hne) in Hin.
      destruct Hin as [r [_ [Hr' Hitems]]]. split; [exact Hitems |].
      rewrite Hr'. cbn [items]. apply List.Forall_forall. intros it Hit.
      apply filter_In in Hit. now apply listed_spec.
    + apply List.Forall_forall. intros r Hr.
      apply List.Forall_forall. intros it Hit Hl.
      assert (Hkept : In it (List.filter
                               (fun it => existsb (String.eqb (lower (category it))) cats)
                               (items r))).
      { apply filter_In. split; [exact Hit | now apply listed_spec]. }
      eexists. split.
      * apply (filter_by_category_In self cats rs _ Hc Hne). exists r.
        split; [exact Hr |]. split; [reflexivity |]. cbn [items]. intros Hnil.
        rewrite Hnil in Hkept. destruct Hkept.
      * cbn [date date_str url items]. now repeat split.
  - intros now page_url m d sd ed cats name. unfold __init__.
    destruct (compute_cutoff now m d sd) as [cutoff | e]; [| exact I].
    simpl. destruct cats as [[| c cs] |]; simpl; discriminate.
Qed.

(** X5.  The date filter and the category filter commute: a group keeps
    its date when its items are filtered, so the result of a scrape does
    not depend on which of the two is applied first. *)
Theorem date_and_category_filters_commute (self : scraper) (rs : list release) :
  _filter_by_date self (_filter_by_category self rs)
  = _filter_by_category self (_filter_by_date self rs).
Proof.
  unfold _filter_by_category.
  destruct (categories self) as [[| c cs] |]; [reflexivity | | reflexivity].
  set (cats := c :: cs).
  unfold _filter_by_date. induction rs as [| r rs IH]; [reflexivity |].
  cbn [flat_map List.filter]. rewrite List.filter_app, IH.
  destruct (List.filter _ (items r)) as [| i l] eqn:Hf.
  - destruct (match date r with Some d => in_range self d | None => false end);
      cbn [flat_map List.filter app]; [rewrite Hf |]; reflexivity.
  - cbn [List.filter date].
    destruct (match date r with Some d => in_range self d | None => false end);
      cbn [flat_map app]; [rewrite Hf |]; reflexivity.
Qed.

End FilterFacts.

(** ** What a scraped page hands on *)

Section PageFacts.

Lemma have_items_app (a b : list release) :
  have_items a -> have_items b -> have_items (a ++ b).
Proof. intros Ha Hb. apply Forall_app. now split. Qed.

Lemma have_items_flat_map {A} (f : A -> list release) (l : list A) :
  (forall a, have_items (f a)) -> have_items (flat_map f l).
Proof. intros H. apply Forall_flat_map, List.Forall_forall. intros a _. apply H. Qed.

Lemma have_items_one (d : option datetime) (ds : string) (i : item) (l : list item)
      (u : string) :
  have_items [Release d ds (i :: l) u].
Proof. apply List.Forall_cons; [discriminate | apply List.Forall_nil]. Qed.

Lemma have_items_fold {A} (f : list release -> A -> list release) (l : list A) :
  (forall rs a, have_items rs -> have_items (f rs a)) ->
  forall rs, have_items rs -> have_items (fold_left f l rs).
Proof. intros Hf. induction l as [| a l IH]; simpl; intros rs H; auto. Qed.

Lemma structured_have_items (self : scraper) (sel : selectors) (area : content_area) :
  have_items (_parse_structured_releases self sel area []).
Proof.
  apply have_items_app; [apply List.Forall_nil |].
  apply have_items_flat_map; intros header_tag.
  apply have_items_flat_map; intros [header siblings].
  unfold structured_header.
  destruct (structured_date _ _) as [[ds d]|]; [| apply List.Forall_nil].
  destruct (structured_walk _ _ _); [apply List.Forall_nil | apply have_items_one].
Qed.

Lemma firebase_have_items (self : scraper) (sel : selectors) (area : content_area) :
  have_items (_parse_firebase_releases self sel area []).
Proof.
  unfold _parse_firebase_releases.
  apply have_items_app; [apply List.Forall_nil |].
  apply have_items_app.
  - apply have_items_flat_map; intros header_tag.
    apply have_items_flat_map; intros [header siblings].
    unfold firebase_header.
    destruct (firebase_date _ _) as [[ds [d|]]|]; try apply List.Forall_nil.
    destruct (firebase_walk _ _) as [| i1 l1]; [| apply have_items_one].
    destruct (flat_map _ (children area)) as [| i2 l2]; [| apply have_items_one].
    destruct (15 <? _)%Z; [apply have_items_one | apply List.Forall_nil].
  - apply have_items_flat_map; intros rows.
    apply have_items_flat_map; intros r.
    unfold firebase_row.
    destruct (row_cells r) as [| c1 [| c2 more]]; try apply List.Forall_nil.
    destruct (firebase_date _ _) as [[ds [d|]]|]; try apply List.Forall_nil.
    destruct (longer_than 10 _); [apply have_items_one | apply List.Forall_nil].
Qed.

Lemma add_fragment_have_items (self : scraper) (releases : list release) (e : element)
      (ds : string) (d : datetime) :
  have_items releases -> have_items (add_fragment self releases e ds d).
Proof.
  intros H. unfold add_fragment.
  destruct (longer_than 20 _); [| exact H].
  destruct (negb _); [| exact H].
  apply have_items_app; [exact H | apply have_items_one].
Qed.

Lemma unstructured_have_items (self : scraper) (sel : selectors) (area : content_area) :
  have_items (_parse_unstructured_releases self sel area []).
Proof.
  unfold _parse_unstructured_releases.
  apply have_items_fold.
  - intros rs [nav parent] Hrs. unfold unstructured_text.
    destruct (negb _); [exact Hrs |].
    apply have_items_fold; [| exact Hrs]. intros rs1 pattern Hrs1.
    apply have_items_fold; [| exact Hrs1]. intros rs2 m Hrs2.
    unfold unstructured_match.
    destruct (_parse_date m); [| exact Hrs2].
    destruct (ge _ _); [| exact Hrs2].
    destruct parent; [| exact Hrs2].
    destruct (negb _); [| exact Hrs2].
    now apply add_fragment_have_items.
  - apply have_items_fold; [| apply List.Forall_nil]. intros rs [div nb] Hrs.
    unfold unstructured_div.
    destruct (nearby_date _ _) as [[ds d]|]; [| exact Hrs].
    destruct (ge _ _); [| exact Hrs].
    now apply add_fragment_have_items.
Qed.

Lemma collect_have_items (self : scraper) (platform : string) (sel : selectors)
      (area : content_area) (rs : list release) :
  collect self platform sel area = Ok rs -> have_items rs.
Proof.
  unfold collect.
  pose proof (structured_have_items self sel area) as Hs.
  pose proof (firebase_have_items self sel area) as Hf.
  pose proof (unstructured_have_items self sel area) as Hu.
  destruct (String.eqb platform "firebase").
  - destruct (_parse_firebase_releases self sel area []); intros [= <-]; assumption.
  - destruct (String.eqb platform "antigravity"); [discriminate |].
    destruct (_parse_structured_releases self sel area []); intros [= <-]; assumption.
Qed.

Lemma add_page_url_items (page_url : string) (rs : list release) :
  have_items rs ->
  Forall (fun r => items r <> [] /\ Forall (fun it => urls it <> []) (items r))
         (add_page_url page_url rs).
Proof.
  intros H. unfold add_page_url. apply Forall_map.
  eapply List.Forall_impl; [| exact H]. intros r Hr. simpl. split.
  - destruct (items r) eqn:Hi; [now elim Hr | discriminate].
  - apply Forall_map. apply List.Forall_forall. intros it _.
    destruct (urls it) eqn:Hu; simpl; [discriminate | rewrite Hu; discriminate].
Qed.

Lemma filter_by_date_well_formed (self : scraper) (rs : list release) :
  Forall (fun r => items r <> [] /\ Forall (fun it => urls it <> []) (items r)) rs ->
  Forall (well_formed self) (_filter_by_date self rs).
Proof.
  intros H. apply List.Forall_forall. intros r Hin.
  apply filter_by_date_In in Hin. destruct Hin as [Hin Hd].
  rewrite List.Forall_forall in H. destruct (H r Hin) as [Hne Hu].
  split; [| now split].
  destruct (date r) as [d |]; [eauto | destruct Hd].
Qed.

Lemma filter_by_category_well_formed (self : scraper) (rs : list release) :
  Forall (well_formed self) rs -> Forall (well_formed self) (_filter_by_category self rs).
Proof.
  intros H. unfold _filter_by_category.
  destruct (categories self) as [[| c cs] |]; [exact H | | exact H].
  set (cats := c :: cs).
  apply Forall_flat_map. eapply List.Forall_impl; [| exact H].
  intros r (Hd & _ & Hu).
  pose proof (incl_filter (fun it => existsb (String.eqb (lower (category it))) cats) (items r))
    as Hincl.
  destruct (List.filter _ (items r)) as [| i l]; [apply List.Forall_nil |].
  apply List.Forall_cons; [| apply List.Forall_nil].
  split; [exact Hd |]. split; [discriminate |].
  simpl. eapply incl_Forall; [exact Hincl | exact Hu].
Qed.

Lemma scrape_page_well_formed (self : scraper) (page_url : string) (area : content_area)
      (rs : list release) :
  scrape_page self page_url area = Ok rs -> Forall (well_formed self) rs.
Proof.
  unfold scrape_page.
  destruct (PLATFORM_SELECTORS _) as [sel |]; [| discriminate].
  destruct (collect self _ sel area) as [found | e] eqn:Hc; [| discriminate].
  intros [= <-].
  apply filter_by_category_well_formed, filter_by_date_well_formed, add_page_url_items.
  exact (collect_have_items _ _ _ _ _ Hc).
Qed.

(** X6.  Whatever the page and the strategy that reads it, every group
    that the HTML extractor returns is dated, with its date within the
    range of the scraper (cut-off and end date included), has at least
    one item, and every item has at least one URL (the page URL when the
    markup gave none). *)
Theorem scraped_page_groups_well_formed
        (self : scraper) (page_url : string) (area : content_area) :
  match scrape_page self page_url area with
  | Ok rs => Forall (well_formed self) rs
  | Raise _ => True
  end.
Proof.
  destruct (scrape_page self page_url area) as [rs | e] eqn:H; [| exact I].
  exact (scrape_page_well_formed _ _ _ _ H).
Qed.

End PageFacts.

(** ** Requests issued and results returned by [scrape] *)

Section FetchMoreFacts.

Variable requests_get : string -> result (Z * string).
Variable parse_html : string -> result content_area.
Variable _parse_xml_feed : scraper -> string -> result (list release).
Variable _scrape_antigravity_js : scraper -> M (list release).
Variable _scrape_cloud_blog : scraper -> M (list release).
Variable _scrape_developers_blog : scraper -> M (list release).
Variable _scrape_medium_blog : scraper -> M (list release).

Let scrape_html := _scrape_html requests_get parse_html.
Let scrape_one :=
  scrape requests_get parse_html _parse_xml_feed _scrape_antigravity_js
         _scrape_cloud_blog _scrape_developers_blog _scrape_medium_blog.

Lemma scrape_html_result (self : scraper) (url : string) (log : list string) :
  exists rs, scrape_html self url log = (Ok rs, (log ++ [url])%list)
             /\ Forall (well_formed self) rs.
Proof.
  unfold scrape_html, _scrape_html, try_except, bind, get, lift, ret.
  destruct (requests_get url) as [response | e]; [| eauto].
  destruct (raise_for_status response) as [content | e]; [| eauto].
  destruct (parse_html content) as [area | e]; [| eauto].
  destruct (scrape_page self url area) as [rs | e] eqn:Hp; [| eauto].
  exists rs. split; [reflexivity |]. exact (scrape_page_well_formed _ _ _ _ Hp).
Qed.

(** X7.  [_scrape_html] never raises and issues exactly one GET, against
    the URL it is given: a failed request, an error status, a page that
    cannot be parsed and an exception in the extractor all end in a
    list, and every group of that list is dated within the range, has an
    item and has a URL on every item. *)
Theorem scrape_html_always_returns (self : scraper) (url : string) (log : list string) :
  exists rs, scrape_html self url log = (Ok rs, (log ++ [url])%list)
             /\ Forall (well_formed self) rs
             /\ (failure_status (requests_get url) <> None -> rs = []).
Proof.
  destruct (scrape_html_result self url log) as [rs [Hrun Hwf]].
  exists rs. split; [exact Hrun |]. split; [exact Hwf |].
  intros Hfail. revert Hrun.
  unfold scrape_html, _scrape_html, try_except, bind, get, lift, ret.
  unfold failure_status in Hfail.
  destruct (requests_get url) as [[status_code content] | e]; [| now intros [= <-]].
  unfold raise_for_status.
  destruct ((400 <=? status_code)%Z && (status_code <? 600)%Z); [now intros [= <-] |].
  now elim Hfail.
Qed.

(** X8.  A page whose platform has no selector profile (the Cloud blog,
    the Developers blog, a Medium feed or a Medium page) or whose
    platform is the AntiGravity changelog gives the empty list through
    [_scrape_html], whatever the page holds: the lookup of the profile
    fails in the first case, and in the second the extractor that is
    called does not exist. *)
Theorem scrape_html_unsupported_platform (self : scraper) (url : string) (log : list string) :
  PLATFORM_SELECTORS (_detect_platform url) = None \/ _detect_platform url = "antigravity" ->
  scrape_html self url log = (Ok [], (log ++ [url])%list).
Proof.
  intros Hp.
  unfold scrape_html, _scrape_html, try_except, bind, get, lift, ret.
  destruct (requests_get url) as [response | e]; [| reflexivity].
  destruct (raise_for_status response) as [content | e]; [| reflexivity].
  destruct (parse_html content) as [area | e]; [| reflexivity].
  unfold scrape_page. destruct Hp as [-> | Hp]; [reflexivity |].
  rewrite Hp. reflexivity.
Qed.

Lemma scrape_feed_cases (self : scraper) (log : list string) :
  _is_xml_url (self_url self) = true ->
  (exists status_code content rs,
      requests_get (self_url self) = Ok (status_code, content)
      /\ raise_for_status (status_code, content) = Ok content
      /\ _parse_xml_feed self content = Ok rs
      /\ scrape_one self log = (Ok rs, (log ++ [self_url self])%list))
  \/ scrape_one self log = (Ok [], (log ++ [self_url self])%list)
  \/ (exists fallback_url,
         _get_fallback_url self = Some fallback_url
         /\ scrape_one self log = scrape_html self fallback_url (log ++ [self_url self])%list).
Proof.
  intros Hxml. unfold scrape_one, scrape. rewrite Hxml.
  set (handler := fun e : exn =>
         match e with
         | RequestException (Some status_code) =>
             if (status_code =? 404)%Z then
               match _get_fallback_url self with
               | Some fallback_url =>
                   if truthy fallback_url
                   then _scrape_html requests_get parse_html self fallback_url else ret []
               | None => ret []
               end
             else ret []
         | _ => ret []
         end).
  assert (Hh : forall e log1,
             handler e log1 = (Ok [], log1)
             \/ exists fallback_url,
                  _get_fallback_url self = Some fallback_url
                  /\ handler e log1 = scrape_html self fallback_url log1).
  { intros e log1. unfold handler.
    destruct e as [| | | | | | [code |]]; try (now left).
    destruct (code =? 404)%Z; [| now left].
    destruct (_get_fallback_url self) as [fb |] eqn:Hfb; [| now left].
    rewrite (get_fallback_truthy self fb Hfb). right. eauto. }
  unfold try_except, bind, get, lift.
  destruct (requests_get (self_url self)) as [[status_code content] | e].
  - destruct (raise_for_status (status_code, content)) as [content' | e] eqn:Hst.
    + assert (content' = content) as ->.
      { unfold raise_for_status in Hst.
        destruct ((400 <=? status_code)%Z && (status_code <? 600)%Z); congruence. }
      destruct (_parse_xml_feed self content) as [rs | e] eqn:Hparse.
      * left. exists status_code, content, rs. auto.
      * right. destruct (Hh e (log ++ [self_url self])%list) as [H | H]; [now left | now right].
    + right. destruct (Hh e (log ++ [self_url self])%list) as [H | H]; [now left | now right].
  - right. destruct (Hh e (log ++ [self_url self])%list) as [H | H]; [now left | now right].
Qed.

(** X9.  One XML-feed source costs at most two GETs: [scrape] always
    requests the feed URL first, and either stops there or requests,
    once, the HTML fallback registered for the service; it never
    raises. *)
Theorem feed_costs_at_most_two_requests (self : scraper) (log : list string) :
  _is_xml_url (self_url self) = true ->
  exists rs, fst (scrape_one self log) = Ok rs
             /\ (snd (scrape_one self log) = (log ++ [self_url self])%list
                 \/ exists fallback_url,
                      _get_fallback_url self = Some fallback_url
                      /\ snd (scrape_one self log)
                         = (log ++ [self_url self; fallback_url])%list).
Proof.
  intros Hxml.
  destruct (scrape_feed_cases self log Hxml)
    as [(st & content & rs & _ & _ & _ & ->) | [-> | (fb & Hfb & ->)]].
  - exists rs. split; [reflexivity | now left].
  - exists []. split; [reflexivity | now left].
  - destruct (scrape_html_result self fb (log ++ [self_url self])%list) as [rs [-> _]].
    exists rs. split; [reflexivity |]. right. exists fb. split; [exact Hfb |].
    simpl. now rewrite <- app_assoc.
Qed.

(** X10.  When the feed downloads, [scrape] returns what the feed parser
    returns; when the parser raises (anything but a request error with
    status 404) the result is the empty list.  In both cases the feed URL
    is the only request: the HTML fallback is not tried for a feed that
    downloads but does not parse. *)
Theorem feed_parsed_without_fallback
        (self : scraper) (log : list string) (status_code : Z) (content : string) :
  _is_xml_url (self_url self) = true ->
  requests_get (self_url self) = Ok (status_code, content) ->
  failure_status (requests_get (self_url self)) = None ->
  (forall rs, _parse_xml_feed self content = Ok rs ->
              scrape_one self log = (Ok rs, (log ++ [self_url self])%list))
  /\ (forall e, _parse_xml_feed self content = Raise e ->
                e <> RequestException (Some 404%Z) ->
                scrape_one self log = (Ok [], (log ++ [self_url self])%list)).
Proof.
  intros Hxml Hget Hok. unfold failure_status in Hok. rewrite Hget in Hok.
  unfold scrape_one, scrape. rewrite Hxml.
  unfold try_except, bind, get, lift. rewrite Hget. unfold raise_for_status.
  destruct ((400 <=? status_code)%Z && (status_code <? 600)%Z); [discriminate |].
  split.
  - intros rs ->. reflexivity.
  - intros e -> Hne.
    destruct e as [| | | | | | [code |]]; try reflexivity.
    destruct (Z.eqb_spec code 404%Z) as [-> | Hcode]; [now elim Hne | reflexivity].
Qed.

End FetchMoreFacts.

(** ** Groups built from the entries of a feed *)

Section FeedEntryFacts.

Variable fromstring : string -> option xml_root.
Variable _parse_xml_date : string -> option datetime.
Variable _strip_html_tags : string -> result string.
Variable _parse_xml_content : string -> option string -> string -> result (list item).
Variable strftime : datetime -> string.

Let parse_feed :=
  FeedEntries._parse_xml_feed fromstring _parse_xml_date _strip_html_tags
                              _parse_xml_content strftime.
Let loop := entry_loop _parse_xml_date _strip_html_tags _parse_xml_content strftime.

(** The group [r] was built from the entry [entry] of [self]'s feed. *)
Let built_from (self : scraper) (entry : list xml_element) (r : release) : Prop :=
  date r = snd (entry_date _parse_xml_date entry)
  /\ (exists d, date r = Some d /\ date_str r = strftime d)
  /\ url r = (if truthy (entry_link entry) then entry_link entry else self_url self).

Lemma entry_release_built (self : scraper) (entry : list xml_element) (added : list release) :
  entry_release _parse_xml_date _strip_html_tags _parse_xml_content strftime self entry
  = Ok added ->
  Forall (fun r => items r <> [] /\ built_from self entry r) added.
Proof.
  unfold entry_release.
  destruct (snd (entry_date _parse_xml_date entry)) as [d |] eqn:Hd;
    [| intros [= <-]; apply List.Forall_nil].
  destruct (entry_items _ _ self entry) as [[| i l] | e];
    [intros [= <-]; apply List.Forall_nil | | discriminate].
  intros [= <-]. apply List.Forall_cons; [| apply List.Forall_nil].
  split; [discriminate |]. unfold built_from. simpl. rewrite Hd. eauto.
Qed.

Lemma entry_loop_built (self : scraper) (all entries : list (list xml_element))
      (releases rs : list release) :
  incl entries all ->
  Forall (fun r => items r <> [] /\ exists entry, In entry all /\ built_from self entry r)
         releases ->
  loop self entries releases = Ok rs ->
  Forall (fun r => items r <> [] /\ exists entry, In entry all /\ built_from self entry r) rs.
Proof.
  revert releases. induction entries as [| entry rest IH]; intros releases Hincl Hrel; simpl.
  - now intros [= <-].
  - destruct (entry_release _ _ _ _ self entry) as [added |] eqn:Ha; [| discriminate].
    apply IH.
    + intros x Hx. apply Hincl. now right.
    + apply Forall_app. split; [exact Hrel |].
      eapply List.Forall_impl; [| exact (entry_release_built self entry added Ha)].
      intros r [Hne Hb]. split; [exact Hne |]. exists entry. split; [| exact Hb].
      apply Hincl. now left.
Qed.

Lemma filter_by_category_origin (self : scraper) (rs : list release) (r' : release) :
  In r' (_filter_by_category self rs) ->
  exists r, In r rs /\ date r' = date r /\ date_str r' = date_str r /\ url r' = url r
            /\ (items r <> [] -> items r' <> [])
            /\ (length (items r') <= length (items r))%nat.
Proof.
  destruct (categories self) as [[| c cs] |] eqn:Hc.
  - unfold _filter_by_category. rewrite Hc. intros Hin. exists r'. auto 10.
  - intros Hin.
    apply (filter_by_category_In self (c :: cs) rs r' Hc ltac:(discriminate)) in Hin.
    destruct Hin as [r [Hin [-> Hne]]]. exists r. simpl. simpl in Hne.
    repeat split; auto. apply filter_length_le.
  - unfold _filter_by_category. rewrite Hc. intros Hin. exists r'. auto 10.
Qed.

Lemma parse_feed_groups (self : scraper) (content : string) :
  match parse_feed self content with
  | Ok rs =>
      Forall (fun r =>
                dated_in_range self r /\ items r <> []
                /\ exists root entry,
                     fromstring content = Some root /\ In entry (entries_of root)
                     /\ date r = snd (entry_date _parse_xml_date entry)
                     /\ (exists d, date r = Some d /\ date_str r = strftime d)
                     /\ url r = (if truthy (entry_link entry) then entry_link entry
                                 else self_url self)) rs
  | Raise _ => True
  end
  /\ (fromstring content = None -> parse_feed self content = Ok []).
Proof.
  unfold parse_feed, FeedEntries._parse_xml_feed.
  destruct (fromstring content) as [root |]; [| split; [apply List.Forall_nil | reflexivity]].
  split; [| discriminate].
  destruct (entry_loop _ _ _ _ self (entries_of root) []) as [rs |] eqn:Hloop; [| exact I].
  pose proof (entry_loop_built self (entries_of root) (entries_of root) [] rs
                (incl_refl _) (List.Forall_nil _) Hloop) as Hall.
  rewrite List.Forall_forall in Hall.
  apply List.Forall_forall. intros r' Hin.
  apply filter_by_category_origin in Hin.
  destruct Hin as (r & Hin & Hdate & Hstr & Hurl & Hne & _).
  apply filter_by_date_In in Hin. destruct Hin as [Hin Hrange].
  destruct (Hall r Hin) as [Hitems (entry & Hentry & Hd & (d & Hsome & Hfmt) & Hu)].
  split; [| split].
  - exists d. rewrite Hdate. split; [exact Hsome |]. now rewrite Hsome in Hrange.
  - now apply Hne.
  - exists root, entry. rewrite Hdate, Hstr, Hurl. repeat split; eauto.
Qed.

(** X11.  Every group that [_parse_xml_feed] returns was built from one
    entry of the feed whose date element parsed: it carries that date,
    which is within the range of the scraper, its text as
    [strftime] writes it, at least one item, and as URL the link of the
    entry or, when the entry has none, the URL of the feed.  A document
    that is not XML gives the empty list. *)
Theorem feed_groups_come_from_dated_entries (self : scraper) (content : string) :
  match parse_feed self content with
  | Ok rs =>
      Forall (fun r =>
                dated_in_range self r /\ items r <> []
                /\ exists root entry,
                     fromstring content = Some root /\ In entry (entries_of root)
                     /\ date r = snd (entry_date _parse_xml_date entry)
                     /\ (exists d, date r = Some d /\ date_str r = strftime d)
                     /\ url r = (if truthy (entry_link entry) then entry_link entry
                                 else self_url self)) rs
  | Raise _ => True
  end
  /\ (fromstring content = None -> parse_feed self content = Ok []).
Proof. exact (parse_feed_groups self content). Qed.

Variable requests_get : string -> result (Z * string).
Variable parse_html : string -> result content_area.
Variable _scrape_antigravity_js : scraper -> M (list release).
Variable _scrape_cloud_blog : scraper -> M (list release).
Variable _scrape_developers_blog : scraper -> M (list release).
Variable _scrape_medium_blog : scraper -> M (list release).

Let scrape_one :=
  scrape requests_get parse_html parse_feed _scrape_antigravity_js
         _scrape_cloud_blog _scrape_developers_blog _scrape_medium_blog.

Lemma scrape_dated_groups (self : scraper) (log : list string) :
  feed_or_page (self_url self) = true ->
  exists rs, fst (scrape_one self log) = Ok rs
             /\ Forall (fun r => dated_in_range self r /\ items r <> []) rs.
Proof.
  assert (Hpage : forall url log1,
             exists rs, fst (_scrape_html requests_get parse_html self url log1) = Ok rs
                        /\ Forall (fun r => dated_in_range self r /\ items r <> []) rs).
  { intros url log1.
    destruct (scrape_html_result requests_get parse_html self url log1) as [rs [-> Hwf]].
    exists rs. split; [reflexivity |].
    eapply List.Forall_impl; [| exact Hwf]. intros r (Hd & Hi & _). now split. }
  unfold feed_or_page. intros Hsrc.
  destruct (Fetch._is_xml_url (self_url self)) eqn:Hxml.
  - destruct (scrape_feed_cases requests_get parse_html parse_feed _scrape_antigravity_js
                _scrape_cloud_blog _scrape_developers_blog _scrape_medium_blog self log Hxml)
      as [(st & content & rs & _ & _ & Hparse & Hrun) | [Hrun | (fb & _ & Hrun)]];
      unfold scrape_one; rewrite Hrun.
    + exists rs. split; [reflexivity |].
      pose proof (proj1 (parse_feed_groups self content)) as Hfeed.
      rewrite Hparse in Hfeed.
      eapply List.Forall_impl; [| exact Hfeed]. intros r (Hd & Hi & _). now split.
    + exists []. split; [reflexivity | apply List.Forall_nil].
    + apply Hpage.
  - simpl in Hsrc. apply andb_true_iff in Hsrc. destruct Hsrc as [Hanti Hblog].
    apply negb_true_iff in Hanti. apply negb_true_iff in Hblog.
    unfold scrape_one, scrape. rewrite Hxml, Hanti.
    unfold Urls.mem in Hblog. simpl in Hblog.
    apply orb_false_iff in Hblog. destruct Hblog as [Hcb Hblog].
    apply orb_false_iff in Hblog. destruct Hblog as [Hdb Hblog].
    apply orb_false_iff in Hblog. destruct Hblog as [Hmb _].
    rewrite Hcb, Hdb, Hmb. apply Hpage.
Qed.

(** X12.  For a source that is an XML feed or a documentation page,
    [scrape] never raises, and every group it returns, whether it comes
    from the feed, from the page or from the HTML fallback of the feed, is
    dated within the range of the scraper and has at least one item. *)
Theorem scrape_returns_dated_groups_in_range (self : scraper) (log : list string) :
  feed_or_page (self_url self) = true ->
  exists rs, fst (scrape_one self log) = Ok rs
             /\ Forall (fun r => dated_in_range self r /\ items r <> []) rs.
Proof. exact (scrape_dated_groups self log). Qed.


Lemma entry_items_blog (other : string -> option string -> string -> result (list item))
      (self : scraper) (entry : list xml_element) :
  _is_blog_feed self = true ->
  entry_items _strip_html_tags _parse_xml_content self entry
  = entry_items _strip_html_tags other self entry
  /\ match entry_items _strip_html_tags _parse_xml_content self entry with
     | Ok its => (length its <= 1)%nat
     | Raise _ => True
     end.
Proof.
  intros Hblog. unfold entry_items. rewrite Hblog. split; [reflexivity |].
  destruct (if truthy_opt (entry_title entry) then _ else _) as [clean_title |]; [| exact I].
  destruct (truthy clean_title); simpl; lia.
Qed.

Lemma entry_loop_blog (other : string -> option string -> string -> result (list item))
      (self : scraper) (entries : list (list xml_element)) (releases : list release) :
  _is_blog_feed self = true ->
  loop self entries releases
  = entry_loop _parse_xml_date _strip_html_tags other strftime self entries releases
  /\ (Forall (fun r => (length (items r) <= 1)%nat) releases ->
      match loop self entries releases with
      | Ok rs => Forall (fun r => (length (items r) <= 1)%nat) rs
      | Raise _ => True
      end).
Proof.
  intros Hblog. revert releases. induction entries as [| entry rest IH]; intros releases.
  - split; [reflexivity | trivial].
  - unfold loop in *. cbn [entry_loop]. unfold entry_release.
    destruct (entry_items_blog other self entry Hblog) as [<- Hlen].
    destruct (snd (entry_date _parse_xml_date entry)) as [d |];
      [| rewrite !app_nil_r; apply IH].
    destruct (entry_items _strip_html_tags _parse_xml_content self entry) as [[| i l] | e].
    + rewrite !app_nil_r. apply IH.
    + destruct (IH (releases ++ [Release (Some d) (strftime d) (i :: l)
                                         (if truthy (entry_link entry) then entry_link entry
                                          else self_url self)])%list) as [Heq Hall].
      split; [exact Heq |]. intros Hrel. apply Hall.
      apply Forall_app. split; [exact Hrel |].
      apply List.Forall_cons; [exact Hlen | apply List.Forall_nil].
    + split; [reflexivity | trivial].
Qed.

(** X25.  For a blog feed (Medium or Feedburner) the article content is
    never parsed: the result of [_parse_xml_feed] is the same whatever
    [_parse_xml_content] would do with the content, and every group
    holds exactly one item, made from the title of the entry. *)
Theorem blog_feed_reads_titles_only
        (other : string -> option string -> string -> result (list item))
        (self : scraper) (content : string) :
  _is_blog_feed self = true ->
  parse_feed self content
  = FeedEntries._parse_xml_feed fromstring _parse_xml_date _strip_html_tags other strftime
                                self content
  /\ match parse_feed self content with
     | Ok rs => Forall (fun r => length (items r) = 1%nat) rs
     | Raise _ => True
     end.
Proof.
  intros Hblog.
  pose proof (proj1 (parse_feed_groups self content)) as Hne.
  unfold parse_feed, FeedEntries._parse_xml_feed in *.
  destruct (fromstring content) as [root |]; [| split; [reflexivity | apply List.Forall_nil]].
  destruct (entry_loop_blog other self (entries_of root) [] Hblog) as [Heq Hlen].
  unfold loop in *. rewrite <- Heq. split; [reflexivity |].
  specialize (Hlen (List.Forall_nil _)).
  destruct (entry_loop _ _ _ _ self (entries_of root) []) as [rs |]; [| exact I].
  rewrite List.Forall_forall in Hne, Hlen.
  apply List.Forall_forall. intros r' Hin.
  destruct (Hne r' Hin) as (_ & Hitems & _).
  apply filter_by_category_origin in Hin.
  destruct Hin as (r & Hin & _ & _ & _ & _ & Hle).
  apply filter_by_date_In in Hin. destruct Hin as [Hin _].
  pose proof (Hlen r Hin) as Hr.
  destruct (items r') as [| i [| i2 l]]; [now elim Hitems | reflexivity | simpl in Hle; lia].
Qed.

End FeedEntryFacts.

(** ** Marker classes *)

Section MarkerFacts.

Lemma startswith_refl (s : string) : startswith s s = true.
Proof. induction s as [| c s IH]; simpl; [reflexivity |]. now rewrite Ascii.eqb_refl. Qed.

Lemma contains_refl (s : string) : contains s s = true.
Proof. destruct s; simpl; [reflexivity |]. now rewrite Ascii.eqb_refl, startswith_refl. Qed.

Lemma contains_append_l (a b c : string) :
  contains a c = true -> contains (a +:+ b) c = true.
Proof.
  induction a as [| x a IH]; cbn [contains].
  - rewrite orb_false_r. intros H. destruct c; [| discriminate H].
    destruct ("" +:+ b); reflexivity.
  - intros H. apply orb_true_iff in H. rewrite append_cons. cbn [contains].
    apply orb_true_iff. destruct H as [H | H].
    + left. rewrite <- append_cons. now apply startswith_append.
    + right. now apply IH.
Qed.

Lemma contains_append_r (a b c : string) :
  contains b c = true -> contains (a +:+ b) c = true.
Proof.
  intros H. induction a as [| x a IH]; [now rewrite append_nil |].
  rewrite append_cons. cbn [contains]. rewrite IH. apply orb_true_r.
Qed.

Lemma contains_join_space (l : list string) (c : string) :
  In c l -> contains (join_space l) c = true.
Proof.
  induction l as [| p rest IH]; [intros [] |].
  intros [-> | Hin].
  - destruct rest; cbn [join_space]; [apply contains_refl |].
    apply contains_append_l, contains_refl.
  - destruct rest as [| q rest']; [destruct Hin |].
    cbn [join_space]. apply contains_append_r, contains_append_r.
    exact (IH Hin).
Qed.

(** X13.  An element whose class list holds [release-feature] is
    classified by that marker alone: it is [public-preview] when its own
    text contains (Preview) or (preview) and [ga] otherwise, whatever the
    [text] argument says, also when that text names a security fix or a
    breaking change. *)
Theorem feature_marker_overrides_text (e : element) (text : option string) :
  In "release-feature" (el_class e) ->
  _categorize_item (Some e) text
  = if contains (el_get_text e) "(Preview)" || contains (el_get_text e) "(preview)"
    then "public-preview" else "ga".
Proof.
  intros Hin. unfold _categorize_item, class_hint.
  rewrite (contains_join_space _ _ Hin).
  now destruct (contains (el_get_text e) "(Preview)" || contains (el_get_text e) "(preview)").
Qed.

Lemma feature_marker_overrides_text_example :
  _categorize_item
    (Some (Element "div" ["devsite"; "release-feature"] "Security patches are now automatic"
                   "<div>..</div>" []))
    (Some "Security patches are now automatic")
  = "ga".
Proof.
  exact (feature_marker_overrides_text
           (Element "div" ["devsite"; "release-feature"] "Security patches are now automatic"
                    "<div>..</div>" [])
           (Some "Security patches are now automatic")
           (or_intror (or_introl eq_refl))).
Defined.

End MarkerFacts.

(** ** The window of a day or month count *)

Section WindowFacts.
Local Open Scope Z_scope.

Lemma compute_cutoff_lookback (now : datetime) (months days : option Z) (back : Z) :
  wf now -> lookback months days back -> 0 < toordinal now - back <= MAXORDINAL ->
  compute_cutoff now months days None = Ok (mkdt (toordinal now - back) 0).
Proof.
  intros Hwf Hl Hr.
  unfold compute_cutoff. destruct Hl as [months n Hn | m days Hm Hd | months days Hm Hd].
  - simpl. destruct (Z.eqb_spec n 0); [contradiction |]. simpl.
    now apply midnight_before.
  - assert (truthy_int days = false) as -> by (destruct Hd; subst; reflexivity).
    simpl. destruct (Z.eqb_spec m 0); [contradiction |]. simpl.
    replace (m * 30) with (30 * m) by ring. now apply midnight_before.
  - assert (truthy_int days = false) as -> by (destruct Hd; subst; reflexivity).
    assert (truthy_int months = false) as -> by (destruct Hm; subst; reflexivity).
    now apply midnight_before.
Qed.

Lemma midnight_le (o : Z) (d : datetime) :
  wf d -> (to_micros (mkdt o 0) <= to_micros d <-> o <= toordinal d).
Proof.
  unfold wf, to_micros, US_PER_DAY, US_PER_SECOND. simpl. lia.
Qed.

(** X14.  A scraper built without start and end date, from a day count
    or a month count that looks [back] days back, lets a dated group
    pass exactly when the group's calendar day is at most [back] days
    before the day of construction and its instant is not after the
    instant of construction: the whole boundary day is inside the window,
    the day before it is outside. *)
Theorem window_covers_whole_boundary_day
        (now d : datetime) (page_url : string) (months days : option Z) (back : Z)
        (cats : option (list string)) (name : option string) :
  wf now -> wf d -> lookback months days back ->
  0 < toordinal now - back <= MAXORDINAL ->
  exists self,
    __init__ now page_url months days None None cats name = Ok self
    /\ (in_range self d = true
        <-> toordinal now - back <= toordinal d /\ to_micros d <= to_micros now).
Proof.
  intros Hnow Hd Hl Hr.
  unfold __init__. rewrite (compute_cutoff_lookback now months days back Hnow Hl Hr).
  eexists. split; [reflexivity |].
  unfold in_range, ge, le. cbn [cutoff_date end_date default].
  rewrite andb_true_iff, !Z.leb_le, (midnight_le _ d Hd). reflexivity.
Qed.

Lemma window_covers_whole_boundary_day_example :
  in_range two_days (at_ 2025 6 13 0 0 0) = true
  /\ in_range two_days (at_ 2025 6 12 23 59 59) = false.
Proof.
  assert (Hwf : forall dt, (0 <=? usec_of_day dt) && (usec_of_day dt <? US_PER_DAY) = true -> wf dt).
  { intros dt H. apply andb_true_iff in H. destruct H as [H1 H2].
    apply Z.leb_le in H1. apply Z.ltb_lt in H2. now split. }
  assert (Hl : lookback None (Some 2) 2) by (apply lookback_days; discriminate).
  assert (Hr : 0 < toordinal now0 - 2 <= MAXORDINAL) by (vm_compute; split; [reflexivity | discriminate]).
  split.
  - destruct (window_covers_whole_boundary_day now0 (at_ 2025 6 13 0 0 0)
                "https://example.com/notes" None (Some 2) 2 None (Some "custom")
                (Hwf now0 eq_refl) (Hwf (at_ 2025 6 13 0 0 0) eq_refl) Hl Hr)
      as [self [Hinit Hiff]].
    rewrite init_two_days in Hinit. injection Hinit as <-.
    apply Hiff. vm_compute. split; discriminate.
  - destruct (window_covers_whole_boundary_day now0 (at_ 2025 6 12 23 59 59)
                "https://example.com/notes" None (Some 2) 2 None (Some "custom")
                (Hwf now0 eq_refl) (Hwf (at_ 2025 6 12 23 59 59) eq_refl) Hl Hr)
      as [self [Hinit Hiff]].
    rewrite init_two_days in Hinit. injection Hinit as <-.
    destruct (in_range two_days (at_ 2025 6 12 23 59 59)) eqn:Hin; [| reflexivity].
    destruct (proj1 Hiff eq_refl) as [Hord _]. vm_compute in Hord. now elim Hord.
Defined.

End WindowFacts.

(** ** The walk over the siblings of a date header *)

Section WalkFacts.

Lemma structured_walk_stop (sel : selectors) (header_name : string)
      (before after : list tag) (h : tag) :
  el_name (tag_elem h) = header_name
  \/ (mem (el_name (tag_elem h)) (date_headers sel) = true
      /\ String.ltb (el_name (tag_elem h)) header_name = true) ->
  structured_walk sel header_name (before ++ h :: after)
  = structured_walk sel header_name before.
Proof.
  intros Hstop. induction before as [| t before IH]; cbn [app structured_walk].
  - destruct Hstop as [-> | [Hm Hlt]].
    + now rewrite String.eqb_refl.
    + rewrite Hm, Hlt. now destruct (String.eqb _ _).
  - rewrite IH. reflexivity.
Qed.

Lemma firebase_walk_stop (header_tag : string) (before after : list tag) (h : tag) :
  el_name (tag_elem h) = header_tag ->
  firebase_walk header_tag (before ++ h :: after) = firebase_walk header_tag before.
Proof.
  intros Hname. induction before as [| t before IH]; cbn [app firebase_walk].
  - now rewrite Hname, String.eqb_refl.
  - rewrite IH. reflexivity.
Qed.

(** X15.  The content collected under a date header ends at the next
    header of the same name.  In the structured extractor (where a
    configured header whose name sorts before also ends the walk) the
    group of a header is the same whatever stands after that next header.
    In the Firebase extractor this holds when the walk up to the next
    header finds an item, and the items of the group are then those of
    the walk; when the walk finds nothing, the group is made of the list
    items of the whole area, those after the next header included. *)
Theorem walk_stops_at_next_header
        (self : scraper) (sel : selectors) (area : content_area)
        (header : tag) (before after : list tag) (h : tag) :
  let header_name := el_name (tag_elem header) in
  let lists :=
    flat_map (fun t => if mem (el_name (tag_elem t)) ["ul"; "ol"]
                       then flat_map firebase_li (tag_lis t) else [])
             (children area) in
  el_name (tag_elem h) = header_name
  \/ (mem (el_name (tag_elem h)) (date_headers sel) = true
      /\ String.ltb (el_name (tag_elem h)) header_name = true) ->
  structured_header self sel (header, (before ++ h :: after)%list)
  = structured_header self sel (header, before)
  /\ structured_walk sel header_name (before ++ h :: after)
     = structured_walk sel header_name before
  /\ (el_name (tag_elem h) = header_name ->
      firebase_walk header_name (before ++ h :: after) = firebase_walk header_name before
      /\ firebase_header self sel area header_name (header, (before ++ h :: after)%list)
         = firebase_header self sel area header_name (header, before)
      /\ forall r,
           In r (firebase_header self sel area header_name (header, (before ++ h :: after)%list)) ->
           (firebase_walk header_name before <> [] ->
            items r = firebase_walk header_name before)
           /\ (firebase_walk header_name before = [] -> lists <> [] -> items r = lists)).
Proof.
  intros header_name lists Hstop.
  pose proof (structured_walk_stop sel header_name before after h Hstop) as Hs.
  split; [| split; [exact Hs |]].
  - unfold structured_header. fold header_name. now rewrite Hs.
  - intros Hname.
    pose proof (firebase_walk_stop header_name before after h Hname) as Hf.
    split; [exact Hf |]. split.
    + unfold firebase_header. now rewrite Hf.
    + intros r. unfold firebase_header. rewrite Hf. fold lists.
      destruct (firebase_date sel (el_get_text (tag_elem header))) as [[date_str [d |]] |];
        try (intros []).
      destruct (firebase_walk header_name before) as [| i l].
      * destruct lists as [| i l].
        -- destruct (15 <? _)%Z; [| intros []].
           intros [<- | []]. split; [intros Hne; now elim Hne | intros _ Hne; now elim Hne].
        -- intros [<- | []]. split; [intros Hne; now elim Hne | reflexivity].
      * intros [<- | []]. split; [reflexivity | discriminate].
Qed.

Lemma walk_stops_at_next_header_example :
  structured_header nat_scraper (Selectors ["h2"; "h3"] [PAT_LONG; PAT_ISO; PAT_SLASH])
                    (Tag nat_h2 [], [Tag nat_p []; Tag nat_h2 []; Tag nat_p []])
  = structured_header nat_scraper (Selectors ["h2"; "h3"] [PAT_LONG; PAT_ISO; PAT_SLASH])
                      (Tag nat_h2 [], [Tag nat_p []]).
Proof.
  exact (proj1 (walk_stops_at_next_header
                  nat_scraper (Selectors ["h2"; "h3"] [PAT_LONG; PAT_ISO; PAT_SLASH]) nat_area
                  (Tag nat_h2 []) [Tag nat_p []] [Tag nat_p []] (Tag nat_h2 [])
                  (or_introl eq_refl))).
Defined.

(** The Firebase extractor on a page whose first header has nothing
    before the next one: the list after the second header gets into the
    group of the first. *)
Example firebase_empty_walk_takes_later_list :
  firebase_walk "h2" [Tag fb_h2 []; Tag fb_ul [fb_li]] = []
  /\ firebase_header firebase_scraper (Selectors ["h2"; "h3"; "h4"] [PAT_LONG; PAT_ISO; PAT_SLASH])
                     {| children := [Tag fb_h2 []; Tag fb_h2 []; Tag fb_ul [fb_li]];
                        tables := []; release_divs := []; text_nodes := [] |}
                     "h2" (Tag fb_h2 [], [Tag fb_h2 []; Tag fb_ul [fb_li]])
     = [Release (Some (at_ 2025 6 10 0 0 0)) "June 10, 2025"
                [Item (el_str fb_li) "libraries" ["/docs/reference/android"]] firebase_url].
Proof. split; reflexivity. Qed.

End WalkFacts.

(** ** Bracket matching in the embedded script *)

Section ScriptFacts.
Local Open Scope Z_scope.

Lemma length_append (a b : string) :
  String.length (a +:+ b) = (String.length a + String.length b)%nat.
Proof.
  induction a as [| c a IH]; [now rewrite append_nil |].
  rewrite append_cons. simpl. now rewrite IH.
Qed.

Lemma substring_skip (a b : string) (n : nat) :
  String.substring (String.length a) n (a +:+ b) = String.substring 0 n b.
Proof.
  induction a as [| c a IH]; [now rewrite append_nil |].
  rewrite append_cons. simpl. exact IH.
Qed.

Lemma substring_prefix (a b : string) :
  String.substring 0 (String.length a) (a +:+ b) = a.
Proof.
  induction a as [| c a IH].
  - rewrite append_nil. now destruct b.
  - rewrite append_cons. simpl. now rewrite IH.
Qed.

Lemma slice_middle (a b c : string) :
  slice (a +:+ (b +:+ c)) (String.length a) (String.length a + String.length b) = b.
Proof.
  unfold slice. rewrite substring_skip.
  replace (String.length a + String.length b - String.length a)%nat
    with (String.length b) by lia.
  apply substring_prefix.
Qed.

Lemma append_snoc (a : string) (c : ascii) (b : string) :
  (a +:+ String c "") +:+ b = a +:+ String c b.
Proof. now rewrite append_assoc, append_cons, append_nil. Qed.

Lemma extract_loop_closes (d : Z) (s : string) :
  closes d s ->
  forall js_str before rest start,
    js_str = before +:+ (s +:+ rest) ->
    extract_loop js_str (s +:+ rest) (String.length before) d start
    = slice js_str start (String.length before + String.length s).
Proof.
  induction 1 as [| d c s Hopen Hclose Hs IH | d s Hd Hs IH | d s Hd Hs IH];
    intros js_str before rest start Hjs; rewrite append_cons; cbn [extract_loop].
  - rewrite append_nil. simpl. reflexivity.
  - destruct (Ascii.eqb_spec c "[") as [-> | _]; [now elim Hopen |].
    destruct (Ascii.eqb_spec c "]") as [-> | _]; [now elim Hclose |].
    replace (S (String.length before)) with (String.length (before +:+ String c ""))
      by (rewrite length_append; simpl; lia).
    rewrite (IH js_str (before +:+ String c "") rest start)
      by (now rewrite append_snoc, <- append_cons).
    rewrite length_append. simpl. f_equal. lia.
  - simpl. destruct (Z.eqb_spec d 0) as [-> | _]; [lia |].
    replace (S (String.length before)) with (String.length (before +:+ String "[" ""))
      by (rewrite length_append; simpl; lia).
    rewrite (IH js_str (before +:+ String "[" "") rest start)
      by (now rewrite append_snoc, <- append_cons).
    rewrite length_append. simpl. f_equal. lia.
  - simpl. destruct (Z.eqb_spec (d - 1) 0) as [Heq | _]; [lia |].
    replace (S (String.length before)) with (String.length (before +:+ String "]" ""))
      by (rewrite length_append; simpl; lia).
    rewrite (IH js_str (before +:+ String "]" "") rest start)
      by (now rewrite append_snoc, <- append_cons).
    rewrite length_append. simpl. f_equal. lia.
Qed.

Lemma extract_loop_skips (junk : string) :
  all_of (fun c => negb (Ascii.eqb c "[") && negb (Ascii.eqb c "]")) junk = true ->
  forall js_str before rest,
    extract_loop js_str (junk +:+ rest) (String.length before) 0 0
    = extract_loop js_str rest (String.length (before +:+ junk)) 0 0.
Proof.
  induction junk as [| c junk IH]; intros Hall js_str before rest.
  - rewrite append_nil, length_append. simpl. f_equal. lia.
  - simpl in Hall. apply andb_true_iff in Hall. destruct Hall as [Hc Hall].
    apply andb_true_iff in Hc. destruct Hc as [H1 H2].
    apply negb_true_iff in H1. apply negb_true_iff in H2.
    rewrite append_cons. cbn [extract_loop]. rewrite H1, H2.
    replace (S (String.length before)) with (String.length (before +:+ String c ""))
      by (rewrite length_append; simpl; lia).
    rewrite (IH Hall). f_equal.
    now rewrite append_snoc.
Qed.

(** X16.  [_extract_js_array] returns the first bracketed array of its
    input, nested arrays included: for an input made of text without
    brackets, an opening bracket, a body that ends with the matching
    closing bracket, and anything after it, the result is the bracket and
    the body, nothing of what is before or after. *)
Theorem extract_js_array_first_array (junk body rest : string) :
  all_of (fun c => negb (Ascii.eqb c "[") && negb (Ascii.eqb c "]")) junk = true ->
  closes 1 body ->
  _extract_js_array (junk +:+ String "[" (body +:+ rest)) = String "[" body.
Proof.
  intros Hjunk Hbody. unfold _extract_js_array.
  set (js_str := junk +:+ String "[" (body +:+ rest)).
  change (extract_loop js_str js_str 0 0 0)
    with (extract_loop js_str (junk +:+ String "[" (body +:+ rest)) (String.length "") 0 0).
  rewrite (extract_loop_skips junk Hjunk), append_nil.
  cbn [extract_loop]. simpl (Ascii.eqb "[" "["). cbn iota. simpl (0 =? 0). cbn iota.
  replace (S (String.length junk)) with (String.length (junk +:+ "["))
    by (rewrite length_append; simpl; lia).
  change (0 + 1) with 1.
  rewrite (extract_loop_closes 1 body Hbody js_str (junk +:+ "[") rest (String.length junk))
    by (unfold js_str; now rewrite append_snoc).
  rewrite length_append. simpl (String.length "[").
  replace (String.length junk + 1 + String.length body)%nat
    with (String.length junk + String.length (String "[" body))%nat by (simpl; lia).
  unfold js_str. rewrite <- (append_cons "[" body rest).
  apply slice_middle.
Qed.

Lemma extract_js_array_first_array_example :
  _extract_js_array "x=[{a:[1,2]},[3]],y=[4]" = "[{a:[1,2]},[3]]".
Proof.
  refine (extract_js_array_first_array "x=" "{a:[1,2]},[3]]" ",y=[4]" eq_refl _).
  repeat first [ apply closes_end
               | apply closes_open; [lia | simpl]
               | apply closes_close; [discriminate | simpl]
               | apply closes_other; [discriminate | discriminate |] ].
Defined.

Lemma extract_loop_open (rest : string) :
  all_of (fun c => negb (Ascii.eqb c "]")) rest = true ->
  forall js_str i depth start, extract_loop js_str rest i depth start = js_str.
Proof.
  induction rest as [| c rest IH]; intros Hall js_str i depth start; [reflexivity |].
  simpl in Hall. apply andb_true_iff in Hall. destruct Hall as [Hc Hall].
  apply negb_true_iff in Hc. cbn [extract_loop]. rewrite Hc.
  destruct (Ascii.eqb c "["); now apply IH.
Qed.

(** X17.  On an input without a closing bracket [_extract_js_array]
    returns the input unchanged: an array that is cut off is passed on
    whole, it is no error. *)
Theorem extract_js_array_unterminated (js_str : string) :
  all_of (fun c => negb (Ascii.eqb c "]")) js_str = true ->
  _extract_js_array js_str = js_str.
Proof. intros H. now apply extract_loop_open. Qed.

Lemma extract_js_array_unterminated_example :
  _extract_js_array "[{version:1},[2" = "[{version:1},[2".
Proof. exact (extract_js_array_unterminated "[{version:1},[2" eq_refl). Defined.

End ScriptFacts.

(** ** Combining service groups *)

Section CliFacts.






End CliFacts.

(** ** The order of the groups in the reports *)

Section SortFacts.
Local Open Scope Z_scope.

Lemma insert_desc_perm (x : release) (l : list release) :
  Permutation (insert_desc x l) (x :: l).
Proof.
  induction l as [| y l IH]; simpl; [reflexivity |].
  destruct (le (sort_key y) (sort_key x)); [reflexivity |].
  rewrite IH. apply perm_swap.
Qed.

Lemma insert_desc_Forall (P : release -> Prop) (x : release) (l : list release) :
  P x -> Forall P l -> Forall P (insert_desc x l).
Proof.
  intros Hx Hl. induction Hl as [| y l Hy Hl IH]; simpl.
  - apply List.Forall_cons; [exact Hx | apply List.Forall_nil].
  - destruct (le (sort_key y) (sort_key x)).
    + apply List.Forall_cons; [exact Hx |]. now apply List.Forall_cons.
    + now apply List.Forall_cons.
Qed.

Lemma insert_desc_sorted (x : release) (l : list release) :
  newest_first l -> newest_first (insert_desc x l).
Proof.
  induction l as [| y l IH]; intros Hl; simpl; [split; [apply List.Forall_nil | exact I] |].
  destruct Hl as [Hy Hl].
  destruct (le (sort_key y) (sort_key x)) eqn:Hle.
  - split; [| now split].
    apply List.Forall_cons; [exact Hle |].
    eapply List.Forall_impl; [| exact Hy]. intros r Hr. unfold le in *.
    apply Z.leb_le in Hr, Hle. apply Z.leb_le. lia.
  - split; [| now apply IH].
    apply insert_desc_Forall; [| exact Hy].
    unfold le in *. apply Z.leb_gt in Hle. apply Z.leb_le. lia.
Qed.

Lemma insert_desc_with_key (k : Z) (x : release) (l : list release) :
  with_key k (insert_desc x l) = with_key k (x :: l).
Proof.
  unfold with_key. induction l as [| y l IH]; [reflexivity |].
  cbn [insert_desc]. destruct (le (sort_key y) (sort_key x)) eqn:Hle; [reflexivity |].
  cbn [List.filter] in *. rewrite IH.
  destruct (Z.eqb_spec (to_micros (sort_key x)) k) as [Hx |]; [| reflexivity].
  destruct (Z.eqb_spec (to_micros (sort_key y)) k) as [Hy |]; [| reflexivity].
  unfold le in Hle. apply Z.leb_gt in Hle. lia.
Qed.

Lemma newest_first_app (a b : list release) :
  newest_first (a ++ b) ->
  newest_first b
  /\ Forall (fun r => Forall (fun r' => le (sort_key r') (sort_key r) = true) b) a.
Proof.
  induction a as [| x a IH]; simpl; [intros H; split; [exact H | apply List.Forall_nil] |].
  intros [Hx Ha]. destruct (IH Ha) as [Hb Hall]. split; [exact Hb |].
  apply List.Forall_cons; [| exact Hall].
  apply Forall_app in Hx. tauto.
Qed.

(** X19.  The reports list the groups newest first: the sort loses and
    invents no group, never places a group before one with a later
    date, keeps groups of equal date in the order they were scraped
    in, and places every group without date after all groups dated later
    than [datetime.min]. *)
Theorem reports_sort_newest_first (releases : list release) :
  Permutation (sort_newest_first releases) releases
  /\ newest_first (sort_newest_first releases)
  /\ (forall k, with_key k (sort_newest_first releases) = with_key k releases)
  /\ (forall before r after,
         sort_newest_first releases = (before ++ r :: after)%list -> date r = None ->
         Forall (fun r' => le (sort_key r') datetime_min = true) after).
Proof.
  assert (Hsorted : newest_first (sort_newest_first releases)).
  { induction releases as [| x l IH]; simpl; [exact I | now apply insert_desc_sorted]. }
  split; [| split; [exact Hsorted | split]].
  - clear Hsorted. induction releases as [| x l IH]; simpl; [reflexivity |].
    rewrite insert_desc_perm. now apply perm_skip.
  - clear Hsorted. intros k. induction releases as [| x l IH]; [reflexivity |].
    cbn [sort_newest_first fold_right]. rewrite insert_desc_with_key.
    unfold with_key in *. cbn [List.filter]. fold (sort_newest_first l). now rewrite IH.
  - intros before r after Heq Hnone. rewrite Heq in Hsorted.
    apply newest_first_app in Hsorted. destruct Hsorted as [[Hafter _] _].
    unfold sort_key at 2 in Hafter. rewrite Hnone in Hafter. exact Hafter.
Qed.

End SortFacts.

(** ** The statistics block *)

Section StatisticsFacts.

Let count_items (c : string) (its : list item) : nat :=
  length (List.filter (fun it => String.eqb (category it) c) its).

Let counted (counts : gmap string nat) (seen : list item) : Prop :=
  forall c, counts !! c = (if (count_items c seen =? 0)%nat then None
                           else Some (count_items c seen)).

Let count_step (counts : gmap string nat) (it : item) : gmap string nat :=
  <[category it := (default 0%nat (counts !! category it) + 1)%nat]> counts.

Lemma count_items_snoc (c : string) (seen : list item) (it : item) :
  count_items c (seen ++ [it])
  = (count_items c seen + if String.eqb (category it) c then 1 else 0)%nat.
Proof.
  unfold count_items. rewrite List.filter_app, length_app. simpl.
  now destruct (String.eqb (category it) c).
Qed.

Lemma count_step_counted (counts : gmap string nat) (seen : list item) (it : item) :
  counted counts seen -> counted (count_step counts it) (seen ++ [it]).
Proof.
  intros H c. unfold count_step. rewrite count_items_snoc.
  destruct (String.eqb_spec (category it) c) as [<- | Hne].
  - rewrite lookup_insert_eq, (H (category it)).
    destruct (Nat.eqb_spec (count_items (category it) seen) 0) as [-> | Hpos]; simpl.
    + reflexivity.
    + destruct (Nat.eqb_spec (count_items (category it) seen + 1) 0); [lia | reflexivity].
  - rewrite lookup_insert_ne by exact Hne. rewrite (H c). now rewrite Nat.add_0_r.
Qed.

Lemma count_items_counted (its : list item) (counts : gmap string nat) (seen : list item) :
  counted counts seen -> counted (fold_left count_step its counts) (seen ++ its).
Proof.
  revert counts seen. induction its as [| it its IH]; intros counts seen H; simpl.
  - now rewrite app_nil_r.
  - replace (seen ++ it :: its)%list with ((seen ++ [it]) ++ its)%list
      by (rewrite <- app_assoc; reflexivity).
    apply IH. now apply count_step_counted.
Qed.

Lemma count_groups_counted (rs : list release) (counts : gmap string nat) (seen : list item) :
  counted counts seen ->
  counted (fold_left (fun counts r => fold_left count_step (items r) counts) rs counts)
          (seen ++ flat_map items rs).
Proof.
  revert counts seen. induction rs as [| r rs IH]; intros counts seen H; simpl.
  - now rewrite app_nil_r.
  - rewrite app_assoc. apply IH. now apply count_items_counted.
Qed.

(** X20.  The statistics count every item once under its category: the
    table of the category counts holds, for each category, the number of
    items of all groups that carry it, and has no entry for a category
    that no item carries, so that the counts are all positive. *)
Theorem category_counts_count_each_item (releases : list release) (c : string) :
  category_counts releases !! c
  = (if (count_category c releases =? 0)%nat then None
     else Some (count_category c releases)).
Proof.
  assert (H0 : counted ∅ []) by (intros c'; apply lookup_empty).
  exact (count_groups_counted releases ∅ [] H0 c).
Qed.

Lemma sum_counts_step (counts : gmap string nat) (it : item) :
  sum_counts (count_step counts it) = (sum_counts counts + 1)%nat.
Proof.
  unfold sum_counts, count_step.
  destruct (counts !! category it) as [n |] eqn:Hn; simpl.
  - rewrite <- insert_delete_eq.
    rewrite map_fold_insert_L; [| intros; lia | apply lookup_delete_eq].
    rewrite (map_fold_delete_L _ _ (category it) n counts); [lia | intros; lia | exact Hn].
  - rewrite map_fold_insert_L; [lia | intros; lia | exact Hn].
Qed.

Lemma sum_counts_items (its : list item) (counts : gmap string nat) :
  sum_counts (fold_left count_step its counts) = (sum_counts counts + length its)%nat.
Proof.
  revert counts. induction its as [| it its IH]; intros counts; simpl; [lia |].
  rewrite IH, sum_counts_step. lia.
Qed.

(** X21.  The counts by category add up to the total number of items
    that the statistics print, which is the number of items of all
    groups. *)
Theorem category_counts_add_up (releases : list release) :
  sum_counts (category_counts releases) = total_items releases
  /\ total_items releases = length (flat_map items releases).
Proof.
  assert (H : forall counts,
             sum_counts (fold_left (fun counts r => fold_left count_step (items r) counts)
                                   releases counts)
             = (sum_counts counts + total_items releases)%nat).
  { unfold total_items. induction releases as [| r rs IH]; intros counts; simpl; [lia |].
    rewrite IH, sum_counts_items. lia. }
  split.
  - unfold category_counts. fold count_step. rewrite (H ∅).
    unfold sum_counts. now rewrite map_fold_empty.
  - clear H. unfold total_items. induction releases as [| r rs IH]; [reflexivity |].
    simpl. rewrite length_app. now rewrite IH.
Qed.

End StatisticsFacts.

(** ** Line wrapping *)

Section WrapFacts.
Local Open Scope Z_scope.

Lemma ulen_app (a b : ustr) : ulen (a ++ b)%list = ulen a + ulen b.
Proof. unfold ulen. rewrite length_app. lia. Qed.

Lemma wrap_step_fits (prefix : ustr) (words : list ustr)
      (lines : list ustr) (current_line word : ustr) :
  In word words ->
  Forall (fits prefix words) lines -> fits prefix words current_line ->
  let st := wrap_step prefix (repeat SPACE (length prefix)) 70 (lines, current_line) word in
  Forall (fits prefix words) st.1 /\ fits prefix words st.2.
Proof.
  intros Hw Hlines Hcur. unfold wrap_step.
  destruct (Z.leb_spec (ulen current_line + ulen word + 1) (70 + ulen prefix)) as [Hle | Hgt].
  - destruct (bool_decide (current_line = prefix)); simpl; (split; [exact Hlines |]);
      left; rewrite ulen_app; [lia |].
    change (ulen (SPACE :: word)) with (Z.of_nat (S (length word))). unfold ulen in *. lia.
  - simpl. split.
    + apply Forall_app. split; [exact Hlines |].
      apply List.Forall_cons; [exact Hcur | apply List.Forall_nil].
    + right. exists word. now split.
Qed.

Lemma wrap_fold_fits (prefix : ustr) (words todo : list ustr) (st : list ustr * ustr) :
  incl todo words ->
  Forall (fits prefix words) st.1 -> fits prefix words st.2 ->
  let final := fold_left (wrap_step prefix (repeat SPACE (length prefix)) 70) todo st in
  Forall (fits prefix words) final.1 /\ fits prefix words final.2.
Proof.
  revert st. induction todo as [| word todo IH]; intros [lines current_line] Hincl Hl Hc;
    simpl; [now split |].
  simpl in Hl, Hc.
  destruct (wrap_step_fits prefix words lines current_line word) as [Hl' Hc']; auto.
  { apply Hincl. now left. }
  apply IH; auto. intros w Hw. apply Hincl. now right.
Qed.

(** X22.  The text of an item is wrapped so that no line that holds more
    than one word exceeds the width: every line written for an item has
    at most 70 code points after the length of the prefix, or is the
    indentation followed by one single word, which is never broken. *)
Theorem wrapped_lines_fit (prefix : ustr) (words : list ustr) :
  Forall (fits prefix words) (wrap prefix words).
Proof.
  unfold wrap.
  destruct (wrap_fold_fits prefix words words ([], prefix)) as [Hl Hc].
  - apply incl_refl.
  - apply List.Forall_nil.
  - left. simpl. lia.
  - destruct (fold_left _ words ([], prefix)) as [lines current_line]. simpl in Hl, Hc.
    destruct (strip_truthy current_line); [| exact Hl].
    apply Forall_app. split; [exact Hl |].
    apply List.Forall_cons; [exact Hc | apply List.Forall_nil].
Qed.

End WrapFacts.

(** ** The earlier script *)

Section LegacyFacts.
Local Open Scope Z_scope.




End LegacyFacts.

(** ** Relative dates as arithmetic *)

Section AgoFacts.
Local Open Scope Z_scope.

(** X26.  A string [<n><unit> ago], the number written in digits, the
    unit one of d, day, h, hr, hour, m, min, minute, w, week, with an
    optional plural [s] and optional blanks, is read as the instant that
    lies exactly [n] units before now, as long as that instant is not
    before year 1. *)
Theorem ago_strings_subtract_duration
        (now : datetime) (ds ws1 u ws2 : string) (plural : bool) :
  ds <> "" -> all_of is_digit ds = true ->
  all_of is_space ws1 = true -> all_of is_space ws2 = true ->
  In u AGO_UNITS ->
  0 < toordinal (shift now (- unit_delta u (int_of 0 ds))) <= MAXORDINAL ->
  exists d,
    _parse_relative_date now
      (ds +:+ (ws1 +:+ (u +:+ ((if plural then "s" else "") +:+ (ws2 +:+ "ago")))))
    = Ok (Some d)
    /\ to_micros d = to_micros now - unit_delta u (int_of 0 ds).
Proof.
  intros Hne Hds Hws1 Hws2 Hu [Hlo Hhi].
  rewrite (relative_ago_form now ds ws1 u ws2 plural Hne Hds Hws1 Hws2 Hu).
  unfold sub.
  apply Z.ltb_lt in Hlo. apply Z.leb_le in Hhi. rewrite Hlo, Hhi. simpl.
  eexists. split; [reflexivity |]. rewrite to_micros_shift. lia.
Qed.

Lemma ago_strings_subtract_duration_example :
  exists d,
    _parse_relative_date now0 "3 hrs ago" = Ok (Some d)
    /\ to_micros d = to_micros now0 - unit_delta "hr" (int_of 0 "3").
Proof.
  refine (ago_strings_subtract_duration now0 "3" " " "hr" " " true _ eq_refl eq_refl eq_refl _ _).
  - discriminate.
  - simpl. tauto.
  - vm_compute. split; [reflexivity | discriminate].
Defined.

End AgoFacts.

(** ** The properties above on concrete sources *)

Lemma scrape_html_unsupported_platform_example :
  _scrape_html network (fun _ => Ok (ContentArea [] [] [] [])) cloud_nat
               "https://antigravity.google/changelog" []
  = (Ok [], ["https://antigravity.google/changelog"])
  /\ _scrape_html network (fun _ => Ok firebase_area) cloud_nat
                  "https://cloud.google.com/blog/products/databases" []
     = (Ok [], ["https://cloud.google.com/blog/products/databases"]).
Proof.
  split.
  - exact (scrape_html_unsupported_platform
             network (fun _ => Ok (ContentArea [] [] [] [])) cloud_nat
             "https://antigravity.google/changelog" [] (or_intror eq_refl)).
  - exact (scrape_html_unsupported_platform
             network (fun _ => Ok firebase_area) cloud_nat
             "https://cloud.google.com/blog/products/databases" [] (or_introl eq_refl)).
Defined.

Lemma feed_costs_at_most_two_requests_example :
  let run := scrape network (fun _ => Ok (ContentArea [] [] [] [])) (fun _ _ => Ok [])
                    (fun _ => ret []) (fun _ => ret []) (fun _ => ret []) (fun _ => ret []) in
  exists rs, fst (run cloud_nat []) = Ok rs
             /\ (snd (run cloud_nat []) = ([] ++ [self_url cloud_nat])%list
                 \/ exists fallback_url,
                      _get_fallback_url cloud_nat = Some fallback_url
                      /\ snd (run cloud_nat []) = ([] ++ [self_url cloud_nat; fallback_url])%list).
Proof.
  exact (feed_costs_at_most_two_requests
           network (fun _ => Ok (ContentArea [] [] [] [])) (fun _ _ => Ok [])
           (fun _ => ret []) (fun _ => ret []) (fun _ => ret []) (fun _ => ret [])
           cloud_nat [] eq_refl).
Defined.

Lemma feed_parsed_without_fallback_example :
  let run := scrape network (fun _ => Ok (ContentArea [] [] [] [])) (fun _ _ => Raise ParseError)
                    (fun _ => ret []) (fun _ => ret []) (fun _ => ret []) (fun _ => ret []) in
  run gke_feed [] = (Ok [], ["https://cloud.google.com/feeds/gke-release-notes.xml"]).
Proof.
  refine (proj2 (feed_parsed_without_fallback
                   network (fun _ => Ok (ContentArea [] [] [] [])) (fun _ _ => Raise ParseError)
                   (fun _ => ret []) (fun _ => ret []) (fun _ => ret []) (fun _ => ret [])
                   gke_feed [] 200%Z "<html></html>" eq_refl eq_refl eq_refl)
                ParseError eq_refl _).
  discriminate.
Defined.

Lemma scrape_returns_dated_groups_in_range_example :
  let run := scrape network (fun _ => Ok firebase_area)
                    (FeedEntries._parse_xml_feed (fun _ => None) (fun _ => None)
                       (fun s => Ok s) (fun _ _ _ => Ok []) (fun _ => ""))
                    (fun _ => ret []) (fun _ => ret []) (fun _ => ret []) (fun _ => ret []) in
  exists rs, fst (run cloud_nat []) = Ok rs
             /\ Forall (fun r => dated_in_range cloud_nat r /\ items r <> []) rs.
Proof.
  exact (scrape_returns_dated_groups_in_range
           (fun _ => None) (fun _ => None) (fun s => Ok s) (fun _ _ _ => Ok []) (fun _ => "")
           network (fun _ => Ok firebase_area)
           (fun _ => ret []) (fun _ => ret []) (fun _ => ret []) (fun _ => ret [])
           cloud_nat [] eq_refl).
Defined.


Lemma blog_feed_reads_titles_only_example :
  let parse_with content_parser :=
    FeedEntries._parse_xml_feed
      (fun _ => Some (XmlRoot [] [] [atom_entry])) (fun s => try_formats s [FMT_Y_m_d])
      (fun s => Ok s) content_parser (fun _ => "June 10, 2025") in
  parse_with (fun _ _ _ => Ok []) medium_feed "<rss/>"
  = parse_with (fun _ _ _ => Raise ParseError) medium_feed "<rss/>"
  /\ match parse_with (fun _ _ _ => Ok []) medium_feed "<rss/>" with
     | Ok rs => Forall (fun r => length (items r) = 1%nat) rs
     | Raise _ => True
     end.
Proof.
  exact (blog_feed_reads_titles_only
           (fun _ => Some (XmlRoot [] [] [atom_entry])) (fun s => try_formats s [FMT_Y_m_d])
           (fun s => Ok s) (fun _ _ _ => Ok []) (fun _ => "June 10, 2025")
           (fun _ _ _ => Raise ParseError) medium_feed "<rss/>" eq_refl).
Defined.

(* ===================================================================== *)
(** * Part IV: every kind of source                                     *)
(* ===================================================================== *)

Import PyMore Content AntigravityJs Blogs.

(** ** Computations that return *)

Section ComputationFacts.

Lemma whenever_ret {A} (P : A -> Prop) (a : A) : P a -> whenever P (ret a).
Proof. intros H log. exact H. Qed.

Lemma whenever_lift {A} (P : A -> Prop) (r : result A) : when_ok P r -> whenever P (lift r).
Proof. intros H log. exact H. Qed.

Lemma whenever_bind {A B} (P : B -> Prop) (m : M A) (k : A -> M B) :
  (forall a, whenever P (k a)) -> whenever P (bind m k).
Proof.
  intros Hk log. unfold bind. destruct (m log) as [[a | e] log']; [apply Hk | exact I].
Qed.

Lemma whenever_bind_with {A B} (Q : A -> Prop) (P : B -> Prop) (m : M A) (k : A -> M B) :
  whenever Q m -> (forall a, Q a -> whenever P (k a)) -> whenever P (bind m k).
Proof.
  intros Hm Hk log. unfold bind. specialize (Hm log).
  destruct (m log) as [[a | e] log']; [apply Hk, Hm | exact I].
Qed.

Lemma always_try_except {A} (P : A -> Prop) (m : M A) (handler : exn -> M A) :
  whenever P m -> (forall e, always P (handler e)) -> always P (try_except m handler).
Proof.
  intros Hm Hh log. unfold try_except. specialize (Hm log).
  destruct (m log) as [[a | e] log']; [exists a; now split | apply Hh].
Qed.

Lemma always_ret {A} (P : A -> Prop) (a : A) : P a -> always P (ret a).
Proof. intros H log. exists a. now split. Qed.

Lemma always_whenever {A} (P : A -> Prop) (m : M A) : always P m -> whenever P m.
Proof. intros H log. destruct (H log) as [a [-> Ha]]. exact Ha. Qed.

End ComputationFacts.

(** ** The content of a feed entry *)

Section ContentCategoryFacts.

Variable parse_content : string -> result soup.
Variable _strip_html_tags : string -> result string.

Lemma one_item_valid (t : string) (element : option element) (text : option string)
      (us : list string) :
  valid_items [Item t (_categorize_item element text) us].
Proof. apply List.Forall_cons; [apply categorize_item_valid | apply List.Forall_nil]. Qed.

Lemma tag_item_valid (n : Z) (urls_of : list string -> list string) (e : element) :
  when_ok valid_items (tag_item _strip_html_tags n urls_of e).
Proof.
  unfold tag_item. destruct (_strip_html_tags _) as [t | err]; [| exact I].
  destruct (longer_than n t); [apply one_item_valid | apply List.Forall_nil].
Qed.

Lemma tag_items_valid (n : Z) (urls_of : list string -> list string) (l : list element) :
  when_ok valid_items (tag_items _strip_html_tags n urls_of l).
Proof.
  induction l as [| e rest IH]; simpl; [apply List.Forall_nil |].
  pose proof (tag_item_valid n urls_of e) as He.
  destruct (tag_item _ n urls_of e) as [first | err]; [| exact I].
  destruct (tag_items _ n urls_of rest) as [others | err]; [| exact I].
  apply Forall_app. now split.
Qed.

Lemma whole_item_valid (s : soup) (all_urls : list string) (entry_link : string) :
  when_ok valid_items (whole_item _strip_html_tags s all_urls entry_link).
Proof.
  unfold whole_item. destruct (_strip_html_tags _) as [t | err]; [| exact I].
  destruct (longer_than 10 _); [apply one_item_valid | apply List.Forall_nil].
Qed.

Lemma unless_items_valid (its : list item) (stage : result (list item)) :
  valid_items its -> when_ok valid_items stage -> when_ok valid_items (unless_items its stage).
Proof. intros Hi Hs. destruct its; [exact Hs | exact Hi]. Qed.

Lemma final_urls_category (all_urls : list string) (entry_link : string) (it : item) :
  category (final_urls all_urls entry_link it) = category it.
Proof.
  unfold final_urls. destruct (urls it); [| reflexivity].
  destruct all_urls; [| reflexivity]. now destruct (truthy entry_link).
Qed.

Lemma parse_xml_content_valid (content : string) (title : option string) (entry_link : string) :
  when_ok valid_items
          (Content._parse_xml_content parse_content _strip_html_tags content title entry_link).
Proof.
  unfold Content._parse_xml_content.
  destruct (negb (truthy content)).
  - destruct (truthy_opt title); [| apply List.Forall_nil].
    destruct (_strip_html_tags _) as [t | err]; [apply one_item_valid | exact I].
  - destruct (parse_content content) as [s | err]; [| exact I].
    set (all_urls := collect_urls s).
    set (link := if truthy entry_link then strip entry_link else "").
    pose proof (tag_items_valid 5 (fun links => match links with
                                                | [] => _normalize_urls (firstn 3 all_urls)
                                                | _ => links
                                                end) (marked_divs s)) as H1.
    destruct (tag_items _ 5 _ (marked_divs s)) as [items1 | err]; [| exact I].
    assert (H2 : when_ok valid_items
                   (unless_items items1
                      (if has_headers s || (200 <? text_len s)%Z
                       then whole_item _strip_html_tags s all_urls link else Ok []))).
    { apply unless_items_valid; [exact H1 |].
      destruct (has_headers s || _); [apply whole_item_valid | apply List.Forall_nil]. }
    destruct (unless_items items1 _) as [items2 | err]; [| exact I].
    pose proof (unless_items_valid items2 _ H2 (tag_items_valid 5 (fun links => links) (all_lis s)))
      as H3.
    destruct (unless_items items2 _) as [items3 | err]; [| exact I].
    pose proof (unless_items_valid items3 _ H3 (tag_items_valid 10 (fun links => links) (all_ps s)))
      as H4.
    destruct (unless_items items3 _) as [items4 | err]; [| exact I].
    pose proof (unless_items_valid items4 _ H4 (whole_item_valid s all_urls link)) as H5.
    destruct (unless_items items4 _) as [items5 | err]; [| exact I].
    simpl. apply Forall_map. eapply List.Forall_impl; [| exact H5].
    intros it Hit. now rewrite final_urls_category.
Qed.

End ContentCategoryFacts.

(** ** The groups of a feed *)

Section FeedCategoryFacts.

Variable fromstring : string -> option xml_root.
Variable _parse_xml_date : string -> option datetime.
Variable _strip_html_tags : string -> result string.
Variable _parse_xml_content : string -> option string -> string -> result (list item).
Variable strftime : datetime -> string.

Hypothesis content_valid :
  forall content title link, when_ok valid_items (_parse_xml_content content title link).

Lemma entry_items_valid (self : scraper) (entry : list xml_element) :
  when_ok valid_items (entry_items _strip_html_tags _parse_xml_content self entry).
Proof.
  unfold entry_items. destruct (_is_blog_feed self); [| apply content_valid].
  destruct (if truthy_opt (entry_title entry) then _ else _) as [clean_title | err]; [| exact I].
  destruct (truthy clean_title); [apply one_item_valid | apply List.Forall_nil].
Qed.

Lemma entry_release_valid (self : scraper) (entry : list xml_element) :
  when_ok categories_valid
          (entry_release _parse_xml_date _strip_html_tags _parse_xml_content strftime self entry).
Proof.
  unfold entry_release.
  destruct (snd (entry_date _parse_xml_date entry)) as [d |]; [| apply List.Forall_nil].
  pose proof (entry_items_valid self entry) as Hi.
  destruct (entry_items _ _ self entry) as [[| i l] | err];
    [apply List.Forall_nil | | exact I].
  apply List.Forall_cons; [exact Hi | apply List.Forall_nil].
Qed.

Lemma entry_loop_valid (self : scraper) (entries : list (list xml_element))
      (releases : list release) :
  categories_valid releases ->
  when_ok categories_valid
          (entry_loop _parse_xml_date _strip_html_tags _parse_xml_content strftime
                      self entries releases).
Proof.
  revert releases. induction entries as [| entry rest IH]; intros releases H; simpl; [exact H |].
  pose proof (entry_release_valid self entry) as He.
  destruct (entry_release _ _ _ _ self entry) as [added | err]; [| exact I].
  apply IH. apply Forall_app. now split.
Qed.

Lemma parse_xml_feed_valid (self : scraper) (content : string) :
  when_ok categories_valid
          (FeedEntries._parse_xml_feed fromstring _parse_xml_date _strip_html_tags
                                       _parse_xml_content strftime self content).
Proof.
  unfold FeedEntries._parse_xml_feed.
  destruct (fromstring content) as [root |]; [| apply List.Forall_nil].
  pose proof (entry_loop_valid self (entries_of root) [] (List.Forall_nil _)) as Hl.
  destruct (entry_loop _ _ _ _ self (entries_of root) []) as [rs | err]; [| exact I].
  apply filter_by_category_valid, filter_by_date_valid, Hl.
Qed.

End FeedCategoryFacts.

(** ** The groups of the embedded script *)

Section ScriptCategoryFacts.

Variable version_findall : string -> list (string * string * string * string * string).
Variable simple_findall : string -> list (string * string).
Variable sub_tags : string -> string.
Variable item_findall : string -> list (string * string).
Variable text_findall : string -> list string.
Variable version_date_finditer : string -> list (string * string * nat).
Variable desc_search : string -> option string.
Variable changes_search : string -> option string.
Variable section_search : string -> string -> option string.
Variable section_texts : string -> list string.
Variable bundle_search : string -> option string.
Variable changelog_search : string -> option string.
Variable requests_get : string -> result (Z * string).

Lemma valid_items_flat_map {A} (f : A -> list item) (l : list A) :
  (forall a, valid_items (f a)) -> valid_items (flat_map f l).
Proof. intros H. apply Forall_flat_map, List.Forall_forall. intros a _. apply H. Qed.

Lemma simple_section_valid (self : scraper) (m : string * string) :
  categories_valid (simple_section self m).
Proof.
  destruct m as [version_raw description]. unfold simple_section.
  destruct (match split_once "<br>" version_raw with
            | Some (version, date_str) => (version, date_str)
            | None => (version_raw, "")
            end) as [version date_str].
  destruct (_parse_antigravity_date date_str); [| apply List.Forall_nil].
  apply List.Forall_cons; [apply one_item_valid | apply List.Forall_nil].
Qed.

Lemma accordion_items_valid (block : string * string) :
  valid_items (accordion_items text_findall block).
Proof.
  destruct block as [item_title accordion]. unfold accordion_items.
  apply valid_items_flat_map. intros item_text.
  destruct (truthy item_text); [| apply List.Forall_nil].
  apply List.Forall_cons; [apply accordion_category_valid | apply List.Forall_nil].
Qed.

Lemma full_section_valid (self : scraper) (m : string * string * string * string * string) :
  categories_valid (full_section sub_tags item_findall text_findall self m).
Proof.
  destruct m as [[[[version date_str] description] changes] items_str]. unfold full_section.
  destruct (_parse_antigravity_date date_str); [| apply List.Forall_nil].
  match goal with
  | |- categories_valid (match ?its with [] => [] | _ => _ end) =>
      assert (Hits : valid_items its); [| destruct its; [apply List.Forall_nil |]]
  end.
  - apply Forall_app. split.
    + destruct (truthy changes); [| apply List.Forall_nil].
      destruct (truthy _); [apply one_item_valid | apply List.Forall_nil].
    + apply valid_items_flat_map, accordion_items_valid.
  - apply List.Forall_cons; [exact Hits | apply List.Forall_nil].
Qed.

Lemma direct_section_valid (items_section : string) (section : string * string) :
  In section DIRECT_SECTIONS ->
  valid_items (direct_section section_search section_texts items_section section).
Proof.
  intros Hin. destruct section as [section_name category]. unfold direct_section.
  destruct (section_search section_name items_section); [| apply List.Forall_nil].
  apply valid_items_flat_map. intros item_text.
  destruct (truthy item_text); [| apply List.Forall_nil].
  apply List.Forall_cons; [| apply List.Forall_nil]. simpl.
  destruct Hin as [[= <- <-] | [[= <- <-] | [[= <- <-] | []]]]; in_list.
Qed.

Lemma direct_match_valid (self : scraper) (js_content : string) (m : string * string * nat) :
  categories_valid
    (direct_match desc_search changes_search section_search section_texts self js_content m).
Proof.
  destruct m as [[version date_str] desc_start]. unfold direct_match.
  destruct (_parse_antigravity_date date_str); [| apply List.Forall_nil].
  apply List.Forall_cons; [| apply List.Forall_nil]. cbn [items].
  apply List.Forall_cons; [apply categorize_item_valid |].
  apply Forall_flat_map, List.Forall_forall. intros section Hin.
  now apply direct_section_valid.
Qed.

Lemma parse_antigravity_sections_valid (self : scraper) (js_content : string) :
  categories_valid
    (_parse_antigravity_sections version_findall simple_findall sub_tags item_findall
       text_findall version_date_finditer desc_search changes_search section_search
       section_texts self js_content).
Proof.
  unfold _parse_antigravity_sections.
  match goal with
  | |- categories_valid (match ?rs with [] => _ | _ => _ end) =>
      assert (Hrs : categories_valid rs); [| destruct rs; [| exact Hrs]]
  end.
  - destruct (version_findall js_content) as [| m ms].
    + apply categories_valid_flat_map, simple_section_valid.
    + apply categories_valid_flat_map, full_section_valid.
  - unfold _parse_antigravity_direct. apply categories_valid_flat_map, direct_match_valid.
Qed.

Lemma scrape_antigravity_js_valid (self : scraper) :
  always categories_valid
         (_scrape_antigravity_js version_findall simple_findall sub_tags item_findall
            text_findall version_date_finditer desc_search changes_search section_search
            section_texts bundle_search changelog_search requests_get self).
Proof.
  unfold _scrape_antigravity_js.
  apply always_try_except; [| intros e; apply always_ret, List.Forall_nil].
  apply whenever_bind. intros response.
  apply whenever_bind. intros text.
  destruct (bundle_search text); [| apply whenever_ret, List.Forall_nil].
  apply whenever_bind. intros js_response.
  apply whenever_bind. intros js_content.
  match goal with
  | |- whenever _ (match ?sections with Some _ => _ | None => _ end) => destruct sections
  end; [| apply whenever_ret, List.Forall_nil].
  apply whenever_ret, filter_by_category_valid, filter_by_date_valid,
    parse_antigravity_sections_valid.
Qed.

End ScriptCategoryFacts.

(** ** The groups of the blogs *)

Section BlogCategoryFacts.

Variable requests_get : string -> result (Z * string).
Variable strftime : datetime -> string.
Variable now : datetime.
Variable parse_cloud : string -> result cloud_page.
Variable af_data_search : string -> option string.
Variable json_loads : string -> result json.
Variable fromtimestamp : json -> result datetime.
Variable page_source : string -> result string.
Variable parse_medium : string -> result medium_page.
Variable fromisoformat : string -> result pydatetime.
Variable span_ago : string -> bool.
Variable span_month : string -> bool.
Variable relative_search : string -> option string.
Variable month_search : string -> option string.
Variable parse_dev : string -> result dev_page.
Variable parse_article : string -> result article_page.

Lemma one_announcement (d : option pydatetime) (ds title u : string) (us : list string) :
  announcements [BlogRelease d ds [Item title "announcement" us] u].
Proof.
  apply List.Forall_cons; [| apply List.Forall_nil].
  apply List.Forall_cons; [reflexivity | apply List.Forall_nil].
Qed.

Lemma announcements_app (a b : list blog_release) :
  announcements a -> announcements b -> announcements (a ++ b).
Proof. intros Ha Hb. apply Forall_app. now split. Qed.

Lemma filter_loop_valid (self : scraper) (releases : list blog_release) :
  announcements releases -> when_ok categories_valid (filter_loop self releases).
Proof.
  intros H. induction H as [| r rest Hr Hrest IH]; simpl; [apply List.Forall_nil |].
  assert (Hitems : valid_items (b_items r)).
  { eapply List.Forall_impl; [| exact Hr]. intros it ->. in_list. }
  destruct (b_date r) as [[d | d off] |]; [| exact I |].
  - destruct (filter_loop self rest) as [filtered | e]; [| exact I].
    destruct (in_range self d); [| exact IH].
    apply List.Forall_cons; [exact Hitems | exact IH].
  - destruct (filter_loop self rest) as [filtered | e]; [| exact I].
    destruct (negb (strict_mode self)); [| exact IH].
    apply List.Forall_cons; [exact Hitems | exact IH].
Qed.

Lemma article_entry_announcements (self : scraper) (obj : list json) :
  when_ok announcements (article_entry strftime fromtimestamp self obj).
Proof.
  unfold article_entry.
  destruct (nth_error obj 8) as [eighth |]; [| apply List.Forall_nil].
  destruct (nth_error obj 1) as [[| | | | title | |] |]; try apply List.Forall_nil.
  destruct (nth_error obj 7) as [[| | | | url | |] |]; try apply List.Forall_nil.
  destruct (nth_error obj 0) as [[| | | | s0 | |] |]; try apply List.Forall_nil.
  destruct (startswith url _); [| apply List.Forall_nil].
  destruct (json_truthy _); [| apply one_announcement].
  destruct (fromtimestamp _) as [date | []]; simpl; try exact I; apply one_announcement.
Qed.

Lemma extract_articles_announcements (self : scraper) (obj : json) :
  forall releases,
    announcements releases ->
    announcements (fst (_extract_articles_from_json strftime fromtimestamp self obj releases)).
Proof.
  induction obj as [| b | n | m e | s | l IH | l] using json_induction;
    intros releases H; try exact H.
  cbn [_extract_articles_from_json].
  pose proof (article_entry_announcements self l) as Ha.
  destruct (article_entry strftime fromtimestamp self l) as [added | e]; [| exact H].
  assert (H0 : announcements (releases ++ added)) by (now apply announcements_app).
  generalize dependent (releases ++ added)%list. clear Ha H.
  induction IH as [| x rest Hx Hrest IHrest]; intros acc Hacc; [exact Hacc |].
  specialize (Hx acc Hacc).
  destruct (_extract_articles_from_json strftime fromtimestamp self x acc) as [acc' [e |]];
    [exact Hx | now apply IHrest].
Qed.

Lemma collect_cloud_announcements (self : scraper) (page : cloud_page) :
  announcements (collect_cloud strftime af_data_search json_loads fromtimestamp self page).
Proof.
  unfold collect_cloud.
  assert (Hs : forall scripts releases,
             announcements releases ->
             announcements (fold_left (from_script strftime af_data_search json_loads
                                                   fromtimestamp self) scripts releases)).
  { induction scripts as [| script rest IH]; intros releases H; simpl; [exact H |].
    apply IH. unfold from_script. destruct script as [s |]; [| exact H].
    destruct (truthy s && contains s _); [| exact H].
    destruct (af_data_search s); [| exact H].
    destruct (json_loads _); [| exact H].
    now apply extract_articles_announcements. }
  specialize (Hs (cloud_scripts page) [] (List.Forall_nil _)).
  destruct (fold_left _ (cloud_scripts page) []) as [| r l]; [| exact Hs].
  apply Forall_flat_map, List.Forall_forall. intros card _. unfold from_card.
  destruct (card_title card); [| apply List.Forall_nil].
  destruct (card_href card); [apply one_announcement | apply List.Forall_nil].
Qed.

Lemma scrape_cloud_blog_valid (self : scraper) :
  always categories_valid
         (_scrape_cloud_blog requests_get strftime parse_cloud af_data_search json_loads
                             fromtimestamp self).
Proof.
  unfold _scrape_cloud_blog.
  apply always_try_except; [| intros e; apply always_ret, List.Forall_nil].
  apply whenever_bind. intros response.
  apply whenever_bind. intros content.
  apply whenever_bind. intros page.
  apply whenever_lift, filter_loop_valid, collect_cloud_announcements.
Qed.

Lemma from_article_announcements (self : scraper) (article : medium_article) :
  when_ok announcements
          (from_article strftime now fromisoformat span_ago span_month relative_search
                        month_search self article).
Proof.
  unfold from_article. destruct (art_title article) as [title |]; [| apply List.Forall_nil].
  destruct (negb (truthy title) || _); [apply List.Forall_nil |].
  destruct (article_date _ _ _ _ _ _ _ article) as [[date date_str] | e]; [| exact I].
  apply one_announcement.
Qed.

Lemma collect_medium_announcements (self : scraper) (page : medium_page) :
  when_ok announcements
          (collect_medium strftime now fromisoformat span_ago span_month relative_search
                          month_search self page).
Proof.
  unfold collect_medium.
  assert (Ha : forall articles,
             when_ok announcements
                     (from_articles strftime now fromisoformat span_ago span_month
                                    relative_search month_search self articles)).
  { induction articles as [| article rest IH]; simpl; [apply List.Forall_nil |].
    pose proof (from_article_announcements self article) as H1.
    destruct (from_article _ _ _ _ _ _ _ self article) as [first | e]; [| exact I].
    destruct (from_articles _ _ _ _ _ _ _ self rest) as [others | e]; [| exact I].
    now apply announcements_app. }
  specialize (Ha (medium_articles page)).
  destruct (from_articles _ _ _ _ _ _ _ self (medium_articles page)) as [[| r l] | e];
    [| exact Ha | exact I].
  simpl. generalize (@nil blog_release) (List.Forall_nil
    (fun r : blog_release => Forall (fun it => category it = "announcement") (b_items r))).
  induction (medium_links page) as [| link rest IH]; intros releases H; simpl; [exact H |].
  apply IH. unfold from_link.
  destruct (contains _ _ && _ && _); [| exact H].
  destruct (ml_title link) as [title |]; [| exact H].
  destruct (truthy title && _); [| exact H].
  destruct (negb _); [| exact H].
  apply announcements_app; [exact H | apply one_announcement].
Qed.

Lemma scrape_medium_blog_valid (self : scraper) :
  always categories_valid
         (_scrape_medium_blog strftime now page_source parse_medium fromisoformat span_ago
                              span_month relative_search month_search self).
Proof.
  unfold _scrape_medium_blog.
  apply always_try_except; [| intros e; apply always_ret, List.Forall_nil].
  apply whenever_bind. intros source.
  apply whenever_bind. intros page.
  apply whenever_bind_with with (Q := announcements).
  - apply whenever_lift, collect_medium_announcements.
  - intros releases H. now apply whenever_lift, filter_loop_valid.
Qed.

Lemma from_posts_announcements (self : scraper) (posts : list dev_post) :
  when_ok announcements (from_posts strftime self posts).
Proof.
  induction posts as [| post rest IH]; simpl; [apply List.Forall_nil |].
  assert (H1 : when_ok announcements (from_post strftime self post)).
  { unfold from_post. destruct (post_link post) as [[[title |] href] |];
      try apply List.Forall_nil.
    destruct (dev_link href) as [link | e]; [| exact I].
    destruct (match post_date post with Some _ => _ | None => _ end) as [date date_str].
    apply one_announcement. }
  destruct (from_post strftime self post) as [first | e]; [| exact I].
  destruct (from_posts strftime self rest) as [others | e]; [| exact I].
  now apply announcements_app.
Qed.

Lemma from_dev_cards_announcements (self : scraper) (cards : list dev_card) :
  forall releases,
    announcements releases ->
    whenever announcements
             (from_dev_cards requests_get strftime fromisoformat parse_article self cards releases).
Proof.
  induction cards as [| card rest IH]; intros releases H; simpl; [now apply whenever_ret |].
  apply whenever_bind_with with (Q := announcements); [| intros a Ha; now apply IH].
  unfold from_dev_card.
  destruct (match dcard_post_title card with Some t => Some t | None => dcard_headline card end)
    as [title |]; [| now apply whenever_ret].
  apply whenever_bind. intros link.
  destruct (negb (is_duplicate releases title)); [| now apply whenever_ret].
  apply whenever_bind. intros date.
  apply whenever_ret, announcements_app; [exact H | apply one_announcement].
Qed.

Lemma scrape_developers_blog_valid (self : scraper) :
  always categories_valid
         (_scrape_developers_blog requests_get strftime fromisoformat parse_dev parse_article
                                  self).
Proof.
  unfold _scrape_developers_blog.
  apply always_try_except; [| intros e; apply always_ret, List.Forall_nil].
  apply whenever_bind. intros response.
  apply whenever_bind. intros content.
  apply whenever_bind. intros page.
  apply whenever_bind_with with (Q := announcements).
  - apply whenever_lift, from_posts_announcements.
  - intros posts Hposts.
    apply whenever_bind_with with (Q := announcements).
    + now apply from_dev_cards_announcements.
    + intros releases H. now apply whenever_lift, filter_loop_valid.
Qed.

End BlogCategoryFacts.

(** ** Every source kind *)

Section ScrapeCategoryFacts.

Variable requests_get : string -> result (Z * string).
Variable parse_html : string -> result content_area.
Variable _parse_xml_feed : scraper -> string -> result (list release).
Variable _scrape_antigravity_js : scraper -> M (list release).
Variable _scrape_cloud_blog : scraper -> M (list release).
Variable _scrape_developers_blog : scraper -> M (list release).
Variable _scrape_medium_blog : scraper -> M (list release).

Hypothesis feed_valid :
  forall self content, when_ok categories_valid (_parse_xml_feed self content).
Hypothesis antigravity_valid :
  forall self, always categories_valid (_scrape_antigravity_js self).
Hypothesis cloud_blog_valid :
  forall self, always categories_valid (_scrape_cloud_blog self).
Hypothesis developers_blog_valid :
  forall self, always categories_valid (_scrape_developers_blog self).
Hypothesis medium_blog_valid :
  forall self, always categories_valid (_scrape_medium_blog self).

Lemma scrape_html_valid (self : scraper) (url : string) :
  always categories_valid (_scrape_html requests_get parse_html self url).
Proof.
  unfold _scrape_html.
  apply always_try_except; [| intros e; apply always_ret, List.Forall_nil].
  apply whenever_bind. intros response.
  apply whenever_bind. intros content.
  apply whenever_bind. intros area.
  apply whenever_lift, scrape_page_valid.
Qed.

Lemma scrape_valid (self : scraper) :
  always categories_valid
         (Fetch.scrape requests_get parse_html _parse_xml_feed _scrape_antigravity_js
                       _scrape_cloud_blog _scrape_developers_blog _scrape_medium_blog self).
Proof.
  unfold Fetch.scrape.
  destruct (_is_xml_url (self_url self)).
  - apply always_try_except.
    + apply whenever_bind. intros response.
      apply whenever_bind. intros content.
      apply whenever_lift, feed_valid.
    + intros e.
      destruct e as [| | | | | | [status_code |]]; try apply always_ret, List.Forall_nil.
      destruct (status_code =? 404)%Z; [| apply always_ret, List.Forall_nil].
      destruct (_get_fallback_url self) as [fallback_url |];
        [| apply always_ret, List.Forall_nil].
      destruct (truthy fallback_url); [apply scrape_html_valid |].
      apply always_ret, List.Forall_nil.
  - destruct (_is_antigravity_url (self_url self)); [apply antigravity_valid |].
    destruct (String.eqb _ "cloud_blog"); [apply cloud_blog_valid |].
    destruct (String.eqb _ "developers_blog"); [apply developers_blog_valid |].
    destruct (String.eqb _ "medium_blog"); [apply medium_blog_valid |].
    apply scrape_html_valid.
Qed.

End ScrapeCategoryFacts.

Lemma library_feed_valid (lib : Sources.library) (self : scraper) (content : string) :
  when_ok categories_valid (Sources._parse_xml_feed lib self content).
Proof. apply parse_xml_feed_valid. intros c t l. apply parse_xml_content_valid. Qed.

(** C9. Every category written into an item is one of the eleven values,
    on every path.  [scrape] returns on every source, whatever the
    network, the parsers and the patterns answer, and every item of every
    group it returns carries one of the eleven categories.  The same
    holds of each path by itself: the groups of a feed, the groups of an
    HTML page (structured, table-based and unstructured strategies), the
    groups of the embedded script before the filters, and the groups of
    the three blog scrapers, whose items are announcements.  The
    classifier returns one of the eleven values on every element and
    text, the accordion mapping and the section table of the embedded
    script use [ga], [fixed] and [update], and the list has eleven
    distinct entries. *)
Theorem emitted_category_valid :
  (forall (lib : Sources.library) (self : scraper) (log : list string),
      exists releases,
        fst (Sources.scrape lib self log) = Ok releases /\ categories_valid releases)
  /\ (forall lib self content,
         match Sources._parse_xml_feed lib self content with
         | Ok releases => categories_valid releases
         | Raise _ => True
         end)
  /\ (forall lib content title entry_link,
         match Sources._parse_xml_content lib content title entry_link with
         | Ok items => Forall (fun it => In (category it) VALID_CATEGORIES) items
         | Raise _ => True
         end)
  /\ (forall self page_url area,
         match scrape_page self page_url area with
         | Ok releases => categories_valid releases
         | Raise _ => True
         end)
  /\ (forall lib self js_content,
         categories_valid
           (_parse_antigravity_sections
              (Sources.version_findall lib) (Sources.simple_findall lib) (Sources.sub_tags lib)
              (Sources.item_findall lib) (Sources.text_findall lib)
              (Sources.version_date_finditer lib) (Sources.desc_search lib)
              (Sources.changes_search lib) (Sources.section_search lib)
              (Sources.section_texts lib) self js_content))
  /\ (forall lib self log,
         exists releases,
           fst (Sources._scrape_antigravity_js lib self log) = Ok releases
           /\ categories_valid releases)
  /\ (forall lib self page,
         announcements
           (collect_cloud (Sources.strftime lib) (Sources.af_data_search lib)
                          (Sources.json_loads lib) (Sources.fromtimestamp lib) self page))
  /\ (forall lib self page,
         match collect_medium (Sources.strftime lib) (Sources.now lib)
                              (Sources.fromisoformat lib) (Sources.span_ago lib)
                              (Sources.span_month lib) (Sources.relative_search lib)
                              (Sources.month_search lib) self page with
         | Ok releases => announcements releases
         | Raise _ => True
         end)
  /\ (forall lib self posts cards log,
         match from_posts (Sources.strftime lib) self posts with
         | Ok releases =>
             match fst (from_dev_cards (Sources.requests_get lib) (Sources.strftime lib)
                                       (Sources.fromisoformat lib) (Sources.parse_article lib)
                                       self cards releases log) with
             | Ok releases => announcements releases
             | Raise _ => True
             end
         | Raise _ => True
         end)
  /\ (forall lib self log,
         exists releases,
           fst (Sources._scrape_cloud_blog lib self log) = Ok releases
           /\ categories_valid releases)
  /\ (forall lib self log,
         exists releases,
           fst (Sources._scrape_medium_blog lib self log) = Ok releases
           /\ categories_valid releases)
  /\ (forall lib self log,
         exists releases,
           fst (Sources._scrape_developers_blog lib self log) = Ok releases
           /\ categories_valid releases)
  /\ (forall element text, In (_categorize_item element text) VALID_CATEGORIES)
  /\ (forall item_title, In (accordion_category item_title) VALID_CATEGORIES)
  /\ Forall (fun section => In (snd section) VALID_CATEGORIES) DIRECT_SECTIONS
  /\ In BLOG_CATEGORY VALID_CATEGORIES
  /\ VALID_CATEGORIES
     = ["ga"; "public-preview"; "breaking"; "security"; "deprecated"; "fixed";
        "issue"; "change"; "announcement"; "libraries"; "update"]
  /\ NoDup VALID_CATEGORIES.
Proof.
  split.
  { intros lib self. unfold Sources.scrape. apply scrape_valid.
    - apply library_feed_valid.
    - intros s. apply scrape_antigravity_js_valid.
    - intros s. apply scrape_cloud_blog_valid.
    - intros s. apply scrape_developers_blog_valid.
    - intros s. apply scrape_medium_blog_valid. }
  split; [exact library_feed_valid |].
  split; [intros lib content title entry_link; apply parse_xml_content_valid |].
  split; [exact scrape_page_valid |].
  split; [intros lib self js_content; apply parse_antigravity_sections_valid |].
  split; [intros lib self; apply scrape_antigravity_js_valid |].
  split; [intros lib self page; apply collect_cloud_announcements |].
  split; [intros lib self page; apply collect_medium_announcements |].
  split.
  { intros lib self posts cards log.
    pose proof (from_posts_announcements (Sources.strftime lib) self posts) as Hposts.
    destruct (from_posts (Sources.strftime lib) self posts) as [releases | e]; [| exact I].
    now apply from_dev_cards_announcements. }
  split; [intros lib self; apply scrape_cloud_blog_valid |].
  split; [intros lib self; apply scrape_medium_blog_valid |].
  split; [intros lib self; apply scrape_developers_blog_valid |].
  split; [exact categorize_item_valid |].
  split; [exact accordion_category_valid |].
  split; [repeat (apply List.Forall_cons; [in_list |]); apply List.Forall_nil |].
  split; [in_list |].
  split; [reflexivity |].
  now apply (bool_decide_unpack _).
Qed.

(** ** The date filter of the blog scrapers *)

Section BlogFilterFacts.

(** A date that is aware anywhere in the collected groups makes the
    filter loop raise. *)
Lemma filter_loop_aware (self : scraper) (rs : list blog_release) (r : blog_release)
      (d : datetime) (utcoffset : Z) :
  In r rs -> b_date r = Some (Aware d utcoffset) -> filter_loop self rs = Raise TypeError.
Proof.
  intros Hin Hd. induction rs as [| x rest IH]; [destruct Hin |].
  cbn [filter_loop]. destruct Hin as [-> | Hin].
  - now rewrite Hd.
  - specialize (IH Hin). rewrite IH. now destruct (b_date x) as [[] |].
Qed.

(** When no collected date is aware the loop returns, and a group without
    a date is kept exactly when strict mode is off. *)
Lemma filter_loop_undated (self : scraper) (rs : list blog_release) (r : blog_release) :
  (forall x d utcoffset, In x rs -> b_date x <> Some (Aware d utcoffset)) ->
  In r rs -> b_date r = None ->
  exists kept,
    filter_loop self rs = Ok kept
    /\ (In (Release None (b_date_str r) (b_items r) (b_url r)) kept
        <-> strict_mode self = false).
Proof.
  intros Hnaive Hin Hd.
  assert (Hret : exists kept,
             filter_loop self rs = Ok kept
             /\ (forall g, In g kept -> date g = None -> strict_mode self = false)
             /\ (strict_mode self = false ->
                 forall x, In x rs -> b_date x = None ->
                           In (Release None (b_date_str x) (b_items x) (b_url x)) kept)).
  { clear r Hin Hd. induction rs as [| x rest IH].
    - exists []. repeat split; intros; contradiction.
    - destruct IH as [kept [Hk [Hnone Hall]]].
      { intros y d off Hy. apply Hnaive. now right. }
      cbn [filter_loop]. rewrite Hk.
      destruct (b_date x) as [[d | d off] |] eqn:Hx.
      + destruct (in_range self d).
        * eexists. split; [reflexivity |]. split.
          -- intros g [<- | Hg] Hdate; [discriminate | now apply (Hnone g)].
          -- intros Hs y [<- | Hy] Hdy; [congruence | right; now apply Hall].
        * exists kept. split; [reflexivity |]. split; [exact Hnone |].
          intros Hs y [<- | Hy] Hdy; [congruence | now apply Hall].
      + exfalso. apply (Hnaive x d off); [now left | exact Hx].
      + destruct (strict_mode self) eqn:Hs; cbn [negb].
        * exists kept. split; [reflexivity |]. split; [exact Hnone | discriminate].
        * eexists. split; [reflexivity |]. split; [reflexivity |].
          intros _ y [<- | Hy] Hdy; [now left | right; now apply Hall]. }
  destruct Hret as [kept [Hk [Hnone Hall]]]. exists kept. split; [exact Hk |]. split.
  - intros Hg. now apply (Hnone _ Hg eq_refl).
  - intros Hs. now apply Hall.
Qed.

Lemma filter_loop_undated_example :
  exists kept,
    filter_loop dev_scraper
      [BlogRelease None "Recent"
                   [Item "Gemma 3n is here" "announcement"
                         ["https://developers.googleblog.com/gemma-3n/"]] dev_url]
    = Ok kept
    /\ (In (Release None "Recent"
                    [Item "Gemma 3n is here" "announcement"
                          ["https://developers.googleblog.com/gemma-3n/"]] dev_url) kept
        <-> strict_mode dev_scraper = false).
Proof.
  refine (filter_loop_undated dev_scraper _
            (BlogRelease None "Recent"
                         [Item "Gemma 3n is here" "announcement"
                               ["https://developers.googleblog.com/gemma-3n/"]] dev_url)
            _ _ eq_refl).
  - intros x d off [<- | []]. discriminate.
  - now left.
Defined.

(** C1. The rule for groups without a date is broken by a date that
    carries a time zone.  [dev_scraper] is built with a month count only,
    so strict mode is off.  On the front page [dev_front] the post gives
    a group without a date, and the card gets its date from the [meta]
    tag of its article, which [fromisoformat] reads as a date aware of
    its offset.  The comparison of that date with the cut-off raises
    [TypeError], the scraper returns the empty list, and the group
    without a date is not in the output.  On the same page without the
    card the group is kept, and in every list with an aware date the
    loop raises. *)
Theorem aware_date_loses_undated_group (strftime : datetime -> string) :
  let scrape page :=
    _scrape_developers_blog network strftime fromisoformat0 (fun _ => Ok page)
                            (fun _ => Ok dev_article) dev_scraper in
  let post :=
    BlogRelease None "Recent"
                [Item "Gemma 3n is here" "announcement"
                      ["https://developers.googleblog.com/gemma-3n/"]] dev_url in
  let card :=
    BlogRelease (Some (Aware (at_ 2025 6 10 8 0 0) 0%Z)) (strftime (at_ 2025 6 10 8 0 0))
                [Item "Introducing Agent Kit" "announcement"
                      ["https://developers.googleblog.com/agent-kit/"]] dev_url in
  strict_mode dev_scraper = false
  /\ __init__ now0 dev_url (Some 3%Z) None None None None (Some "custom") = Ok dev_scraper
  /\ from_posts strftime dev_scraper (dev_posts dev_front) = Ok [post]
  /\ fst (from_dev_cards network strftime fromisoformat0 (fun _ => Ok dev_article)
                         dev_scraper (dev_cards dev_front) [post] [dev_url])
     = Ok [post; card]
  /\ filter_loop dev_scraper [post; card] = Raise TypeError
  /\ scrape dev_front [] = (Ok [], [dev_url; "https://developers.googleblog.com/agent-kit/"])
  /\ scrape dev_front_posts []
     = (Ok [Release None "Recent"
                    [Item "Gemma 3n is here" "announcement"
                          ["https://developers.googleblog.com/gemma-3n/"]] dev_url],
        [dev_url])
  /\ (forall self rs r d utcoffset,
         In r rs -> b_date r = Some (Aware d utcoffset) ->
         filter_loop self rs = Raise TypeError).
Proof.
  cbv zeta. repeat split; try reflexivity.
  intros self rs r d utcoffset. apply filter_loop_aware.
Qed.

End BlogFilterFacts.
